(** * Bot-Extended: market-data provider, metadata cache and best-order strategy

    A shallow embedding of
      - [core/realtime_market_data.py]  (RealTimeMarketDataProvider),
      - [core/market_utils.py]          (MarketUtils),
      - [core/account_utils.py]         (AccountUtils.get_positions),
      - [strategies/best_order.py]      (BestOrderStrategy.execute and the
                                         filter of its logger),
      - [cli.py]                        (the commands of TradingCLI),
    together with the part of Python's [decimal] module that the strategy
    relies on, followed by the properties of the specification and by
    further properties of the code. *)

From Stdlib Require Import ZArith QArith Qabs Qpower Qfield Lia Bool List Ascii String.
From Stdlib Require Import Sorted Permutation DecimalString.
From stdpp Require Import gmap strings list fin_maps.

Local Open Scope Z_scope.

(* ===================================================================== *)
(** ** Python strings: [str.upper], [str.lower], [x in s]                 *)
(* ===================================================================== *)

(** Market names and side aliases are ASCII; [upper] and [lower] map the
    ASCII letters and leave every other byte alone. *)
Module PyStr.

Definition upper_ascii (c : ascii) : ascii :=
  let n := nat_of_ascii c in
  if ((97 <=? n) && (n <=? 122))%nat then ascii_of_nat (n - 32) else c.

Definition lower_ascii (c : ascii) : ascii :=
  let n := nat_of_ascii c in
  if ((65 <=? n) && (n <=? 90))%nat then ascii_of_nat (n + 32) else c.

Fixpoint upper (s : string) : string :=
  match s with
  | EmptyString => EmptyString
  | String c r => String (upper_ascii c) (upper r)
  end.

Fixpoint lower (s : string) : string :=
  match s with
  | EmptyString => EmptyString
  | String c r => String (lower_ascii c) (lower r)
  end.

Fixpoint starts_with (p s : string) : bool :=
  match p, s with
  | EmptyString, _ => true
  | String a p', String b s' => if Ascii.eqb a b then starts_with p' s' else false
  | String _ _, EmptyString => false
  end.

(** [needle in hay] on strings. *)
Fixpoint contains (needle hay : string) : bool :=
  starts_with needle hay ||
  match hay with
  | EmptyString => false
  | String _ r => contains needle r
  end.

(** Truthiness of a [str]: non-empty. *)
Definition truthy (s : string) : bool :=
  match s with EmptyString => false | _ => true end.

(** [s.endswith(suffix)]: one of the tails of [s] is [suffix]. *)
Fixpoint ends_with (suffix s : string) : bool :=
  String.eqb suffix s ||
  match s with
  | EmptyString => false
  | String _ r => ends_with suffix r
  end.

(** [c.isspace()] on ASCII: tab to carriage return, the four
    separators, and the blank. *)
Definition is_space (c : ascii) : bool :=
  let n := nat_of_ascii c in
  ((9 <=? n) && (n <=? 13) || (28 <=? n) && (n <=? 32))%nat.

(** The word that starts at the head of [s] (empty when [s] starts with
    white space), and the words after it. *)
Fixpoint words (s : string) : string * list string :=
  match s with
  | EmptyString => (EmptyString, [])
  | String c r =>
      let '(w, ws) := words r in
      if is_space c then (EmptyString, if truthy w then w :: ws else ws)
      else (String c w, ws)
  end.

(** [s.split()]: the maximal runs of characters that are not white
    space. *)
Definition split (s : string) : list string :=
  let '(w, ws) := words s in if truthy w then w :: ws else ws.

Fixpoint lstrip (s : string) : string :=
  match s with
  | EmptyString => EmptyString
  | String c r => if is_space c then lstrip r else s
  end.

Fixpoint rstrip (s : string) : string :=
  match s with
  | EmptyString => EmptyString
  | String c r =>
      let r' := rstrip r in
      if is_space c && negb (truthy r') then EmptyString else String c r'
  end.

(** [s.strip()] *)
Definition strip (s : string) : string := lstrip (rstrip s).

Definition is_digit (c : ascii) : bool :=
  let n := nat_of_ascii c in ((48 <=? n) && (n <=? 57))%nat.

Fixpoint all_digits (s : string) : bool :=
  match s with
  | EmptyString => true
  | String c r => is_digit c && all_digits r
  end.

(** [s.isdigit()] on ASCII: not empty, and digits only. *)
Definition isdigit (s : string) : bool := truthy s && all_digits s.

(** [int(s)] for a string of digits. *)
Fixpoint int_digits (s : string) (acc : Z) : Z :=
  match s with
  | EmptyString => acc
  | String c r => int_digits r (10 * acc + (Z.of_nat (nat_of_ascii c) - 48))
  end.

Definition int (s : string) : Z := int_digits s 0.

End PyStr.

(* ===================================================================== *)
(** ** [decimal.Decimal], finite values, default context                  *)
(* ===================================================================== *)

(** A finite [Decimal] is the triple [(_sign, _int, _exp)]; the model keeps
    the coefficient as a number instead of a digit string.  The context is
    Python's default one: 28 digits, ROUND_HALF_EVEN, Emax = 999999,
    Emin = -999999, traps on InvalidOperation, DivisionByZero and Overflow.
    NaN and the infinities are outside the model. *)
Module Decimal.

Record t := Dec { sign : bool; coeff : N; exp : Z }.

Inductive signal :=
| InvalidOperation
| ConversionSyntax
| DivisionByZero
| DivisionUndefined
| Overflow.

Inductive res (A : Type) :=
| Ok (a : A)
| Raise (e : signal).
Arguments Ok {A} a.
Arguments Raise {A} e.

Definition prec : Z := 28.
Definition Emax : Z := 999999.
Definition Emin : Z := -999999.
Definition Etiny : Z := Emin - prec + 1.
Definition Etop : Z := Emax - prec + 1.

(** [len(self._int)]: the number of decimal digits, 1 for zero. *)
Fixpoint ndigits_fuel (fuel : nat) (c : Z) : Z :=
  match fuel with
  | O => 1
  | S f => if c <? 10 then 1 else 1 + ndigits_fuel f (c / 10)
  end.

Definition ndigits (c : Z) : Z := ndigits_fuel (S (Z.to_nat (Z.log2 c))) c.

(** [self.adjusted()] *)
Definition adjusted (d : t) : Z := exp d + ndigits (Z.of_N (coeff d)) - 1.

(** The numerator of the value with its sign. *)
Definition signed (d : t) : Z :=
  if sign d then - Z.of_N (coeff d) else Z.of_N (coeff d).

(** The value as a rational: [signed * 10 ^ exp]. *)
Definition to_Q (d : t) : Q := (inject_Z (signed d) * Qpower 10 (exp d))%Q.

(** [_round_half_even(self, prec)] on a coefficient [c] of which the last
    [drop] digits go: 1 to round away from zero, 0 when the dropped digits
    are all zero, -1 otherwise. *)
Definition round_half_even (c drop : Z) : Z :=
  let p := 10 ^ drop in
  let q := c / p in
  let r := c mod p in
  if (2 * r =? p) && Z.even q then -1
  else if p <=? 2 * r then 1
  else if r =? 0 then 0
  else -1.

(** [Decimal._fix(context)]: round to the context precision and check the
    exponent range. *)
Definition fix_ (d : t) : res t :=
  let c := Z.of_N (coeff d) in
  if c =? 0 then
    Ok (Dec (sign d) 0 (Z.min (Z.max (exp d) Etiny) Emax))
  else
    let len := ndigits c in
    let exp_min := len + exp d - prec in
    if Etop <? exp_min then Raise Overflow
    else
      let exp_min := Z.max exp_min Etiny in
      if exp d <? exp_min then
        let digits := len + exp d - exp_min in
        let '(c, len) := if digits <? 0 then (1, 1) else (c, len) in
        let digits := Z.max digits 0 in
        let drop := len - digits in
        let changed := round_half_even c drop in
        let kept := c / 10 ^ drop in
        let '(kept, exp_min) :=
          if 0 <? changed then
            if prec <? ndigits (kept + 1) then ((kept + 1) / 10, exp_min + 1)
            else (kept + 1, exp_min)
          else (kept, exp_min) in
        if Etop <? exp_min then Raise Overflow
        else Ok (Dec (sign d) (Z.to_N kept) exp_min)
      else Ok d.

(** The loop of [__truediv__] that moves an exact quotient towards the
    ideal exponent. *)
Fixpoint strip_zeros (fuel : nat) (c e ideal : Z) : Z * Z :=
  match fuel with
  | O => (c, e)
  | S f =>
      if (e <? ideal) && (c mod 10 =? 0) then strip_zeros f (c / 10) (e + 1) ideal
      else (c, e)
  end.

(** [Decimal.__truediv__] *)
Definition div (a b : t) : res t :=
  let sg := xorb (sign a) (sign b) in
  let ca := Z.of_N (coeff a) in
  let cb := Z.of_N (coeff b) in
  if cb =? 0 then
    if ca =? 0 then Raise DivisionUndefined else Raise DivisionByZero
  else if ca =? 0 then
    fix_ (Dec sg 0 (exp a - exp b))
  else
    let shift := ndigits cb - ndigits ca + prec + 1 in
    let e := exp a - exp b - shift in
    let '(q, r) :=
      if 0 <=? shift then (ca * 10 ^ shift / cb, (ca * 10 ^ shift) mod cb)
      else (ca / (cb * 10 ^ (- shift)), ca mod (cb * 10 ^ (- shift))) in
    if negb (r =? 0) then
      fix_ (Dec sg (Z.to_N (if q mod 5 =? 0 then q + 1 else q)) e)
    else
      let ideal := exp a - exp b in
      let '(q, e) := strip_zeros (Z.to_nat (ideal - e)) q e ideal in
      fix_ (Dec sg (Z.to_N q) e).

(** [Decimal._rescale(exp, ROUND_HALF_EVEN)] *)
Definition rescale (d : t) (e : Z) : t :=
  let c := Z.of_N (coeff d) in
  if c =? 0 then Dec (sign d) 0 e
  else if e <=? exp d then Dec (sign d) (Z.to_N (c * 10 ^ (exp d - e))) e
  else
    let len := ndigits c in
    let digits := len + exp d - e in
    let '(c, len) := if digits <? 0 then (1, 1) else (c, len) in
    let digits := Z.max digits 0 in
    let drop := len - digits in
    let changed := round_half_even c drop in
    let kept := c / 10 ^ drop in
    Dec (sign d) (Z.to_N (if changed =? 1 then kept + 1 else kept)) e.

(** [Decimal.quantize(exp)] with the context's rounding. *)
Definition quantize (d q : t) : res t :=
  if negb ((Etiny <=? exp q) && (exp q <=? Emax)) then Raise InvalidOperation
  else if Z.of_N (coeff d) =? 0 then fix_ (Dec (sign d) 0 (exp q))
  else if Emax <? adjusted d then Raise InvalidOperation
  else if prec <? adjusted d - exp q + 1 then Raise InvalidOperation
  else
    let ans := rescale d (exp q) in
    if Emax <? adjusted ans then Raise InvalidOperation
    else if prec <? ndigits (Z.of_N (coeff ans)) then Raise InvalidOperation
    else fix_ ans.

(** [a < b] on finite decimals: the comparison of the two values. *)
Definition ltb (a b : t) : bool :=
  let m := Z.min (exp a) (exp b) in
  signed a * 10 ^ (exp a - m) <? signed b * 10 ^ (exp b - m).

(** [bool(d)]: a Decimal is truthy unless it is zero. *)
Definition truthy (d : t) : bool := negb (coeff d =? 0)%N.

(** *** [Decimal(s)] for a string

    The string is stripped of the white space around it and of all its
    underscores; what is left is a number when it reads
    [sign? (digits ('.' digits?)? | '.' digits) ([eE] sign? digits)?].
    Python also accepts the texts that denote an infinity or a NaN
    ([special] below).  The values of the model are the finite ones: it
    does not follow what the program does with an infinity or a NaN, and
    [of_string] gives ConversionSyntax for these texts as for the
    texts that Python rejects.  The statements that rest on a text
    failing to parse exclude the special texts. *)

(** [s.strip().replace("_", "")] *)
Fixpoint without_underscores (s : string) : string :=
  match s with
  | EmptyString => EmptyString
  | String a r =>
      if Ascii.eqb a "_" then without_underscores r else String a (without_underscores r)
  end.

Definition cleaned (s : string) : string := without_underscores (PyStr.strip s).

Definition digit_of (a : ascii) : option Z :=
  let n := nat_of_ascii a in
  if ((48 <=? n) && (n <=? 57))%nat then Some (Z.of_nat n - 48) else None.

(** Reads a maximal run of digits: accumulated number, how many digits,
    and the rest. *)
Fixpoint read_digits (s : string) (acc : Z) (n : Z) : Z * Z * string :=
  match s with
  | EmptyString => (acc, n, s)
  | String a r =>
      match digit_of a with
      | Some v => read_digits r (10 * acc + v) (n + 1)
      | None => (acc, n, s)
      end
  end.

Definition read_sign (s : string) : bool * string :=
  match s with
  | String "-"%char r => (true, r)
  | String "+"%char r => (false, r)
  | _ => (false, s)
  end.

Definition read_exponent (s : string) : option Z :=
  match s with
  | EmptyString => Some 0
  | String a r =>
      if (Ascii.eqb a "e" || Ascii.eqb a "E")%bool then
        let '(neg, r1) := read_sign r in
        let '(v, n, r2) := read_digits r1 0 0 in
        match r2 with
        | EmptyString => if 0 <? n then Some (if neg then - v else v) else None
        | _ => None
        end
      else None
  end.

(** The bounds within which a number is taken as it is written (those
    of the C implementation on a 64-bit machine); beyond them the
    constructor signals InvalidOperation. *)
Definition MAX_EMAX : Z := 999999999999999999.
Definition MIN_ETINY : Z := -1999999999999999997.

Definition of_string (s : string) : res t :=
  let '(sg, s1) := read_sign (cleaned s) in
  let '(ip, ni, s2) := read_digits s1 0 0 in
  let '(c, nf, s3) :=
    match s2 with
    | String "."%char r => let '(c, nf, r') := read_digits r ip 0 in (c, nf, r')
    | _ => (ip, 0, s2)
    end in
  if ni + nf =? 0 then Raise ConversionSyntax
  else
    match read_exponent s3 with
    | Some e =>
        let d := Dec sg (Z.to_N c) (e - nf) in
        if (adjusted d <=? MAX_EMAX) && (MIN_ETINY <=? exp d) then Ok d
        else Raise InvalidOperation
    | None => Raise ConversionSyntax
    end.

(** The texts that Python reads as an infinity or as a NaN:
    a sign if any, then "Inf", "Infinity", or "NaN" or "sNaN" with
    digits after it if any, in any casing, after the same cleaning. *)
Definition special (s : string) : bool :=
  let '(_, s1) := read_sign (cleaned s) in
  let l := PyStr.lower s1 in
  let nan := match l with String "s"%char r => r | _ => l end in
  String.eqb l "inf" || String.eqb l "infinity" ||
  (PyStr.starts_with "nan" nan && PyStr.all_digits (String.substring 3 (String.length nan) nan)).

(** *** [str(d)]: [__str__] for a finite value, scientific notation
    with a capital E, as in the default context *)

(** [self._int]: the digits of the coefficient, "0" for zero. *)
Definition int_text (c : N) : string := NilZero.string_of_uint (N.to_uint c).

(** ['0' * n] *)
Fixpoint zeros (n : nat) : string :=
  match n with
  | O => EmptyString
  | S k => String "0" (zeros k)
  end.

Definition to_str (d : t) : string :=
  let _int := int_text (coeff d) in
  let len := Z.of_nat (String.length _int) in
  let leftdigits := exp d + len in
  let dotplace := if (exp d <=? 0) && (-6 <? leftdigits) then leftdigits else 1 in
  let intpart :=
    if dotplace <=? 0 then "0"%string
    else if len <=? dotplace then (_int ++ zeros (Z.to_nat (dotplace - len)))%string
    else String.substring 0 (Z.to_nat dotplace) _int in
  let fracpart :=
    if dotplace <=? 0 then ("." ++ zeros (Z.to_nat (- dotplace)) ++ _int)%string
    else if len <=? dotplace then EmptyString
    else ("." ++ String.substring (Z.to_nat dotplace) (Z.to_nat (len - dotplace)) _int)%string in
  let exponent :=
    if leftdigits =? dotplace then EmptyString
    else ("E" ++ (if (0 <=? leftdigits - dotplace)%Z then "+" else "-")
              ++ int_text (Z.to_N (Z.abs (leftdigits - dotplace))))%string in
  ((if sign d then "-" else "") ++ intpart ++ fracpart ++ exponent)%string.

End Decimal.

(* ===================================================================== *)
(** ** Python values met in venue data                                    *)
(* ===================================================================== *)

(** What a field of a feed message or of a market object can hold: nothing,
    a string, or a finite number (given by the decimal that [str]
    prints). *)
Module PyVal.

Inductive t :=
| PyNone
| PyStr (s : string)
| PyNum (d : Decimal.t).

(** Truthiness, as in [if v:]. *)
Definition truthy (v : t) : bool :=
  match v with
  | PyNone => false
  | PyStr s => PyStr.truthy s
  | PyNum d => Decimal.truthy d
  end.

(** [Decimal(str(v))] *)
Definition to_decimal (v : t) : Decimal.res Decimal.t :=
  match v with
  | PyNone => Decimal.Raise Decimal.ConversionSyntax
  | PyStr s => Decimal.of_string s
  | PyNum d => Decimal.Ok d
  end.

(** [str(v)] denotes an infinity or a NaN. *)
Definition special (v : t) : bool :=
  match v with
  | PyStr s => Decimal.special s
  | _ => false
  end.

(** [str(v)], the text that an f-string puts for the value.  A number is
    printed as its decimal.  (Python prints a float with an exponent in a
    form of its own, with a small e; none of the texts that the program
    looks for can lie in either form.) *)
Definition str (v : t) : string :=
  match v with
  | PyNone => "None"
  | PyStr s => s
  | PyNum d => Decimal.to_str d
  end.

End PyVal.

(* ===================================================================== *)
(** ** Python dicts that are iterated: insertion-ordered                  *)
(* ===================================================================== *)

Module ODict.
Section WithValue.
Context {V : Type}.

(** [d.get(k)] *)
Fixpoint get (k : string) (d : list (string * V)) : option V :=
  match d with
  | [] => None
  | (k', v) :: r => if String.eqb k k' then Some v else get k r
  end.

(** [d[k] = v]: an existing key keeps its place, a new one goes last. *)
Fixpoint set (k : string) (v : V) (d : list (string * V)) : list (string * V) :=
  match d with
  | [] => [(k, v)]
  | (k', v') :: r =>
      if String.eqb k k' then (k', v) :: r else (k', v') :: set k v r
  end.

(** [d.values()] *)
Definition values (d : list (string * V)) : list V := map snd d.

Definition keys (d : list (string * V)) : list string := map fst d.

(** Truthiness of a dict: non-empty. *)
Definition truthy (d : list (string * V)) : bool :=
  match d with [] => false | _ => true end.
End WithValue.
End ODict.

(* ===================================================================== *)
(** ** core/market_utils.py                                               *)
(* ===================================================================== *)

Module MarketUtils.

Definition CACHE_DURATION_SECONDS : Q := 60.

Record trading_config_t := TradingConfig {
  min_order_size : PyVal.t;
  min_order_size_change : PyVal.t
}.

Record market_stats_t := MarketStats {
  daily_volume : PyVal.t;
  last_price : PyVal.t
}.

(** A market object of the venue's client.  [None] in [trading_config]
    stands for an object without that attribute; [None] in
    [market_stats] for a missing or [None] attribute. *)
Record market := Market {
  name : string;
  trading_config : option trading_config_t;
  market_stats : option market_stats_t
}.

(** [self._market_cache] and [self._cache_timestamps]. *)
Record state := State {
  _market_cache : list (string * market);
  _cache_timestamps : list (string * Q)
}.

Definition init : state := State [] [].

(** What the outside world hands to one call: the answer of
    [trading_client.markets_info.get_markets()] ([None] when it raises)
    and the reading of [time.time()] taken right after it. *)
Record api := Api {
  markets_response : option (list market);
  current_time : Q
}.

Definition Qltb (x y : Q) : bool := negb (Qle_bool y x).

(** Truthiness of a float. *)
Definition truthy_float (x : Q) : bool := negb (Qeq_bool x 0).

Definition cache_one (current_time : Q) (st : state) (m : market) : state :=
  State (ODict.set (name m) m (_market_cache st))
        (ODict.set (name m) current_time (_cache_timestamps st)).

(** [_fetch_and_cache_all_markets]: a failure of the call is logged and
    leaves the cache as it was. *)
Definition _fetch_and_cache_all_markets (a : api) (st : state) : state :=
  match markets_response a with
  | Some data => fold_left (cache_one (current_time a)) data st
  | None => st
  end.

(** [get_market_object]; [now] is the reading of [time.time()] in the
    freshness test.  The last component counts the bulk fetches made. *)
Definition get_market_object (now : Q) (a : api) (st : state) (market_name : string)
  : option market * state * nat :=
  let cached_market := ODict.get market_name (_market_cache st) in
  let cache_timestamp := ODict.get market_name (_cache_timestamps st) in
  let refresh :=
    let st' := _fetch_and_cache_all_markets a st in
    (ODict.get market_name (_market_cache st'), st', 1%nat) in
  match cached_market, cache_timestamp with
  | Some m, Some ts =>
      if truthy_float ts && Qltb (now - ts) CACHE_DURATION_SECONDS
      then (Some m, st, 0%nat)
      else refresh
  | _, _ => refresh
  end.

(** [any(time.time() - ts < CACHE_DURATION_SECONDS for ts in ...)]; the
    clock is read anew for every timestamp looked at: [now i] is the
    [i]-th reading. *)
Fixpoint any_fresh (now : nat -> Q) (i : nat) (tss : list Q) : bool :=
  match tss with
  | [] => false
  | ts :: r => Qltb (now i - ts) CACHE_DURATION_SECONDS || any_fresh now (S i) r
  end.

(** [l[:n]] *)
Definition slice_to (n : Z) {A} (l : list A) : list A :=
  if 0 <=? n then take (Z.to_nat n) l
  else take (Z.to_nat (Z.of_nat (length l) + n)) l.

Section Volume.
(** [float(x)] on a volume field: the float as a rational, [None] when
    the conversion raises ValueError or TypeError. *)
Variable py_float : PyVal.t -> option Q.

(** [float(m.market_stats.daily_volume)], [None] when one of
    AttributeError, ValueError, TypeError is raised. *)
Definition volume_of (m : market) : option Q :=
  match market_stats m with
  | Some s => py_float (daily_volume s)
  | None => None
  end.

(** The loop that builds [markets_list_to_sort]. *)
Fixpoint with_volume (l : list market) : list (market * Q) :=
  match l with
  | [] => []
  | m :: r =>
      match volume_of m with
      | Some v => (m, v) :: with_volume r
      | None => with_volume r
      end
  end.

(** [list.sort(key=lambda item: item[1], reverse=True)]: stable, the
    larger volume first. *)
Fixpoint insert_desc (x : market * Q) (l : list (market * Q)) : list (market * Q) :=
  match l with
  | [] => [x]
  | y :: r => if Qltb (snd x) (snd y) then y :: insert_desc x r else x :: y :: r
  end.

Fixpoint sort_desc (l : list (market * Q)) : list (market * Q) :=
  match l with
  | [] => []
  | x :: r => insert_desc x (sort_desc r)
  end.

(** [get_markets]; the last component counts the bulk fetches made. *)
Definition get_markets (now : nat -> Q) (a : api) (st : state) (top_n : option Z)
  : list market * state * nat :=
  let '(st1, fetches) :=
    if ODict.truthy (_market_cache st) && ODict.truthy (_cache_timestamps st) then
      if negb (any_fresh now 0 (ODict.values (_cache_timestamps st)))
      then (_fetch_and_cache_all_markets a st, 1%nat)
      else if negb (ODict.truthy (_market_cache st))
           then (_fetch_and_cache_all_markets a st, 1%nat)
           else (st, 0%nat)
    else (st, 0%nat) in
  let markets_list := ODict.values (_market_cache st1) in
  if negb (match markets_list with [] => false | _ => true end)
     && negb (ODict.truthy (_market_cache st1))
  then ([], st1, fetches)
  else
    match top_n with
    | Some n => (map fst (slice_to n (sort_desc (with_volume markets_list))), st1, fetches)
    | None => (markets_list, st1, fetches)
    end.
End Volume.

(** A [float] that keeps the decimal value (the binary rounding of
    [float] is left out): used to run the model on examples. *)
Definition exact_float (v : PyVal.t) : option Q :=
  match PyVal.to_decimal v with
  | Decimal.Ok d => Some (Decimal.to_Q d)
  | Decimal.Raise _ => None
  end.

End MarketUtils.
(* ===================================================================== *)
(** ** core/realtime_market_data.py                                       *)
(* ===================================================================== *)

(** The provider runs on one asyncio event loop: a coroutine runs alone
    from one suspension point ([await] on the network, on a sleep, on other
    tasks) to the next.  The model is a transition system whose steps are
    these uninterrupted stretches.  The bodies guarded by [self._lock]
    contain no suspension point, so each is part of one step. *)
Module Provider.

(** An entry of [_latest_market_data]. *)
Record quote := Quote {
  bid_price : PyVal.t;
  bid_qty : PyVal.t;
  ask_price : PyVal.t;
  ask_qty : PyVal.t;
  timestamp : PyVal.t
}.

(** One price level of a feed message: [level.get("p")] and, when the key
    is there, [level["q"]]. *)
Record level := Level { p : PyVal.t; q : option PyVal.t }.

Definition empty_level : level := Level PyVal.PyNone None.

(** [snapshot["data"]]: the market, the bid and ask levels when the keys
    are present. *)
Record data_t := Data {
  m : PyVal.t;
  b : option (list level);
  a : option (list level)
}.

(** A decoded feed message. *)
Record snapshot := Snapshot {
  type : PyVal.t;
  data : option data_t;
  ts : option PyVal.t
}.

(** Where a listener task is suspended. *)
Inductive pc :=
| Created                 (* scheduled by [create_task], not yet run *)
| Connecting              (* in [websockets.connect(url)] *)
| Receiving (c : nat)     (* in [websocket.recv()] *)
| Backoff5 (c : nat)      (* in [asyncio.sleep(5)] *)
| Closing (c : nat)       (* leaving [async with]: closing the socket *)
| Backoff10               (* in [asyncio.sleep(10)] *)
| Done.

(** An [asyncio.Task] running [_listen_to_market_stream(market_name)]. *)
Record task := Task {
  t_market : string;
  t_pc : pc;
  t_must_cancel : bool
}.

Record state := State {
  _latest_market_data : gmap string quote;
  _market_connections : gmap string nat;
  _connection_tasks : gmap string nat;
  _running : bool;
  _active_market_listeners : gmap string bool;
  tasks : list task;          (* every task created so far, by number *)
  sockets : list bool         (* every socket opened so far: is it closed *)
}.

Definition init : state := State ∅ ∅ ∅ false ∅ [] [].

Definition set_data (f : gmap string quote -> gmap string quote) (s : state) : state :=
  State (f (_latest_market_data s)) (_market_connections s) (_connection_tasks s)
        (_running s) (_active_market_listeners s) (tasks s) (sockets s).
Definition set_conns (f : gmap string nat -> gmap string nat) (s : state) : state :=
  State (_latest_market_data s) (f (_market_connections s)) (_connection_tasks s)
        (_running s) (_active_market_listeners s) (tasks s) (sockets s).
Definition set_registry (f : gmap string nat -> gmap string nat) (s : state) : state :=
  State (_latest_market_data s) (_market_connections s) (f (_connection_tasks s))
        (_running s) (_active_market_listeners s) (tasks s) (sockets s).
Definition set_running (r : bool) (s : state) : state :=
  State (_latest_market_data s) (_market_connections s) (_connection_tasks s)
        r (_active_market_listeners s) (tasks s) (sockets s).
Definition set_active (f : gmap string bool -> gmap string bool) (s : state) : state :=
  State (_latest_market_data s) (_market_connections s) (_connection_tasks s)
        (_running s) (f (_active_market_listeners s)) (tasks s) (sockets s).
Definition set_tasks (f : list task -> list task) (s : state) : state :=
  State (_latest_market_data s) (_market_connections s) (_connection_tasks s)
        (_running s) (_active_market_listeners s) (f (tasks s)) (sockets s).
Definition set_sockets (f : list bool -> list bool) (s : state) : state :=
  State (_latest_market_data s) (_market_connections s) (_connection_tasks s)
        (_running s) (_active_market_listeners s) (tasks s) (f (sockets s)).

(** [task.done()] *)
Definition pc_done (k : pc) : bool := match k with Done => true | _ => false end.

Definition task_done (s : state) (tid : nat) : bool :=
  match tasks s !! tid with
  | Some t => pc_done (t_pc t)
  | None => true
  end.

Definition set_pc (tid : nat) (k : pc) (s : state) : state :=
  set_tasks (fun ts =>
    match ts !! tid with
    | Some t => <[tid := Task (t_market t) k (t_must_cancel t)]> ts
    | None => ts
    end) s.

(** [task.cancel()] *)
Definition cancel (tid : nat) (s : state) : state :=
  set_tasks (fun ts =>
    match ts !! tid with
    | Some t => <[tid := Task (t_market t) (t_pc t) true]> ts
    | None => ts
    end) s.

Definition close_socket (c : nat) (s : state) : state :=
  set_sockets (fun l => <[c := true]> l) s.

(** [conn.closed] *)
Definition socket_closed (s : state) (c : nat) : bool :=
  default true (sockets s !! c).

(** *** The listener, [_listen_to_market_stream] *)

(** [self._running and self._active_market_listeners.get(market_name, False)] *)
Definition wanted (s : state) (market_name : string) : bool :=
  _running s && default false (_active_market_listeners s !! market_name).

(** Lines 83-88: the task drops its own entries and ends. *)
Definition finish (tid : nat) (market_name : string) (s : state) : state :=
  set_pc tid Done
    (set_data (delete market_name) (set_conns (delete market_name) s)).

(** Line 32, the head of the outer loop. *)
Definition outer_head (tid : nat) (market_name : string) (s : state) : state :=
  if wanted s market_name then set_pc tid Connecting s
  else finish tid market_name s.

(** Line 77, after the [try]. *)
Definition loop_tail (tid : nat) (market_name : string) (s : state) : state :=
  if wanted s market_name then set_pc tid Backoff10 s
  else finish tid market_name s.

(** Line 39, the head of the inner loop. *)
Definition inner_head (tid : nat) (market_name : string) (c : nat) (s : state) : state :=
  if wanted s market_name then set_pc tid (Receiving c) s
  else set_pc tid (Closing c) s.

(** [data.get(key, [{}])[0]]; [None] for the IndexError of an empty list. *)
Definition best_level (levels : option (list level)) : option level :=
  match levels with
  | None => Some empty_level
  | Some [] => None
  | Some (l :: _) => Some l
  end.

Definition is_str (v : PyVal.t) (s : string) : bool :=
  match v with
  | PyVal.PyStr s' => String.eqb s' s
  | _ => false
  end.

(** Lines 44-60 on a decoded message; [clock_ms] is [time.time() * 1000].
    [None] when the body raises. *)
Definition on_snapshot (market_name : string) (snap : snapshot) (clock_ms : PyVal.t)
           (s : state) : option state :=
  match data snap with
  | Some d =>
      if is_str (type snap) "SNAPSHOT" && is_str (m d) market_name then
        match best_level (b d), best_level (a d) with
        | Some best_bid, Some best_ask =>
            if PyVal.truthy (p best_bid) && PyVal.truthy (p best_ask) then
              if default false (_active_market_listeners s !! market_name) then
                Some (set_data (insert market_name
                        (Quote (p best_bid)
                               (default (PyVal.PyStr "0") (q best_bid))
                               (p best_ask)
                               (default (PyVal.PyStr "0") (q best_ask))
                               (default clock_ms (ts snap)))) s)
              else Some s
            else Some s
        | _, _ => None
        end
      else Some s
  | None => Some s
  end.

(** What [websocket.recv()] and the decoding give. *)
Inductive recv_result :=
| RecvSnapshot (snap : snapshot) (clock_ms : PyVal.t)
| RecvBadJson       (* json.JSONDecodeError *)
| RecvClosed        (* websockets.exceptions.ConnectionClosed *)
| RecvError.        (* any other exception *)

(** What wakes a suspended task up. *)
Inductive input :=
| Go                        (* first run; a sleep or a close that is over *)
| Connected
| ConnectFailed
| Received (r : recv_result).

Definition socket_of (k : pc) : option nat :=
  match k with
  | Receiving c | Backoff5 c | Closing c => Some c
  | _ => None
  end.

(** The event loop runs task [tid] up to its next suspension point.  A
    task whose cancellation was requested gets CancelledError where it
    waits: no handler of the coroutine catches it, the socket is closed
    by its context manager, and lines 83-88 are not run. *)
Definition resume (tid : nat) (i : input) (s : state) : option state :=
  match tasks s !! tid with
  | None => None
  | Some t =>
      let mk := t_market t in
      if pc_done (t_pc t) then None
      else if t_must_cancel t then
        Some (set_pc tid Done
                (match socket_of (t_pc t) with
                 | Some c => close_socket c s
                 | None => s
                 end))
      else
        match t_pc t, i with
        | Created, Go => Some (outer_head tid mk s)
        | Connecting, Connected =>
            let c := length (sockets s) in
            Some (inner_head tid mk c
                    (set_conns (insert mk c) (set_sockets (fun l => l ++ [false]) s)))
        | Connecting, ConnectFailed => Some (loop_tail tid mk s)
        | Receiving c, Received (RecvSnapshot snap clock_ms) =>
            match on_snapshot mk snap clock_ms s with
            | Some s' => Some (inner_head tid mk c s')
            | None => Some (set_pc tid (Backoff5 c) s)
            end
        | Receiving c, Received RecvBadJson => Some (inner_head tid mk c s)
        | Receiving c, Received RecvClosed => Some (set_pc tid (Closing c) s)
        | Receiving c, Received RecvError => Some (set_pc tid (Backoff5 c) s)
        | Backoff5 c, Go => Some (set_pc tid (Closing c) s)
        | Closing c, Go => Some (loop_tail tid mk (close_socket c s))
        | Backoff10, Go => Some (outer_head tid mk s)
        | _, _ => None
        end
  end.

(** *** [start_streams] *)

(** [asyncio.create_task(self._listen_to_market_stream(market_name))] *)
Definition create_task (market_name : string) (s : state) : state :=
  set_registry (insert market_name (length (tasks s)))
    (set_tasks (fun ts => ts ++ [Task market_name Created false]) s).

(** The body of the loop of [start_streams], lines 95-104. *)
Definition start_one (s : state) (market_name_raw : string) : state :=
  let market_name := PyStr.upper market_name_raw in
  let s := set_active (insert market_name true) s in
  match _connection_tasks s !! market_name with
  | Some tid => if task_done s tid then create_task market_name s else s
  | None => create_task market_name s
  end.

Definition start_streams (markets : list string) (s : state) : state :=
  fold_left start_one markets (set_running true s).

(** *** [stop_specific_streams] *)

(** The task that lines 120-124 cancel, if any. *)
Definition live_task (market_name_raw : string) (s : state) : option nat :=
  match _connection_tasks s !! PyStr.upper market_name_raw with
  | Some tid => if task_done s tid then None else Some tid
  | None => None
  end.

(** Lines 117-127: the flag goes down and the task is cancelled. *)
Definition stop_request (market_name_raw : string) (s : state) : state :=
  let market_name := PyStr.upper market_name_raw in
  let s := set_active (insert market_name false) s in
  match live_task market_name_raw s with
  | Some tid => cancel tid s
  | None => s
  end.

(** Lines 128-129: the socket on which [await conn.close()] is called. *)
Definition open_conn (market_name_raw : string) (s : state) : option nat :=
  match _market_connections s !! PyStr.upper market_name_raw with
  | Some c => if socket_closed s c then None else Some c
  | None => None
  end.

(** Lines 136-141: under the lock the caller drops the quote and the
    connection entry. *)
Definition stop_clear (market_name_raw : string) (s : state) : state :=
  let market_name := PyStr.upper market_name_raw in
  set_conns (delete market_name) (set_data (delete market_name) s).

(** Lines 145-152, after [gather]: [zip(markets_to_stop, results)] pairs
    the results with the first markets of the list. *)
Definition stop_forget (markets_to_stop : list string) (stopped : list nat) (s : state) : state :=
  fold_left (fun s market_raw => set_registry (delete (PyStr.upper market_raw)) s)
            (take (length stopped) markets_to_stop) s.

(** *** [get_best_bid_ask] *)
Definition get_best_bid_ask (s : state) (market_name : string) : option quote :=
  _latest_market_data s !! PyStr.upper market_name.

(** [get_active_streams], as a set. *)
Definition is_active (s : state) (market_name : string) : bool :=
  default false (_active_market_listeners s !! market_name).

(** *** The transition system *)

Inductive event :=
| EStart (markets : list string)
| EStopRequest (market_name_raw : string)
| EStopClosed (c : nat)                   (* [await conn.close()] is over *)
| EStopClear (market_name_raw : string)
| EStopForget (markets_to_stop : list string) (stopped : list nat)
| EResume (tid : nat) (i : input).

(** One step; [None] when the step cannot be taken in this state. *)
Definition step (e : event) (s : state) : option state :=
  match e with
  | EStart markets => Some (start_streams markets s)
  | EStopRequest raw => Some (stop_request raw s)
  | EStopClosed c => Some (close_socket c s)
  | EStopClear raw => Some (stop_clear raw s)
  | EStopForget ms stopped =>
      if forallb (task_done s) stopped then Some (stop_forget ms stopped s) else None
  | EResume tid i => resume tid i s
  end.

Fixpoint run (evs : list event) (s : state) : option state :=
  match evs with
  | [] => Some s
  | e :: r =>
      match step e s with
      | Some s' => run r s'
      | None => None
      end
  end.

(** [stop_specific_streams] as a whole.  [env] lists what the rest of the
    program does while the caller is suspended: one batch of steps for
    each [await conn.close()] that is reached, and one for the [gather].
    The result is [None] when a batch is missing or cannot run, or when
    the [gather] has not got all its tasks done. *)
Fixpoint stop_each (ms : list string) (env : list (list event)) (stopped : list nat)
         (s : state) : option (state * list nat * list (list event)) :=
  match ms with
  | [] => Some (s, stopped, env)
  | raw :: ms' =>
      let stopped' :=
        match live_task raw s with
        | Some tid => stopped ++ [tid]
        | None => stopped
        end in
      let s1 := stop_request raw s in
      match open_conn raw s1 with
      | Some c =>
          match env with
          | evs :: env' =>
              match run evs s1 with
              | Some s2 => stop_each ms' env' stopped' (stop_clear raw (close_socket c s2))
              | None => None
              end
          | [] => None
          end
      | None => stop_each ms' env stopped' (stop_clear raw s1)
      end
  end.

Definition stop_specific_streams (env : list (list event)) (markets_to_stop : list string)
           (s : state) : option state :=
  match stop_each markets_to_stop env [] s with
  | Some (s1, stopped, env1) =>
      match stopped with
      | [] => Some s1
      | _ =>
          match env1 with
          | evs :: _ =>
              match run evs s1 with
              | Some s2 => step (EStopForget markets_to_stop stopped) s2
              | None => None
              end
          | [] => None
          end
      end
  | None => None
  end.

(** *** [close_streams] *)

(** Lines 172-176: the registered tasks that are not done; each of them
    gets [task.cancel()].  The order in which the dict is walked plays no
    part: cancelling commutes, and [gather] waits for all of them. *)
Definition tasks_to_wait_for (s : state) : list nat :=
  filter (fun tid => task_done s tid = false) (map snd (map_to_list (_connection_tasks s))).

Definition cancel_all (tids : list nat) (s : state) : state :=
  fold_left (fun s tid => cancel tid s) tids s.

(** Lines 181-187: the sockets still open are closed one after the
    other, the caller waiting for each; [items] is
    [list(self._market_connections.items())]. *)
Fixpoint close_each (items : list (string * nat)) (env : list (list event)) (s : state)
  : option (state * list (list event)) :=
  match items with
  | [] => Some (s, env)
  | (_, c) :: items' =>
      if socket_closed s c then close_each items' env s
      else
        match env with
        | evs :: env' =>
            match run evs s with
            | Some s1 => close_each items' env' (close_socket c s1)
            | None => None
            end
        | [] => None
        end
  end.

(** [close_streams] as a whole.  [env] is as for [stop_specific_streams]:
    one batch of steps of the rest of the program for the [gather], if
    there is one, and one for each [await ws.close()] that is reached.
    [items] is the listing of [_market_connections] that line 181 takes,
    in the order of the dict; the result is [None] when it is not a
    listing of the dict as it is at that point. *)
Definition close_streams (env : list (list event)) (items : list (string * nat))
           (s : state) : option state :=
  let s0 := set_active (fun _ => ∅) (set_running false s) in
  let waited := tasks_to_wait_for s0 in
  let s1 := cancel_all waited s0 in
  let gathered :=
    match waited with
    | [] => Some (s1, env)
    | _ =>
        match env with
        | evs :: env' =>
            match run evs s1 with
            | Some s2 => if forallb (task_done s2) waited then Some (s2, env') else None
            | None => None
            end
        | [] => None
        end
    end in
  match gathered with
  | Some (s2, env2) =>
      if bool_decide (NoDup (map fst items) /\ list_to_map items = _market_connections s2) then
        match close_each items env2 s2 with
        | Some (s3, _) =>
            Some (set_data (fun _ => ∅) (set_registry (fun _ => ∅) (set_conns (fun _ => ∅) s3)))
        | None => None
        end
      else None
  | None => None
  end.

End Provider.
(* ===================================================================== *)
(** ** strategies/best_order.py                                           *)
(* ===================================================================== *)

Module BestOrder.

Inductive OrderSide := BUY | SELL.

(** The keyword arguments of [trading_client.place_order]. *)
Record order := Order {
  market_name : string;
  amount_of_synthetic : Decimal.t;
  price : Decimal.t;
  side : OrderSide;
  post_only : bool
}.

(** What [place_order] does: an order with an id comes back, or an
    exception with a message is raised. *)
Inductive placement :=
| Accepted (id : Z)
| Rejected (error_message : string).

(** The exceptions that can end the [try] block. *)
Inductive exn :=
| DecimalException (e : Decimal.signal)
| ClientException (error_message : string).

(** [str(e)] *)
Definition str_exn (e : exn) : string :=
  match e with
  | DecimalException Decimal.InvalidOperation => "[<class 'decimal.InvalidOperation'>]"
  | DecimalException Decimal.ConversionSyntax => "[<class 'decimal.ConversionSyntax'>]"
  | DecimalException Decimal.DivisionByZero => "[<class 'decimal.DivisionByZero'>]"
  | DecimalException Decimal.DivisionUndefined => "[<class 'decimal.DivisionUndefined'>]"
  | DecimalException Decimal.Overflow => "[<class 'decimal.Overflow'>]"
  | ClientException msg => msg
  end.

(** The records handed to the strategy's logger, one constructor for
    each message of the source, with what the message puts in. *)
Inductive message :=
| ConfigNotFound (market : string)                         (* line 31, error *)
| RealtimeDataNotAvailable (market : string)               (* line 37, error *)
| UsingBid (price : Decimal.t) (market side : string)      (* line 44, debug *)
| BidNotAvailable (market : string)                        (* line 46, error *)
| UsingAsk (price : Decimal.t) (market side : string)      (* line 51, debug *)
| AskNotAvailable (market : string)                        (* line 53, error *)
| InvalidSideMsg (side market : string)                    (* line 56, error *)
| QuantityBelowMinimum (quantity min_order_size : Decimal.t) (market : string)
                                                           (* line 71, error *)
| PlacingOrder (o : order)                                 (* line 74, debug *)
| OrderPlaced (id : Z)                                     (* line 84, info *)
| InsufficientBalanceMsg                                   (* line 90, error *)
| InvalidPrecisionMsg (quantity : option Decimal.t) (market : string)
                                                           (* line 92, error *)
| UnexpectedError (error_message : string).                (* line 94, error *)

Definition is_error (msg : message) : bool :=
  match msg with
  | UsingBid _ _ _ | UsingAsk _ _ _ | PlacingOrder _ | OrderPlaced _ => false
  | _ => true
  end.

(** The failure kinds of the specification, read off the error record. *)
Inductive failure :=
| ConfigurationUnavailable
| QuoteUnavailable
| InvalidSide
| BelowMinimumSize
| InsufficientBalance
| PrecisionError
| UnclassifiedExecutionFailure.

Definition failure_of (msg : message) : option failure :=
  match msg with
  | ConfigNotFound _ => Some ConfigurationUnavailable
  | RealtimeDataNotAvailable _ | BidNotAvailable _ | AskNotAvailable _ =>
      Some QuoteUnavailable
  | InvalidSideMsg _ _ => Some InvalidSide
  | QuantityBelowMinimum _ _ _ => Some BelowMinimumSize
  | InsufficientBalanceMsg => Some InsufficientBalance
  | InvalidPrecisionMsg _ _ => Some PrecisionError
  | UnexpectedError _ => Some UnclassifiedExecutionFailure
  | UsingBid _ _ _ | UsingAsk _ _ _ | PlacingOrder _ | OrderPlaced _ => None
  end.

(** How the [try] block ends. *)
Inductive ending :=
| Return (v : option Z)
| Raised (e : exn).

(** What one run leaves behind: the log and the calls of [place_order]. *)
Record effects := Effects {
  log : list message;
  sent : list order
}.

(** [side.lower() in ("bb", "buy")] and [side.lower() in ("ba", "sell")] *)
Definition is_buy (side : string) : bool :=
  let s := PyStr.lower side in String.eqb s "bb" || String.eqb s "buy".
Definition is_sell (side : string) : bool :=
  let s := PyStr.lower side in String.eqb s "ba" || String.eqb s "sell".

(** Lines 65-68 from [min_order_size] on: the two sizes, the quotient and
    its quantization, in the order in which the source evaluates them. *)
Definition sizes (tc : MarketUtils.trading_config_t) (amount_usd price : Decimal.t)
  : Decimal.res (Decimal.t * Decimal.t) :=
  match PyVal.to_decimal (MarketUtils.min_order_size tc) with
  | Decimal.Raise e => Decimal.Raise e
  | Decimal.Ok min_order_size =>
      match PyVal.to_decimal (MarketUtils.min_order_size_change tc) with
      | Decimal.Raise e => Decimal.Raise e
      | Decimal.Ok min_order_size_change =>
          match Decimal.div amount_usd price with
          | Decimal.Raise e => Decimal.Raise e
          | Decimal.Ok ratio =>
              match Decimal.quantize ratio min_order_size_change with
              | Decimal.Raise e => Decimal.Raise e
              | Decimal.Ok quantity => Decimal.Ok (min_order_size, quantity)
              end
          end
      end
  end.

Section Client.
(** [self.trading_client.place_order] *)
Variable place_order : order -> placement.

(** Lines 63-85, once the price is known. *)
Definition place (tc : MarketUtils.trading_config_t) (market side : string)
           (amount_usd price : Decimal.t) (lg : list message) : ending * effects :=
  let order_side_api := if is_buy side then BUY else SELL in
  match sizes tc amount_usd price with
  | Decimal.Raise e => (Raised (DecimalException e), Effects lg [])
  | Decimal.Ok (min_order_size, quantity) =>
      if Decimal.ltb quantity min_order_size then
        (Return None,
         Effects (lg ++ [QuantityBelowMinimum quantity min_order_size market]) [])
      else
        let o := Order market quantity price order_side_api true in
        match place_order o with
        | Accepted id =>
            (Return (Some id), Effects (lg ++ [PlacingOrder o; OrderPlaced id]) [o])
        | Rejected msg =>
            (Raised (ClientException msg), Effects (lg ++ [PlacingOrder o]) [o])
        end
  end.

(** Lines 40-61: the price of the wanted side of the book. *)
Definition with_price (tc : MarketUtils.trading_config_t) (market side : string)
           (amount_usd : Decimal.t) (realtime_prices : Provider.quote)
  : ending * effects :=
  if is_buy side then
    if PyVal.truthy (Provider.bid_price realtime_prices) then
      match PyVal.to_decimal (Provider.bid_price realtime_prices) with
      | Decimal.Ok price =>
          place tc market side amount_usd price [UsingBid price market side]
      | Decimal.Raise e => (Raised (DecimalException e), Effects [] [])
      end
    else (Return None, Effects [BidNotAvailable market] [])
  else if is_sell side then
    if PyVal.truthy (Provider.ask_price realtime_prices) then
      match PyVal.to_decimal (Provider.ask_price realtime_prices) with
      | Decimal.Ok price =>
          place tc market side amount_usd price [UsingAsk price market side]
      | Decimal.Raise e => (Raised (DecimalException e), Effects [] [])
      end
    else (Return None, Effects [AskNotAvailable market] [])
  else (Return None, Effects [InvalidSideMsg side market] []).

(** The [try] block, lines 29-85, after the metadata lookup. *)
Definition body (market_config : option MarketUtils.market)
           (prov : Provider.state) (market side : string) (amount_usd : Decimal.t)
  : ending * effects :=
  match market_config with
  | None => (Return None, Effects [ConfigNotFound market] [])
  | Some mc =>
      match MarketUtils.trading_config mc with
      | None => (Return None, Effects [ConfigNotFound market] [])
      | Some tc =>
          match Provider.get_best_bid_ask prov market with
          | None => (Return None, Effects [RealtimeDataNotAvailable market] [])
          | Some realtime_prices => with_price tc market side amount_usd realtime_prices
          end
      end
  end.

(** The quantity as the handler sees it ([quantity if 'quantity' in
    locals() else 'unknown']): known once an order was built. *)
Definition quantity_in_locals (eff : effects) : option Decimal.t :=
  match sent eff with
  | o :: _ => Some (amount_of_synthetic o)
  | [] => None
  end.

(** The [except Exception] clause, lines 87-95. *)
Definition handler (market : string) (e : exn) (eff : effects) : message :=
  let error_message := str_exn e in
  if PyStr.contains "New order cost exceeds available balance" error_message
  then InsufficientBalanceMsg
  else if PyStr.contains "Invalid quantity precision" error_message
  then InvalidPrecisionMsg (quantity_in_locals eff) market
  else UnexpectedError error_message.

(** The result of one call of [execute]. *)
Record outcome := Outcome {
  returned : option Z;
  eff : effects;
  cache : MarketUtils.state;
  fetches : nat
}.

(** [BestOrderStrategy.execute(market, side, amount_usd)].  [now] and
    [api] are what the metadata lookup meets (see [MarketUtils]);
    [amount_usd] is the decimal that [str(amount_usd)] prints. *)
Definition execute (now : Q) (api : MarketUtils.api)
           (mu : MarketUtils.state) (prov : Provider.state)
           (market side : string) (amount_usd : Decimal.t) : outcome :=
  let '(market_config, mu', n) := MarketUtils.get_market_object now api mu market in
  match body market_config prov market side amount_usd with
  | (Return v, eff) => Outcome v eff mu' n
  | (Raised e, eff) =>
      Outcome None (Effects (log eff ++ [handler market e eff]) (sent eff)) mu' n
  end.

(** The failure kind of a run: that of its last error record. *)
Definition failure_kind (r : outcome) : option failure :=
  match filter (fun msg => is_error msg = true) (log (eff r)) with
  | [] => None
  | l => last l ≫= failure_of
  end.
End Client.

(** The text of the record of line 94, [record.getMessage()]. *)
Definition unexpected_error_text (error_message : string) : string :=
  "[BestOrderStrategy] An unexpected error occurred: " ++ error_message.

(** [record.getMessage()] of the records of level error.  The records
    of lower levels have no text here: that of line 74 shows
    [order_side_api.value], which the library of the venue defines. *)
Definition error_text (msg : message) : option string :=
  match msg with
  | ConfigNotFound market =>
      Some ("[BestOrderStrategy] Market trading configuration for " ++ market
            ++ " not found via MarketUtils.")
  | RealtimeDataNotAvailable market =>
      Some ("[BestOrderStrategy] Real-time price data not available for " ++ market
            ++ " from RealTimeMarketDataProvider.")
  | BidNotAvailable market =>
      Some ("[BestOrderStrategy] Real-time bid price not available for " ++ market ++ ".")
  | AskNotAvailable market =>
      Some ("[BestOrderStrategy] Real-time ask price not available for " ++ market ++ ".")
  | InvalidSideMsg side market =>
      Some ("[BestOrderStrategy] Invalid side: " ++ side ++ " for market " ++ market)
  | QuantityBelowMinimum quantity min_order_size market =>
      Some ("[BestOrderStrategy] Calculated quantity (" ++ Decimal.to_str quantity
            ++ ") is below minimum order size (" ++ Decimal.to_str min_order_size
            ++ ") for " ++ market)
  | InsufficientBalanceMsg =>
      Some "[BestOrderStrategy] Insufficient balance to place this order"
  | InvalidPrecisionMsg quantity market =>
      Some ("[BestOrderStrategy] Invalid quantity precision for order: "
            ++ match quantity with Some q => Decimal.to_str q | None => "unknown" end
            ++ " market " ++ market)
  | UnexpectedError error_message => Some (unexpected_error_text error_message)
  | UsingBid _ _ _ | UsingAsk _ _ _ | PlacingOrder _ | OrderPlaced _ => None
  end%string.

End BestOrder.

(** The filter that [best_order.py] puts on its logger: a record for which
    [filter] returns [False] is dropped. *)
Module APIMessageFilter.

(** [filter(record)], as a function of [record.getMessage()]. *)
Definition filter (getMessage : string) : bool :=
  negb (PyStr.contains "Error response from POST" getMessage
        && PyStr.contains "api.extended.exchange" getMessage).

End APIMessageFilter.

(* ===================================================================== *)
(** ** core/account_utils.py                                              *)
(* ===================================================================== *)

Module AccountUtils.

(** A position of the account, with the fields that the CLI prints. *)
Record position := Position {
  market : string;
  size : PyVal.t;
  open_price : PyVal.t;
  unrealised_pnl : PyVal.t
}.

Section Client.
(** [trading_client.account.get_positions(...).data]: called with
    [market_names] or without; [None] when the call raises.  (An
    answer without data is taken as the empty list: the one caller,
    [show_position], treats the two alike.) *)
Variable account_get_positions : option (list string) -> option (list position).

(** [get_positions(market)]: an error is logged and gives the empty
    list. *)
Definition get_positions (market : option string) : list position :=
  let positions :=
    match market with
    | Some m =>
        if PyStr.truthy m then account_get_positions (Some [m])
        else account_get_positions None
    | None => account_get_positions None
    end in
  match positions with
  | Some data => data
  | None => []
  end.
End Client.

End AccountUtils.

(* ===================================================================== *)
(** ** cli.py                                                             *)
(* ===================================================================== *)

(** The CLI reads one command at a time and hands it to the utilities, the
    provider and the strategy.  What it prints is left out, but for the
    rows of the market table and the price line of a position, which are
    given as data. *)
Module TradingCLI.

(** Lines 155-157, 195-198 and 304-306: the name in capitals, with "-USD"
    put after a name that has no dash. *)
Definition normalized_market_name (market : string) : string :=
  let u := PyStr.upper market in
  if negb (PyStr.ends_with "-USD" u) && negb (PyStr.contains "-" u)
  then (u ++ "-USD")%string else u.

(** What [process_command] goes on to call. *)
Inductive call :=
| Nothing                                      (* an empty line *)
| Exit                                         (* [self.running = False] *)
| ShowHelp
| HandleLoad (markets_to_load : list string)
| HandleUnload (markets_to_unload : list string)
| HandleLoadStatus
| ShowMarkets (top_n : option Z)
| ShowPosition (market : option string)
| HandleCloseAllOrders
| ExecuteBestOrder (market side : string) (amount_usd : Decimal.t)
| FormatError                                  (* [float(parts[2])] raised ValueError *)
| UnknownCommand.

Section Dispatch.
(** [float(s)] on the amount typed, as the decimal that [str] prints
    for the float; [None] when [float] raises ValueError.  (The words
    that [float] reads as an infinity or as not-a-number are outside
    the model, as is the limit that [int] puts on the length of a
    string of digits.) *)
Variable py_float : string -> option Decimal.t.

(** [process_command(command)] *)
Definition process_command (command : string) : call :=
  let parts := PyStr.split (PyStr.strip command) in
  match parts with
  | [] => Nothing
  | p0 :: rest =>
      let cmd := PyStr.lower p0 in
      if String.eqb cmd "exit" then Exit
      else if String.eqb cmd "help" then ShowHelp
      else if String.eqb cmd "load" then HandleLoad rest
      else if String.eqb cmd "unload" then HandleUnload rest
      else if String.eqb cmd "load?" then HandleLoadStatus
      else if String.eqb cmd "markets" then
        match rest with
        | [p1] => if PyStr.isdigit p1 then ShowMarkets (Some (PyStr.int p1))
                  else ShowMarkets None
        | _ => ShowMarkets None
        end
      else if String.eqb cmd "position" then
        match rest with
        | p1 :: _ =>
            let market_arg := PyStr.upper p1 in
            ShowPosition
              (Some (if PyStr.truthy market_arg
                        && negb (PyStr.ends_with "-USD" market_arg)
                        && negb (PyStr.contains "-" market_arg)
                     then (market_arg ++ "-USD")%string else market_arg))
        | [] => ShowPosition None
        end
      else if String.eqb (PyStr.lower command) "close all" then HandleCloseAllOrders
      else
        match rest with
        | [p1; p2] =>
            let side := PyStr.upper p1 in
            if String.eqb side "BB" || String.eqb side "BA" then
              match py_float p2 with
              | Some amount_usd => ExecuteBestOrder p0 side amount_usd
              | None => FormatError
              end
            else UnknownCommand
        | _ => UnknownCommand
        end
  end.
End Dispatch.

(** [execute_best_order(market, side, amount_usd)] *)
Definition execute_best_order (place_order : BestOrder.order -> BestOrder.placement)
           (now : Q) (api : MarketUtils.api)
           (mu : MarketUtils.state) (prov : Provider.state)
           (market side : string) (amount_usd : Decimal.t) : BestOrder.outcome :=
  BestOrder.execute place_order now api mu prov (normalized_market_name market) side amount_usd.

(** *** [handle_load_command] *)

(** Lines 194-210: the names are normalized and looked up one after the
    other; [world i] is what the [i]-th lookup meets, the reading of the
    clock and the answer of the venue. *)
Fixpoint validate (world : nat -> Q * MarketUtils.api) (i : nat)
         (markets_to_load : list string) (mu : MarketUtils.state)
  : list string * MarketUtils.state :=
  match markets_to_load with
  | [] => ([], mu)
  | m_name_raw :: r =>
      let normalized_m_name := normalized_market_name m_name_raw in
      let '(now, a) := world i in
      let '(market_info, mu1, _) :=
        MarketUtils.get_market_object now a mu normalized_m_name in
      let '(validated, mu2) := validate world (S i) r mu1 in
      match market_info with
      | Some mk =>
          if String.eqb (MarketUtils.name mk) normalized_m_name
          then (normalized_m_name :: validated, mu2)
          else (validated, mu2)
      | None => (validated, mu2)
      end
  end.

(** [handle_load_command(markets_to_load)]: the cache afterwards, and the
    list with which [start_streams] is called, if it is called.  [busy]
    says that the task of an earlier load or unload is not done (line
    219). *)
Definition handle_load_command (world : nat -> Q * MarketUtils.api) (busy : bool)
           (markets_to_load : list string) (mu : MarketUtils.state)
  : MarketUtils.state * option (list string) :=
  match markets_to_load with
  | [] => (mu, None)
  | _ =>
      let '(validated, mu') := validate world 0 markets_to_load mu in
      match validated with
      | [] => (mu', None)
      | _ => if busy then (mu', None) else (mu', Some validated)
      end
  end.

(** *** [handle_unload_command] *)

(** Line 234: the one form that is accepted, [unload ALL]. *)
Definition unload_all (markets_to_unload : list string) : bool :=
  match markets_to_unload with
  | [m] => String.eqb (PyStr.upper m) "ALL"
  | _ => false
  end.

(** [handle_unload_command(markets_to_unload)] when no task of an earlier
    load is left running; [env] and [items] are as for
    [Provider.close_streams]. *)
Definition handle_unload_command (env : list (list Provider.event))
           (items : list (string * nat)) (markets_to_unload : list string)
           (prov : Provider.state) : option Provider.state :=
  if unload_all markets_to_unload then Provider.close_streams env items prov
  else Some prov.

(** *** [show_markets] *)

Record row := Row {
  row_name : string;
  row_price : Q;
  row_volume : Q
}.

(** [name[:-4]] *)
Definition drop_last_4 (name : string) : string :=
  String.substring 0 (String.length name - 4) name.

Section Table.
(** [float(x)] on a field of a market, as in [MarketUtils]. *)
Variable py_float : PyVal.t -> option Q.

(** Lines 76-79: the market has a volume, and it is above zero. *)
Definition has_volume (m : MarketUtils.market) : bool :=
  match MarketUtils.market_stats m with
  | Some s =>
      match MarketUtils.daily_volume s with
      | PyVal.PyNone => false
      | v =>
          match py_float v with
          | Some volume => MarketUtils.Qltb 0 volume
          | None => false
          end
      end
  | None => false
  end.

(** Lines 72-88: the markets of the table. *)
Definition markets_to_display (now : nat -> Q) (a : MarketUtils.api)
           (st : MarketUtils.state) (top_n : option Z)
  : list MarketUtils.market * MarketUtils.state * nat :=
  let '(markets, st', n) := MarketUtils.get_markets py_float now a st top_n in
  let valid_markets := List.filter has_volume markets in
  let sorted :=
    map fst (MarketUtils.sort_desc (MarketUtils.with_volume py_float valid_markets)) in
  (match top_n with
   | Some k => MarketUtils.slice_to k sorted
   | None => sorted
   end, st', n).

(** Lines 93-98: the row of a market; [None] when [float(price)]
    raises. *)
Definition row_of (market_obj : MarketUtils.market) : option row :=
  let name := MarketUtils.name market_obj in
  let name := if PyStr.ends_with "-USD" (PyStr.upper name) then drop_last_4 name else name in
  match MarketUtils.market_stats market_obj with
  | Some s =>
      match py_float (MarketUtils.last_price s), py_float (MarketUtils.daily_volume s) with
      | Some price, Some volume => Some (Row name price volume)
      | _, _ => None
      end
  | None => None
  end.

(** The rows that are printed, one after the other, up to the first
    that raises; the flag says that none did, so that the closing line
    is printed too. *)
Fixpoint rows (l : list MarketUtils.market) : list row * bool :=
  match l with
  | [] => ([], true)
  | m :: r =>
      match row_of m with
      | Some x => let '(rs, complete) := rows r in (x :: rs, complete)
      | None => ([], false)
      end
  end.

(** [show_markets(top_n)] *)
Definition show_markets (now : nat -> Q) (a : MarketUtils.api)
           (st : MarketUtils.state) (top_n : option Z)
  : list row * bool * MarketUtils.state :=
  let '(l, st', _) := markets_to_display now a st top_n in
  (rows l, st').
End Table.

(** *** [show_position] *)

(** The line "Current Market Price" of a position, by the text that
    lines 130-145 choose. *)
Inductive display :=
| LiveBidAsk (bid ask : PyVal.t)       (* "Live Bid: {bid}, Ask: {ask}" *)
| LiveBid (bid : PyVal.t)              (* "Live Bid: {bid}" *)
| LiveAsk (ask : PyVal.t)              (* "Live Ask: {ask}" *)
| LiveNoPrice                          (* "Live data found, but no bid/ask price." *)
| LastRest (last_price : PyVal.t)      (* "Last (REST): {last_price}" *)
| RestNotAvailable.                    (* "Last price (REST) not available." *)

(** The text of the line, [current_display_price]. *)
Definition text (d : display) : string :=
  match d with
  | LiveBidAsk bid ask => "Live Bid: " ++ PyVal.str bid ++ ", Ask: " ++ PyVal.str ask
  | LiveBid bid => "Live Bid: " ++ PyVal.str bid
  | LiveAsk ask => "Live Ask: " ++ PyVal.str ask
  | LiveNoPrice => "Live data found, but no bid/ask price."
  | LastRest last_price => "Last (REST): " ++ PyVal.str last_price
  | RestNotAvailable => "Last price (REST) not available."
  end%string.

(** Lines 119-145 for one position: the line, the cache afterwards and
    the bulk fetches made.  [None] as the first step stands for the text
    "N/A" with which the source starts. *)
Definition price_line (now : Q) (api : MarketUtils.api) (mu : MarketUtils.state)
           (prov : Provider.state) (market_name_for_pos : string)
  : display * MarketUtils.state * nat :=
  let live : option display :=
    match Provider.get_best_bid_ask prov market_name_for_pos with
    | Some live_price_data =>
        let bid := Provider.bid_price live_price_data in
        let ask := Provider.ask_price live_price_data in
        Some (if PyVal.truthy bid && PyVal.truthy ask then LiveBidAsk bid ask
              else if PyVal.truthy bid then LiveBid bid
              else if PyVal.truthy ask then LiveAsk ask
              else LiveNoPrice)
    | None => None
    end in
  (* lines 138-145; [fallback] is the line when there is no last price *)
  let rest (fallback : display) :=
    let '(market_obj, mu', n) :=
      MarketUtils.get_market_object now api mu market_name_for_pos in
    let last :=
      match market_obj with
      | Some mk =>
          match MarketUtils.market_stats mk with
          | Some s =>
              match MarketUtils.last_price s with
              | PyVal.PyNone => None
              | v => Some v
              end
          | None => None
          end
      | None => None
      end in
    (match last with Some v => LastRest v | None => fallback end, mu', n) in
  match live with
  | None => rest RestNotAvailable
  | Some d =>
      if PyStr.contains "Live data found, but no bid/ask price." (text d)
      then rest d
      else (d, mu, 0%nat)
  end.

Section Positions.
Variable account_get_positions :
  option (list string) -> option (list AccountUtils.position).

(** The loop of lines 114-149; [world i] is what the [i]-th position
    meets: the reading of the clock, the answer of the venue and the
    state of the provider. *)
Fixpoint price_lines (world : nat -> Q * MarketUtils.api * Provider.state) (i : nat)
         (positions : list AccountUtils.position) (mu : MarketUtils.state)
  : list (AccountUtils.position * display) * MarketUtils.state :=
  match positions with
  | [] => ([], mu)
  | pos :: r =>
      let '(now, api, prov) := world i in
      let '(d, mu1, _) := price_line now api mu prov (AccountUtils.market pos) in
      let '(ds, mu2) := price_lines world (S i) r mu1 in
      ((pos, d) :: ds, mu2)
  end.

(** [show_position(market)]: [None] for "No open positions". *)
Definition show_position (world : nat -> Q * MarketUtils.api * Provider.state)
           (market : option string) (mu : MarketUtils.state)
  : option (list (AccountUtils.position * display)) * MarketUtils.state :=
  match AccountUtils.get_positions account_get_positions market with
  | [] => (None, mu)
  | positions =>
      let '(ds, mu') := price_lines world 0 positions mu in (Some ds, mu')
  end.
End Positions.

End TradingCLI.
(* ===================================================================== *)
(** ** The vocabulary of the specification                                *)
(* ===================================================================== *)

(** *** Quantities *)

(** [q] has exponent [e], lies within half a unit of [10^e] of [x], and has
    an even coefficient when [x] is exactly half way. *)
Definition nearest_at (x : Q) (e : Z) (q : Decimal.t) : Prop :=
  Decimal.exp q = e /\
  (Qabs (Decimal.to_Q q - x) <= (1#2) * Qpower 10 e)%Q /\
  ((Qabs (Decimal.to_Q q - x) == (1#2) * Qpower 10 e)%Q -> N.even (Decimal.coeff q) = true).

(** [q] is a multiple of the size step, no multiple is nearer to [x], and
    of two nearest ones it is the even one. *)
Definition nearest_multiple (x : Q) (step q : Decimal.t) : Prop :=
  (exists k : Z, Decimal.to_Q q == inject_Z k * Decimal.to_Q step)%Q /\
  (Qabs (Decimal.to_Q q - x) <= (1#2) * Qabs (Decimal.to_Q step))%Q /\
  ((Qabs (Decimal.to_Q q - x) == (1#2) * Qabs (Decimal.to_Q step))%Q ->
   exists k : Z, Z.even k = true /\ (Decimal.to_Q q == inject_Z k * Decimal.to_Q step)%Q).

(** [d] is [x] rounded to the precision of the context: nearest at its own
    exponent, ties to even, at most [prec] digits, and all [prec] of them
    unless [x] is represented exactly or the exponent is the least one. *)
Definition rounded_to_prec (x : Q) (d : Decimal.t) : Prop :=
  nearest_at x (Decimal.exp d) d /\
  Z.of_N (Decimal.coeff d) < 10 ^ Decimal.prec /\
  ((Decimal.to_Q d == x)%Q \/
   10 ^ (Decimal.prec - 1) <= Z.of_N (Decimal.coeff d) \/
   Decimal.exp d = Decimal.Etiny).

(** *** Division, over the integers

    [__truediv__] divides two integers [N] and [D] and hands [_fix] a
    coefficient at an exponent [e]. *)

(** The coefficient that [__truediv__] hands to [_fix]: the integer
    quotient, plus one when the division is inexact and the quotient ends in
    0 or 5. *)
Definition sticky (N D : Z) : Z :=
  if negb (N mod D =? 0) && (N / D mod 5 =? 0) then N / D + 1 else N / D.

(** [rounded_to_prec] for the value [N / D * 10 ^ e], with the sign left
    aside and everything in units of [10 ^ e / D]. *)
Definition rounded (N D e : Z) (d : Decimal.t) : Prop :=
  e <= Decimal.exp d /\
  2 * Z.abs (N - Z.of_N (Decimal.coeff d) * 10 ^ (Decimal.exp d - e) * D)
    <= 10 ^ (Decimal.exp d - e) * D /\
  (2 * Z.abs (N - Z.of_N (Decimal.coeff d) * 10 ^ (Decimal.exp d - e) * D)
   = 10 ^ (Decimal.exp d - e) * D -> N.even (Decimal.coeff d) = true) /\
  Z.of_N (Decimal.coeff d) < 10 ^ Decimal.prec /\
  (N = Z.of_N (Decimal.coeff d) * 10 ^ (Decimal.exp d - e) * D \/
   10 ^ (Decimal.prec - 1) <= Z.of_N (Decimal.coeff d) \/
   Decimal.exp d = Decimal.Etiny).

(** *** The metadata cache *)

(** The market has an entry younger than the time-to-live at [now]. *)
Definition fresh_entry (now : Q) (st : MarketUtils.state) (market_name : string) : Prop :=
  exists mk ts,
    ODict.get market_name (MarketUtils._market_cache st) = Some mk /\
    ODict.get market_name (MarketUtils._cache_timestamps st) = Some ts /\
    (now - ts < MarketUtils.CACHE_DURATION_SECONDS)%Q.

(** Every timestamp of the cache is a reading of a clock that never shows
    zero (the epoch itself). *)
Definition stamped (st : MarketUtils.state) : Prop :=
  forall k ts, ODict.get k (MarketUtils._cache_timestamps st) = Some ts -> ~ (ts == 0)%Q.


(** What one bulk fetch does to the cache: every fetched market is stored
    under its name with the new timestamp (the last one wins when a name
    comes twice), all other entries stay; a failed fetch changes nothing. *)
Definition bulk_refreshed (a : MarketUtils.api) (st st' : MarketUtils.state) : Prop :=
  (forall data, MarketUtils.markets_response a = Some data ->
     (forall l1 mk l2, data = l1 ++ mk :: l2 ->
        (forall x, In x l2 -> MarketUtils.name x <> MarketUtils.name mk) ->
        ODict.get (MarketUtils.name mk) (MarketUtils._market_cache st') = Some mk /\
        ODict.get (MarketUtils.name mk) (MarketUtils._cache_timestamps st')
          = Some (MarketUtils.current_time a)) /\
     (forall k, (forall x, In x data -> MarketUtils.name x <> k) ->
        ODict.get k (MarketUtils._market_cache st') = ODict.get k (MarketUtils._market_cache st) /\
        ODict.get k (MarketUtils._cache_timestamps st')
          = ODict.get k (MarketUtils._cache_timestamps st))) /\
  (MarketUtils.markets_response a = None -> st' = st).

(** Descending volume. *)
Definition desc (x y : MarketUtils.market * Q) : Prop := (snd y <= snd x)%Q.

(** The two dictionaries hold the same names in the same order, no name
    twice, and every market under its own name. *)
Definition coherent (st : MarketUtils.state) : Prop :=
  ODict.keys (MarketUtils._market_cache st) = ODict.keys (MarketUtils._cache_timestamps st) /\
  NoDup (ODict.keys (MarketUtils._market_cache st)) /\
  Forall (fun km => MarketUtils.name km.2 = km.1) (MarketUtils._market_cache st).

(** The cache has grown: the names it held are still there, in their
    places, and new ones follow. *)
Definition grown (st st' : MarketUtils.state) : Prop :=
  ODict.keys (MarketUtils._market_cache st) `prefix_of`
    ODict.keys (MarketUtils._market_cache st') /\
  ODict.keys (MarketUtils._cache_timestamps st) `prefix_of`
    ODict.keys (MarketUtils._cache_timestamps st').



(** The last price that the metadata give for a market, if they give one. *)
Definition rest_price (market_obj : option MarketUtils.market) : option PyVal.t :=
  match market_obj with
  | Some mk =>
      match MarketUtils.market_stats mk with
      | Some s =>
          match MarketUtils.last_price s with
          | PyVal.PyNone => None
          | v => Some v
          end
      | None => None
      end
  | None => None
  end.

(** *** The provider *)

(** [desiredActive] of the specification. *)
Definition flag_up (s : Provider.state) (mk : string) : Prop :=
  Provider._active_market_listeners s !! mk = Some true.

(** The step is a [start_streams] that names the market, in any casing. *)
Definition starts (mk : string) (e : Provider.event) : bool :=
  match e with
  | Provider.EStart markets => bool_decide (mk ∈ map PyStr.upper markets)
  | _ => false
  end.

Definition quiet (mk : string) (evs : list Provider.event) : Prop :=
  Forall (fun e => starts mk e = false) evs.

(** The flag of the market is down and the store holds nothing for it. *)
Definition parked (s : Provider.state) (mk : string) : Prop :=
  ~ flag_up s mk /\ Provider._latest_market_data s !! mk = None.

Definition live (t : Provider.task) : Prop := Provider.pc_done (Provider.t_pc t) = false.

(** Every task that is still running is the registered one of its market. *)
Definition registered (s : Provider.state) : Prop :=
  forall tid t, Provider.tasks s !! tid = Some t -> live t ->
    Provider._connection_tasks s !! Provider.t_market t = Some tid.


Definition is_forget (e : Provider.event) : bool :=
  match e with Provider.EStopForget _ _ => true | _ => false end.


(** Both prices of the quote are truthy. *)
Definition priced (qt : Provider.quote) : Prop :=
  PyVal.truthy (Provider.bid_price qt) = true /\ PyVal.truthy (Provider.ask_price qt) = true.

Definition all_priced (s : Provider.state) : Prop :=
  forall mk qt, Provider._latest_market_data s !! mk = Some qt -> priced qt.

(** What a step of task [tid] on market [mk] may change between [s] and
    [s']: the quote and the connection entry of [mk], the task itself and
    the sockets; nothing else. *)
Definition own_business (tid : nat) (mk : string) (s s' : Provider.state) : Prop :=
  Provider._running s' = Provider._running s /\
  Provider._active_market_listeners s' = Provider._active_market_listeners s /\
  Provider._connection_tasks s' = Provider._connection_tasks s /\
  (forall k, k <> mk ->
     Provider._latest_market_data s' !! k = Provider._latest_market_data s !! k /\
     Provider._market_connections s' !! k = Provider._market_connections s !! k) /\
  (forall j, j <> tid -> Provider.tasks s' !! j = Provider.tasks s !! j).



(** Every socket that is open is the one on which some listener task
    works. *)
Definition sockets_held (s : Provider.state) : Prop :=
  forall c, Provider.sockets s !! c = Some false ->
    exists tid t, Provider.tasks s !! tid = Some t /\
                  Provider.socket_of (Provider.t_pc t) = Some c.

(** The step is no [start_streams]. *)
Definition no_start (e : Provider.event) : bool :=
  match e with Provider.EStart _ => false | _ => true end.

(** Nobody calls [start_streams] while the caller waits. *)
Definition undisturbed (env : list (list Provider.event)) : Prop :=
  Forall (Forall (fun e => no_start e = true)) env.

(** No task is left running. *)
Definition all_done (s : Provider.state) : Prop :=
  forall tid, Provider.task_done s tid = true.

(** What a state keeps of another as far as the tasks go: as many tasks,
    and those that were done are done. *)
Definition settles (s s' : Provider.state) : Prop :=
  length (Provider.tasks s') = length (Provider.tasks s) /\
  (forall tid, Provider.task_done s tid = true -> Provider.task_done s' tid = true).

(** What the caller's own moves in [close_streams] keep. *)
Record calm (s s' : Provider.state) : Prop := Calm {
  calm_settles : settles s s';
  calm_running : Provider._running s' = Provider._running s;
  calm_flags : forall mk, ~ flag_up s mk -> ~ flag_up s' mk;
  calm_held : sockets_held s -> sockets_held s'
}.

(** The task [tid] of market [mk] is suspended at [k], its cancellation
    not requested, and the market is wanted. *)
Definition waits_at (s : Provider.state) (tid : nat) (mk : string) (k : Provider.pc) : Prop :=
  Provider.tasks s !! tid = Some (Provider.Task mk k false) /\ Provider.wanted s mk = true.

(** The stores of quotes, connections and flags are the same. *)
Definition same_stores (s s' : Provider.state) : Prop :=
  Provider._latest_market_data s' = Provider._latest_market_data s /\
  Provider._market_connections s' = Provider._market_connections s /\
  Provider._active_market_listeners s' = Provider._active_market_listeners s /\
  Provider._running s' = Provider._running s.





(** Every running task of one of the markets is among [stopped]. *)
Definition watched (markets : list string) (stopped : list nat) (s : Provider.state) : Prop :=
  forall raw tid t,
    In raw markets -> Provider.tasks s !! tid = Some t -> live t ->
    Provider.t_market t = PyStr.upper raw -> In tid stopped.


(** *** The strategy *)

(** The trading configuration that the metadata lookup of [execute] ends
    with. *)
Definition config_of (now : Q) (api : MarketUtils.api) (mu : MarketUtils.state)
           (market : string) : option MarketUtils.trading_config_t :=
  (MarketUtils.get_market_object now api mu market).1.1 ≫= MarketUtils.trading_config.

Definition book_price (v : PyVal.t) : option Decimal.t :=
  if PyVal.truthy v then
    match PyVal.to_decimal v with
    | Decimal.Ok d => Some d
    | Decimal.Raise _ => None
    end
  else None.

(** The reference price of the specification: the cached best bid for a
    buy, the cached best ask for a sell. *)
Definition reference_price (side : string) (qt : Provider.quote) : option Decimal.t :=
  if BestOrder.is_buy side then book_price (Provider.bid_price qt)
  else if BestOrder.is_sell side then book_price (Provider.ask_price qt)
  else None.

Definition side_of (side : string) : BestOrder.OrderSide :=
  if BestOrder.is_buy side then BestOrder.BUY else BestOrder.SELL.

(** The error records of a run. *)
Definition errors (r : BestOrder.outcome) : list BestOrder.message :=
  filter (fun msg => BestOrder.is_error msg = true) (BestOrder.log (BestOrder.eff r)).

(** The field of the quote that the side reads. *)
Definition price_field (side : string) (qt : Provider.quote) : PyVal.t :=
  if BestOrder.is_buy side then Provider.bid_price qt else Provider.ask_price qt.

(** The error records of a run that the filter of the logger lets through
    to the log. *)
Definition passes (msg : BestOrder.message) : bool :=
  match BestOrder.error_text msg with
  | Some text => APIMessageFilter.filter text
  | None => false
  end.

Definition logged_errors (r : BestOrder.outcome) : list BestOrder.message :=
  filter (fun msg => passes msg = true) (errors r).

(** The record of the price taken, with [side] as the side that was
    typed; every other record as it is. *)
Definition retold (side : string) (msg : BestOrder.message) : BestOrder.message :=
  match msg with
  | BestOrder.UsingBid price market _ => BestOrder.UsingBid price market side
  | BestOrder.UsingAsk price market _ => BestOrder.UsingAsk price market side
  | _ => msg
  end.

(** The run [r] is the run [r'] told with [side]: the same value returned,
    the same orders, the same cache and fetches, and the log of [r'] with
    [side] as the side typed. *)
Definition told_with (side : string) (r r' : BestOrder.outcome) : Prop :=
  BestOrder.returned r = BestOrder.returned r' /\
  BestOrder.sent (BestOrder.eff r) = BestOrder.sent (BestOrder.eff r') /\
  BestOrder.cache r = BestOrder.cache r' /\
  BestOrder.fetches r = BestOrder.fetches r' /\
  BestOrder.log (BestOrder.eff r) = map (retold side) (BestOrder.log (BestOrder.eff r')).
(* ===================================================================== *)
(** ** Concrete venues, caches and streams                                *)
(* ===================================================================== *)

Module Sample.
Import MarketUtils Provider BestOrder.

Definition dec (c : N) (e : Z) : Decimal.t := Decimal.Dec false c e.
Definition num (c : N) (e : Z) : PyVal.t := PyVal.PyNum (dec c e).

(** Minimum size 1, size step 0.01, daily volume 5. *)
Definition btc : market :=
  Market "BTC-USD" (Some (TradingConfig (num 1 0) (num 1 (-2))))
         (Some (MarketStats (num 5 0) (num 100 0))).

(** Minimum size 10, size step 10, no volume today. *)
Definition doge : market :=
  Market "DOGE-USD" (Some (TradingConfig (num 10 0) (num 10 0)))
         (Some (MarketStats (num 0 0) (num 3 (-1)))).

(** Minimum size 0.01, size step 0.01, daily volume 9. *)
Definition eth : market :=
  Market "ETH-USD" (Some (TradingConfig (num 1 (-2)) (num 1 (-2))))
         (Some (MarketStats (num 9 0) (num 8 0))).

(** A market whose volume does not parse. *)
Definition sol : market :=
  Market "SOL-USD" (Some (TradingConfig (num 1 0) (num 1 (-1))))
         (Some (MarketStats (PyVal.PyStr "n/a") (num 20 0))).

Definition venue : api := Api (Some [btc; doge; eth; sol]) 1700000000.
Definition venue_down : api := Api None 1700000200.

(** The cache after one bulk fetch at 1700000000. *)
Definition cached : MarketUtils.state := _fetch_and_cache_all_markets venue MarketUtils.init.

Definition soon : Q := 1700000030.
Definition late : Q := 1700000100.

Definition message (market bid ask : string) : snapshot :=
  Snapshot (PyVal.PyStr "SNAPSHOT")
    (Some (Data (PyVal.PyStr market)
                (Some [Level (PyVal.PyStr bid) (Some (PyVal.PyStr "2"))])
                (Some [Level (PyVal.PyStr ask) (Some (PyVal.PyStr "3"))])))
    (Some (num 1700000000000 0)).

Definition clock_ms : PyVal.t := num 1700000000123 0.

Definition book (bid ask : string) : quote :=
  Quote (PyVal.PyStr bid) (PyVal.PyStr "2") (PyVal.PyStr ask) (PyVal.PyStr "3")
        (num 1700000000000 0).

Definition first_messages : list event :=
  [EStart ["btc-usd"; "doge-usd"; "eth-usd"];
   EResume 0 Go; EResume 0 Connected;
   EResume 0 (Received (RecvSnapshot (message "BTC-USD" "100" "101") clock_ms));
   EResume 1 Go; EResume 1 Connected;
   EResume 1 (Received (RecvSnapshot (message "DOGE-USD" "0.3" "0.31") clock_ms));
   EResume 2 Go; EResume 2 Connected;
   EResume 2 (Received (RecvSnapshot
      (message "ETH-USD" "7.9999999999999999999999999999999999" "8") clock_ms))].

(** Three markets started, connected, one message each. *)
Definition streaming : Provider.state :=
  default Provider.init (run first_messages Provider.init).

(** The BTC connection has dropped; its task sleeps before it
    reconnects. *)
Definition reconnecting : Provider.state :=
  default Provider.init
    (run [EResume 0 (Received RecvClosed); EResume 0 Go] streaming).

Definition accept (o : order) : placement := Accepted 42.
Definition no_balance (o : order) : placement :=
  Rejected "Error response from POST: New order cost exceeds available balance".
Definition bad_precision (o : order) : placement :=
  Rejected "Error response from POST: Invalid quantity precision".
Definition closed_market (o : order) : placement :=
  Rejected "Error response from POST: Market is not active".

(** The BTC feed has sent a bid that is no number and an ask of zero. *)
Definition garbled : Provider.state :=
  default Provider.init
    (run [EStart ["btc-usd"]; EResume 0 Go; EResume 0 Connected;
          EResume 0 (Received (RecvSnapshot (message "BTC-USD" "abc" "0") clock_ms))]
         Provider.init).

(** The BTC feed sends a sentence of the CLI as its bid. *)
Definition parrot : Provider.state :=
  default Provider.init
    (run [EStart ["btc-usd"]; EResume 0 Go; EResume 0 Connected;
          EResume 0 (Received (RecvSnapshot
             (message "BTC-USD" "Live data found, but no bid/ask price." "101") clock_ms))]
         Provider.init).

(** A rejection in the words of the HTTP client of the venue. *)
Definition venue_says_no (o : order) : placement :=
  Rejected "Error response from POST https://api.extended.exchange/api/v1/user/order: code 1121 - Market is not active".

(** [float] on the amounts of the examples: up to fifteen digits, which
    [str] prints back followed by [.0]; every other string counts as a
    ValueError here. *)
Definition whole_float (s : string) : option Decimal.t :=
  if PyStr.isdigit s && (String.length s <=? 15)%nat
  then Some (Decimal.Dec false (Z.to_N (PyStr.int s) * 10) (-1))
  else None.

(** What the lookups of a load meet. *)
Definition world (i : nat) : Q * MarketUtils.api := (soon, venue).

(** An account that cannot be read. *)
Definition no_account (market_names : option (list string))
  : option (list AccountUtils.position) := None.
End Sample.
(* ===================================================================== *)
(** ** Facts about the decimals                                           *)
(* ===================================================================== *)

Section DecimalFacts.

(** The model run on a few operations, with the results of CPython. *)
Example div_thirds :
  Decimal.div (Sample.dec 1000 0) (Sample.dec 3 0)
  = Decimal.Ok (Sample.dec 3333333333333333333333333333 (-25)).
Proof. vm_compute; reflexivity. Qed.

Example div_two_thirds :
  Decimal.div (Sample.dec 2 0) (Sample.dec 3 0)
  = Decimal.Ok (Sample.dec 6666666666666666666666666667 (-28)).
Proof. vm_compute; reflexivity. Qed.

Example div_exact :
  Decimal.div (Sample.dec 1000 0) (Sample.dec 100 0) = Decimal.Ok (Sample.dec 10 0) /\
  Decimal.div (Sample.dec 1 0) (Sample.dec 8 0) = Decimal.Ok (Sample.dec 125 (-3)).
Proof. split; vm_compute; reflexivity. Qed.

Example quantize_ties :
  Decimal.quantize (Sample.dec 125 (-3)) (Sample.dec 1 (-2)) = Decimal.Ok (Sample.dec 12 (-2)) /\
  Decimal.quantize (Sample.dec 135 (-3)) (Sample.dec 1 (-2)) = Decimal.Ok (Sample.dec 14 (-2)).
Proof. split; vm_compute; reflexivity. Qed.

Example of_string_forms :
  Decimal.of_string "1e-05" = Decimal.Ok (Sample.dec 1 (-5)) /\
  Decimal.of_string "-.5" = Decimal.Ok (Decimal.Dec true 5 (-1)) /\
  Decimal.of_string "12." = Decimal.Ok (Sample.dec 12 0) /\
  Decimal.of_string "n/a" = Decimal.Raise Decimal.ConversionSyntax.
Proof. repeat split; vm_compute; reflexivity. Qed.

Lemma pow10_pos k : 0 <= k -> 0 < 10 ^ k.
Proof. intros. apply Z.pow_pos_nonneg; lia. Qed.

Lemma ndigits_fuel_upper f : forall c,
  0 <= c < 2 ^ Z.of_nat f -> 1 <= Decimal.ndigits_fuel f c /\ c < 10 ^ Decimal.ndigits_fuel f c.
Proof.
  induction f as [|f IH]; intros c Hc.
  - simpl in *. lia.
  - cbn [Decimal.ndigits_fuel]. destruct (c <? 10) eqn:E.
    + apply Z.ltb_lt in E. split; [lia|]. change (10 ^ 1) with 10. lia.
    + apply Z.ltb_ge in E.
      assert (Hd : 0 <= c / 10 < 2 ^ Z.of_nat f).
      { rewrite Nat2Z.inj_succ, Z.pow_succ_r in Hc by lia.
        split; [apply Z.div_pos; lia|].
        apply Z.div_lt_upper_bound; lia. }
      destruct (IH _ Hd) as [H1 H2]. split; [lia|].
      rewrite Z.pow_add_r by lia. change (10 ^ 1) with 10.
      pose proof (Z.div_mod c 10 ltac:(lia)) as Hm.
      pose proof (Z.mod_pos_bound c 10 ltac:(lia)). lia.
Qed.

Lemma ndigits_fuel_lower f : forall c,
  0 < c -> 10 ^ (Decimal.ndigits_fuel f c - 1) <= c.
Proof.
  induction f as [|f IH]; intros c Hc.
  - simpl. lia.
  - cbn [Decimal.ndigits_fuel]. destruct (c <? 10) eqn:E.
    + simpl. lia.
    + apply Z.ltb_ge in E.
      assert (0 < c / 10) by (apply Z.div_str_pos; lia).
      specialize (IH _ H).
      replace (1 + Decimal.ndigits_fuel f (c / 10) - 1) with (1 + (Decimal.ndigits_fuel f (c / 10) - 1)) by lia.
      assert (1 <= Decimal.ndigits_fuel f (c/10)).
      { clear. generalize (c/10). induction f; intros; simpl; [lia|]. destruct (z <? 10); [lia|]. specialize (IHf (z/10)). lia. }
      rewrite Z.pow_add_r by lia. change (10 ^ 1) with 10.
      pose proof (Z.div_mod c 10 ltac:(lia)) as Hm.
      pose proof (Z.mod_pos_bound c 10 ltac:(lia)). lia.
Qed.

Lemma ndigits_bounds c : 0 <= c -> 1 <= Decimal.ndigits c /\ c < 10 ^ Decimal.ndigits c.
Proof.
  intros Hc. unfold Decimal.ndigits. apply ndigits_fuel_upper.
  split; [lia|].
  rewrite Nat2Z.inj_succ, Z2Nat.id by apply Z.log2_nonneg.
  destruct (Z.eq_dec c 0) as [->|]; [simpl; lia|].
  apply Z.log2_spec. lia.
Qed.

Lemma ndigits_lower c : 0 < c -> 10 ^ (Decimal.ndigits c - 1) <= c.
Proof. intros. apply ndigits_fuel_lower. lia. Qed.

(** Rounding to nearest, ties to even: the integer facts. *)
Lemma round_half_even_nearest c k :
  0 <= c -> 0 < k ->
  let n := c / 10 ^ k + (if Decimal.round_half_even c k =? 1 then 1 else 0) in
  2 * Z.abs (c - n * 10 ^ k) <= 10 ^ k /\
  (2 * Z.abs (c - n * 10 ^ k) = 10 ^ k -> Z.even n = true).
Proof.
  intros Hc Hk. unfold Decimal.round_half_even.
  pose proof (pow10_pos k ltac:(lia)) as Hp.
  set (p := 10 ^ k) in *.
  pose proof (Z.div_mod c p ltac:(lia)) as Hm.
  pose proof (Z.mod_pos_bound c p ltac:(lia)) as Hr.
  set (q := c / p) in *. set (r := c mod p) in *.
  destruct (2 * r =? p) eqn:E1; [apply Z.eqb_eq in E1|apply Z.eqb_neq in E1].
  - destruct (Z.even q) eqn:E2; cbn [andb].
    + cbn. split; [nia|]. intros _. rewrite Z.add_0_r. exact E2.
    + destruct (p <=? 2 * r) eqn:E3; [|apply Z.leb_gt in E3; lia].
      cbn. split; [nia|]. intros _.
      rewrite Z.even_add, E2. reflexivity.
  - cbn [andb]. destruct (p <=? 2 * r) eqn:E3; [apply Z.leb_le in E3|apply Z.leb_gt in E3].
    + cbn. split; [nia|]. intros H. exfalso. nia.
    + assert (Hn : (if (if r =? 0 then 0 else -1) =? 1 then 1 else 0) = 0) by (destruct (r =? 0); reflexivity).
      rewrite Hn. split; [nia|]. intros H. exfalso. nia.
Qed.

Lemma ten_pow_pos u : (0 < Qpower 10 u)%Q.
Proof. apply Qpower_0_lt. reflexivity. Qed.

Lemma ten_pow_split u k : 0 <= k -> (Qpower 10 (u + k) == inject_Z (10 ^ k) * Qpower 10 u)%Q.
Proof.
  intros Hk. rewrite Qpower_plus by discriminate.
  rewrite Zpower_Qpower by exact Hk. apply Qmult_comm.
Qed.

Lemma Qabs_units z u : (Qabs (inject_Z z * Qpower 10 u) == inject_Z (Z.abs z) * Qpower 10 u)%Q.
Proof.
  rewrite Qabs_Qmult. rewrite (Qabs_pos (Qpower 10 u)) by (apply Qlt_le_weak, ten_pow_pos).
  reflexivity.
Qed.

Lemma units_le z p u :
  2 * Z.abs z <= p ->
  (Qabs (inject_Z z * Qpower 10 u) <= (1#2) * (inject_Z p * Qpower 10 u))%Q.
Proof.
  intros H. rewrite Qabs_units, Qmult_assoc.
  apply Qmult_le_r; [apply ten_pow_pos|].
  unfold Qle, inject_Z; simpl. lia.
Qed.

Lemma units_eq z p u :
  (Qabs (inject_Z z * Qpower 10 u) == (1#2) * (inject_Z p * Qpower 10 u))%Q ->
  2 * Z.abs z = p.
Proof.
  rewrite Qabs_units, Qmult_assoc. intros H.
  apply Qmult_inj_r in H; [|intros E; pose proof (ten_pow_pos u) as P; rewrite E in P; discriminate].
  unfold Qeq, inject_Z in H; simpl in H. lia.
Qed.

(** The difference of two values that share a sign, in units of the
    smaller exponent. *)
Lemma to_Q_diff sg n c u k :
  0 <= k ->
  (Decimal.to_Q (Decimal.Dec sg n (u + k)) - Decimal.to_Q (Decimal.Dec sg c u)
   == inject_Z ((if sg then -1 else 1) * (Z.of_N n * 10 ^ k - Z.of_N c)) * Qpower 10 u)%Q.
Proof.
  intros Hk. unfold Decimal.to_Q, Decimal.signed; cbn [Decimal.sign Decimal.coeff Decimal.exp].
  rewrite ten_pow_split by exact Hk.
  generalize (Qpower 10 u) as t; intros t.
  destruct sg; unfold Zminus;
    rewrite ?inject_Z_mult, ?inject_Z_plus, ?inject_Z_opp, ?inject_Z_mult;
    generalize (inject_Z (10 ^ k)) as p; intros p;
    change (inject_Z (-1)) with (- (1))%Q; change (inject_Z 1) with 1%Q; ring.
Qed.

Lemma Qminus_zero_sym a b : (a - b == 0 -> b - a == 0)%Q.
Proof.
  intros H. assert (E : (b - a == - (a - b))%Q) by ring.
  rewrite E, H. reflexivity.
Qed.

Lemma abs_signed (sg : bool) z : Z.abs ((if sg then -1 else 1) * z) = Z.abs z.
Proof. destruct sg; lia. Qed.

Lemma rescale_nearest d e : nearest_at (Decimal.to_Q d) e (Decimal.rescale d e).
Proof.
  destruct d as [sg c u]. unfold Decimal.rescale; cbn [Decimal.sign Decimal.coeff Decimal.exp].
  pose proof (ten_pow_pos e) as Pe.
  destruct (Z.of_N c =? 0) eqn:E0.
  - apply Z.eqb_eq in E0. assert (c = 0%N) by lia. subst c.
    assert (Hz : (Decimal.to_Q (Decimal.Dec sg 0 e) - Decimal.to_Q (Decimal.Dec sg 0 u) == 0)%Q).
    { unfold Decimal.to_Q, Decimal.signed; cbn [Decimal.sign Decimal.coeff Decimal.exp].
      generalize (Qpower 10 e) as t1; generalize (Qpower 10 u) as t2; intros.
      destruct sg; cbn [Z.of_N]; change (- 0) with 0; change (inject_Z 0) with 0%Q; ring. }
    split; [reflexivity|]. rewrite Hz. split.
    + cbn [Qabs]. apply Qmult_le_0_compat; [discriminate|apply Qlt_le_weak, Pe].
    + reflexivity.
  - apply Z.eqb_neq in E0. destruct (e <=? u) eqn:E1.
    + apply Z.leb_le in E1.
      assert (Hz : (Decimal.to_Q (Decimal.Dec sg (Z.to_N (Z.of_N c * 10 ^ (u - e))) e)
                    - Decimal.to_Q (Decimal.Dec sg c u) == 0)%Q).
      { pose proof (pow10_pos (u - e) ltac:(lia)).
        pose proof (to_Q_diff sg c (Z.to_N (Z.of_N c * 10 ^ (u - e))) e (u - e) ltac:(lia)) as Hd.
        replace (e + (u - e)) with u in Hd by lia.
        rewrite Z2N.id in Hd by nia. rewrite Z.sub_diag, Z.mul_0_r in Hd.
        change (inject_Z 0) with 0%Q in Hd. rewrite Qmult_0_l in Hd.
        apply Qminus_zero_sym, Hd. }
      split; [reflexivity|]. rewrite Hz. split.
      * cbn [Qabs]. apply Qmult_le_0_compat; [discriminate|apply Qlt_le_weak, Pe].
      * intros H. exfalso. cbn [Qabs] in H.
        assert (Hh : (0 < (1#2) * Qpower 10 e)%Q) by (apply Qmult_lt_0_compat; [reflexivity|exact Pe]).
        rewrite <- H in Hh. discriminate.
    + apply Z.leb_gt in E1. set (k := e - u).
      assert (Hk : 0 < k) by (unfold k; lia).
      pose proof (ndigits_bounds (Z.of_N c) ltac:(lia)) as [Hn1 Hn2].
      set (len := Decimal.ndigits (Z.of_N c)) in *.
      pose proof (pow10_pos k ltac:(lia)) as Hp.
      (* the coefficient kept, in both branches *)
      assert (Hmain : exists n : Z, 0 <= n /\
                (let '(c0, len0) := if len + u - e <? 0 then (1, 1) else (Z.of_N c, len) in
                 (if Decimal.round_half_even c0 (len0 - Z.max (len + u - e) 0) =? 1
                  then c0 / 10 ^ (len0 - Z.max (len + u - e) 0) + 1
                  else c0 / 10 ^ (len0 - Z.max (len + u - e) 0))) = n /\
                2 * Z.abs (Z.of_N c - n * 10 ^ k) <= 10 ^ k /\
                (2 * Z.abs (Z.of_N c - n * 10 ^ k) = 10 ^ k -> Z.even n = true)).
      { destruct (len + u - e <? 0) eqn:E2.
        - apply Z.ltb_lt in E2. exists 0. rewrite Z.max_r by lia.
          change (Decimal.round_half_even 1 (1 - 0)) with (-1).
          cbn. split; [lia|]. split; [reflexivity|].
          assert (10 * 10 ^ len <= 10 ^ k).
          { replace k with (1 + len + (k - len - 1)) by lia.
            rewrite !Z.pow_add_r by lia. change (10 ^ 1) with 10.
            pose proof (pow10_pos (k - len - 1) ltac:(unfold k; lia)).
            pose proof (pow10_pos len ltac:(lia)). nia. }
          split; [lia|]. intros; lia.
        - apply Z.ltb_ge in E2. rewrite Z.max_l by lia.
          replace (len - (len + u - e)) with k by (unfold k; lia).
          pose proof (round_half_even_nearest (Z.of_N c) k ltac:(lia) Hk) as [A B].
          cbn zeta in A, B.
          exists (Z.of_N c / 10 ^ k + (if Decimal.round_half_even (Z.of_N c) k =? 1 then 1 else 0)).
          assert (0 <= Z.of_N c / 10 ^ k) by (apply Z.div_pos; lia).
          split; [destruct (_ =? 1); lia|].
          split; [destruct (_ =? 1); lia|]. split; assumption. }
      destruct Hmain as (n & Hn0 & Hn & Hle & Htie).
      destruct (if len + u - e <? 0 then (1, 1) else (Z.of_N c, len)) as [c0 len0].
      cbn zeta. 
      replace (if Decimal.round_half_even c0 (len0 - Z.max (len + u - e) 0) =? 1
               then c0 / 10 ^ (len0 - Z.max (len + u - e) 0) + 1
               else c0 / 10 ^ (len0 - Z.max (len + u - e) 0)) with n.
      assert (Hd := to_Q_diff sg (Z.to_N n) c u k ltac:(lia)).
      replace (u + k) with e in Hd by (unfold k; lia). rewrite Z2N.id in Hd by lia.
      split; [reflexivity|]. 
      replace e with (u + k) at 2 4 by (unfold k; lia).
      rewrite Hd, ten_pow_split by lia. split.
      * apply units_le. rewrite abs_signed. lia.
      * intros H. apply units_eq in H. rewrite abs_signed in H.
        cbn [Decimal.coeff]. specialize (Htie ltac:(lia)).
        destruct n as [|pn|pn]; [reflexivity|exact Htie|lia].
Qed.

Lemma fix_keeps d :
  Decimal.ndigits (Z.of_N (Decimal.coeff d)) <= Decimal.prec ->
  Decimal.adjusted d <= Decimal.Emax ->
  Decimal.Etiny <= Decimal.exp d <= Decimal.Emax ->
  Decimal.fix_ d = Decimal.Ok d.
Proof.
  destruct d as [sg c e]. unfold Decimal.fix_, Decimal.adjusted.
  cbn [Decimal.sign Decimal.coeff Decimal.exp].
  unfold Decimal.Etop, Decimal.Etiny, Decimal.Emin, Decimal.Emax, Decimal.prec.
  intros H1 H2 H3.
  destruct (Z.of_N c =? 0) eqn:E0.
  - apply Z.eqb_eq in E0. assert (c = 0%N) by lia. subst c.
    f_equal. f_equal. lia.
  - destruct (_ <? _) eqn:E1; [apply Z.ltb_lt in E1; lia|].
    destruct (e <? _) eqn:E2; [apply Z.ltb_lt in E2; lia|]. reflexivity.
Qed.

Lemma quantize_rescale d s q :
  Decimal.quantize d s = Decimal.Ok q -> q = Decimal.rescale d (Decimal.exp s).
Proof.
  unfold Decimal.quantize. intros H.
  destruct (negb _) eqn:E1; [discriminate|].
  apply negb_false_iff, andb_true_iff in E1. destruct E1 as [R1 R2].
  apply Z.leb_le in R1, R2.
  pose proof (rescale_nearest d (Decimal.exp s)) as [He _].
  destruct (Z.of_N (Decimal.coeff d) =? 0) eqn:E0.
  - unfold Decimal.rescale. rewrite E0.
    rewrite fix_keeps in H; [congruence| | |]; cbn [Decimal.exp Decimal.coeff]; try lia.
    + change (Decimal.ndigits (Z.of_N 0)) with 1. unfold Decimal.prec. lia.
    + unfold Decimal.adjusted; cbn [Decimal.exp Decimal.coeff].
      change (Decimal.ndigits (Z.of_N 0)) with 1. lia.
  - destruct (Decimal.Emax <? Decimal.adjusted d); [discriminate|].
    destruct (Decimal.prec <? _); [discriminate|].
    destruct (Decimal.Emax <? Decimal.adjusted (Decimal.rescale _ _)) eqn:E2; [discriminate|].
    destruct (Decimal.prec <? Decimal.ndigits _) eqn:E3; [discriminate|].
    apply Z.ltb_ge in E2, E3.
    rewrite fix_keeps in H; [congruence|lia|lia|rewrite He; lia].
Qed.

Lemma quantize_nearest d s q :
  Decimal.quantize d s = Decimal.Ok q -> nearest_at (Decimal.to_Q d) (Decimal.exp s) q.
Proof. intros H. rewrite (quantize_rescale _ _ _ H). apply rescale_nearest. Qed.

(** [ltb] is the order of the values. *)
Lemma ltb_spec a b : Decimal.ltb a b = true <-> (Decimal.to_Q a < Decimal.to_Q b)%Q.
Proof.
  unfold Decimal.ltb, Decimal.to_Q.
  set (m := Z.min (Decimal.exp a) (Decimal.exp b)).
  replace (Decimal.exp a) with (m + (Decimal.exp a - m)) at 2 by lia.
  replace (Decimal.exp b) with (m + (Decimal.exp b - m)) at 2 by lia.
  rewrite !ten_pow_split by lia.
  rewrite !Qmult_assoc, <- !inject_Z_mult.
  rewrite Qmult_lt_r by apply ten_pow_pos.
  rewrite <- Zlt_Qlt. apply Z.ltb_lt.
Qed.

Lemma signed_unit step : Decimal.coeff step = 1%N -> Decimal.signed step * Decimal.signed step = 1.
Proof. unfold Decimal.signed. intros ->. destruct (Decimal.sign step); reflexivity. Qed.

Lemma even_signed q : Z.even (Decimal.signed q) = N.even (Decimal.coeff q).
Proof.
  unfold Decimal.signed. destruct (Decimal.sign q); rewrite ?Z.even_opp;
    destruct (Decimal.coeff q) as [|p]; try reflexivity; destruct p; reflexivity.
Qed.

Lemma nearest_at_multiple x step q :
  Decimal.coeff step = 1%N -> nearest_at x (Decimal.exp step) q -> nearest_multiple x step q.
Proof.
  intros H1 (He & Hle & Htie).
  pose proof (signed_unit step H1) as Hu.
  assert (Hk : (Decimal.to_Q q
                == inject_Z (Decimal.signed q * Decimal.signed step) * Decimal.to_Q step)%Q).
  { unfold Decimal.to_Q. rewrite He. generalize (Qpower 10 (Decimal.exp step)) as t. intros t.
    rewrite Qmult_assoc, <- inject_Z_mult, <- Z.mul_assoc, Hu, Z.mul_1_r. reflexivity. }
  assert (Ha : (Qabs (Decimal.to_Q step) == Qpower 10 (Decimal.exp step))%Q).
  { unfold Decimal.to_Q. rewrite Qabs_units.
    replace (Z.abs (Decimal.signed step)) with 1
      by (unfold Decimal.signed; rewrite H1; destruct (Decimal.sign step); reflexivity).
    apply Qmult_1_l. }
  split; [eexists; exact Hk|]. rewrite Ha. split; [exact Hle|].
  intros Ht. exists (Decimal.signed q * Decimal.signed step). split; [|exact Hk].
  rewrite Z.even_mul, even_signed, (Htie Ht). reflexivity.
Qed.

Lemma quantize_nearest_multiple d step q :
  Decimal.coeff step = 1%N -> Decimal.quantize d step = Decimal.Ok q ->
  nearest_multiple (Decimal.to_Q d) step q.
Proof. intros H1 H. apply nearest_at_multiple; [exact H1|]. apply quantize_nearest, H. Qed.

(** *** Division *)

Lemma round_up_strict D p Q0 r0 r :
  0 < D -> 0 < r < D -> 0 <= r0 < p -> p <= 2 * r0 ->
  2 * Z.abs (D * (p * Q0 + r0) + r - (Q0 + 1) * p * D) < p * D.
Proof.
  intros HD Hr Hr0 Hp.
  replace (D * (p * Q0 + r0) + r - (Q0 + 1) * p * D) with (- (D * (p - r0) - r)) by ring.
  assert (D * 1 <= D * (p - r0)) by (apply Z.mul_le_mono_nonneg_l; lia).
  assert (D * (p - 2 * r0) <= 0) by (apply Z.mul_nonneg_nonpos; lia).
  rewrite Z.abs_opp, Z.abs_eq by lia.
  replace (p * D) with (D * (p - 2 * r0) + 2 * (D * r0)) by ring.
  replace (D * (p - r0)) with (D * (p - 2 * r0) + D * r0) by ring. lia.
Qed.

Lemma round_down_strict D p Q0 r0 r :
  0 < D -> 0 < r < D -> 0 <= r0 -> 2 * r0 + 2 <= p ->
  2 * Z.abs (D * (p * Q0 + r0) + r - Q0 * p * D) < p * D.
Proof.
  intros HD Hr Hr0 Hp.
  replace (D * (p * Q0 + r0) + r - Q0 * p * D) with (D * r0 + r) by ring.
  assert (0 <= D * r0) by (apply Z.mul_nonneg_nonneg; lia).
  assert (D * (2 * r0 + 2) <= D * p) by (apply Z.mul_le_mono_nonneg_l; lia).
  rewrite Z.abs_eq by lia.
  replace (p * D) with (D * p) by ring.
  replace (D * (2 * r0 + 2)) with (2 * (D * r0) + 2 * D) in * by ring. lia.
Qed.

Lemma sticky_round N D k :
  0 < D -> 0 <= N -> 0 < k ->
  let c := sticky N D in
  let n := c / 10 ^ k + (if Decimal.round_half_even c k =? 1 then 1 else 0) in
  2 * Z.abs (N - n * 10 ^ k * D) <= 10 ^ k * D /\
  (2 * Z.abs (N - n * 10 ^ k * D) = 10 ^ k * D -> Z.even n = true).
Proof.
  intros HD HN Hk. cbn zeta. unfold sticky.
  pose proof (Z.div_mod N D ltac:(lia)) as Hdm.
  pose proof (Z.mod_pos_bound N D HD) as Hr.
  assert (Hq0 : 0 <= N / D) by (apply Z.div_pos; lia).
  set (q := N / D) in *. set (r := N mod D) in *.
  destruct (r =? 0) eqn:Er.
  - (* exact: plain rounding of q *)
    apply Z.eqb_eq in Er. cbn [negb andb].
    pose proof (round_half_even_nearest q k Hq0 Hk) as [A B]. cbn zeta in A, B.
    set (n := q / 10 ^ k + (if Decimal.round_half_even q k =? 1 then 1 else 0)) in *.
    assert (E : N - n * 10 ^ k * D = (q - n * 10 ^ k) * D) by lia.
    rewrite E, Z.abs_mul, (Z.abs_eq D) by lia.
    set (t := Z.abs (q - n * 10 ^ k)) in *.
    replace (2 * (t * D)) with ((2 * t) * D) by ring. split.
    + apply Z.mul_le_mono_nonneg_r; lia.
    + intros H. apply B. apply Z.mul_reg_r in H; lia.
  - (* inexact: the extra one keeps the rounding on the right side *)
    apply Z.eqb_neq in Er. cbn [negb andb].
    assert (Hp10 : exists p', 10 ^ k = 10 * p' /\ 0 < p').
    { exists (10 ^ (k - 1)). replace k with (1 + (k - 1)) at 1 by lia.
      rewrite Z.pow_add_r by lia. split; [reflexivity|apply pow10_pos; lia]. }
    destruct Hp10 as (p' & Hp & Hp').
    set (p := 10 ^ k) in *.
    pose proof (Z.div_mod q p ltac:(lia)) as Hqm.
    pose proof (Z.mod_pos_bound q p ltac:(lia)) as Hr0.
    set (Q0 := q / p) in *. set (r0 := q mod p) in *.
    assert (Hq5 : q mod 5 = r0 mod 5).
    { rewrite Hqm, Hp. replace (10 * p' * Q0 + r0) with (r0 + (2 * p' * Q0) * 5) by lia.
      apply Z.mod_add. lia. }
    pose proof (Z.div_mod r0 5 ltac:(lia)) as Hr5.
    pose proof (Z.mod_pos_bound r0 5 ltac:(lia)) as Hr5b.
    assert (HN' : N = D * (p * Q0 + r0) + r) by (rewrite <- Hqm; exact Hdm).
    assert (Hstrict : forall n, 2 * Z.abs (N - n * p * D) < p * D ->
              2 * Z.abs (N - n * p * D) <= p * D /\
              (2 * Z.abs (N - n * p * D) = p * D -> Z.even n = true))
      by (intros n Hn; split; [lia|intros; exfalso; lia]).
    unfold Decimal.round_half_even. fold p.
    destruct (q mod 5 =? 0) eqn:E5; [apply Z.eqb_eq in E5|apply Z.eqb_neq in E5].
    + (* c = q + 1, r0 is a multiple of 5, so r0 + 1 < p *)
      assert (Hc : (q + 1) / p = Q0 /\ (q + 1) mod p = r0 + 1).
      { assert (r0 + 1 < p) by lia.
        pose proof (Z.div_mod (q + 1) p ltac:(lia)) as H1.
        pose proof (Z.mod_pos_bound (q + 1) p ltac:(lia)) as H2.
        apply (Z.div_mod_unique p); [left; lia|left; lia|lia]. }
      destruct Hc as [-> ->].
      destruct ((2 * (r0 + 1) =? p) && Z.even Q0) eqn:Et.
      * apply andb_true_iff in Et. destruct Et as [Et _]. apply Z.eqb_eq in Et. exfalso. lia.
      * destruct (p <=? 2 * (r0 + 1)) eqn:Eu; [apply Z.leb_le in Eu|apply Z.leb_gt in Eu].
        -- change (1 =? 1) with true. cbn iota. apply Hstrict. rewrite HN'.
           apply round_up_strict; lia.
        -- assert (Hn : (if (if r0 + 1 =? 0 then 0 else -1) =? 1 then 1 else 0) = 0)
             by (destruct (r0 + 1 =? 0); reflexivity).
           rewrite Hn, Z.add_0_r. apply Hstrict. rewrite HN'.
           apply round_down_strict; lia.
    + fold Q0 r0.
      destruct ((2 * r0 =? p) && Z.even Q0) eqn:Et.
      * apply andb_true_iff in Et. destruct Et as [Et _]. apply Z.eqb_eq in Et. exfalso. lia.
      * destruct (p <=? 2 * r0) eqn:Eu; [apply Z.leb_le in Eu|apply Z.leb_gt in Eu].
        -- change (1 =? 1) with true. cbn iota. apply Hstrict. rewrite HN'.
           apply round_up_strict; lia.
        -- assert (Hn : (if (if r0 =? 0 then 0 else -1) =? 1 then 1 else 0) = 0)
             by (destruct (r0 =? 0); reflexivity).
           rewrite Hn, Z.add_0_r. apply Hstrict. rewrite HN'.
           apply round_down_strict; lia.
Qed.

Lemma sticky_bounds N D :
  0 < D -> 0 <= N -> N / D <= sticky N D <= N / D + 1 /\ N < (sticky N D + 1) * D /\
  (N mod D = 0 -> sticky N D = N / D /\ N = sticky N D * D).
Proof.
  intros HD HN. unfold sticky.
  pose proof (Z.div_mod N D ltac:(lia)) as Hdm.
  pose proof (Z.mod_pos_bound N D HD) as Hr.
  destruct (negb (N mod D =? 0) && (N / D mod 5 =? 0)) eqn:E.
  - apply andb_true_iff in E. destruct E as [E _]. apply negb_true_iff, Z.eqb_neq in E.
    split; [lia|]. split; [nia|]. intros; lia.
  - split; [lia|]. split; [nia|]. intros H0. split; [reflexivity|nia].
Qed.

Lemma round_half_even_values c k :
  Decimal.round_half_even c k = 1 \/ Decimal.round_half_even c k = 0 \/
  Decimal.round_half_even c k = -1.
Proof.
  unfold Decimal.round_half_even.
  destruct (_ && _); [auto|]. destruct (_ <=? _); [auto|]. destruct (_ =? 0); auto.
Qed.

(** What [_fix] makes of the coefficient of a division. *)
Lemma fix_sticky sg N D e d' :
  0 < D -> 0 <= N -> 0 < sticky N D ->
  (N mod D <> 0 -> Decimal.prec < Decimal.ndigits (sticky N D)) ->
  Decimal.fix_ (Decimal.Dec sg (Z.to_N (sticky N D)) e) = Decimal.Ok d' ->
  Decimal.sign d' = sg /\ e <= Decimal.exp d' /\
  2 * Z.abs (N - Z.of_N (Decimal.coeff d') * 10 ^ (Decimal.exp d' - e) * D)
    <= 10 ^ (Decimal.exp d' - e) * D /\
  (2 * Z.abs (N - Z.of_N (Decimal.coeff d') * 10 ^ (Decimal.exp d' - e) * D)
   = 10 ^ (Decimal.exp d' - e) * D -> N.even (Decimal.coeff d') = true) /\
  Z.of_N (Decimal.coeff d') < 10 ^ Decimal.prec /\
  (N = Z.of_N (Decimal.coeff d') * 10 ^ (Decimal.exp d' - e) * D \/
   10 ^ (Decimal.prec - 1) <= Z.of_N (Decimal.coeff d') \/
   Decimal.exp d' = Decimal.Etiny).
Proof.
  intros HD HN Hc Hlong. 
  pose proof (sticky_bounds N D HD HN) as (Hb1 & Hb2 & Hb3).
  set (c := sticky N D) in *.
  pose proof (ndigits_bounds c ltac:(lia)) as [Hl1 Hl2].
  pose proof (ndigits_lower c Hc) as Hl3.
  unfold Decimal.fix_. cbn [Decimal.sign Decimal.coeff Decimal.exp].
  rewrite Z2N.id by lia.
  destruct (c =? 0) eqn:E0; [apply Z.eqb_eq in E0; lia|].
  set (len := Decimal.ndigits c) in *.
  unfold Decimal.Etop, Decimal.Etiny, Decimal.Emin, Decimal.Emax, Decimal.prec in *.
  destruct (_ <? len + e - 28) eqn:Eo; [discriminate|]. apply Z.ltb_ge in Eo.
  set (exp_min := Z.max (len + e - 28) (-999999 - 28 + 1)) in *.
  assert (Hem : len + e - 28 <= exp_min /\ -1000026 <= exp_min /\
                (exp_min = len + e - 28 \/ exp_min = -1000026)) by (unfold exp_min; lia).
  destruct (e <? exp_min) eqn:Ee; [apply Z.ltb_lt in Ee|apply Z.ltb_ge in Ee].
  - set (k := exp_min - e) in *. assert (Hk : 0 < k) by (unfold k; lia).
    pose proof (pow10_pos k ltac:(lia)) as Hpk.
    destruct (len + e - exp_min <? 0) eqn:Ed; [apply Z.ltb_lt in Ed|apply Z.ltb_ge in Ed].
    + (* nothing is left of the coefficient *)
      rewrite Z.max_r by lia. change (Decimal.round_half_even 1 (1 - 0)) with (-1).
      change (0 <? -1) with false. cbn iota. change (1 / 10 ^ (1 - 0)) with 0.
      destruct (999999 - 28 + 1 <? exp_min); [discriminate|]. intros [= <-].
      cbn [Decimal.sign Decimal.coeff Decimal.exp]. fold k. cbn [Z.to_N Z.of_N].
      assert (H10 : 10 * 10 ^ len <= 10 ^ k).
      { replace k with (1 + len + (k - len - 1)) by lia.
        rewrite !Z.pow_add_r by lia. change (10 ^ 1) with 10.
        pose proof (pow10_pos (k - len - 1) ltac:(unfold k; lia)).
        pose proof (pow10_pos len ltac:(lia)). nia. }
      split; [reflexivity|]. split; [lia|].
      assert (2 * N < 10 ^ k * D) by nia.
      split; [lia|]. split; [intros; reflexivity|]. split; [reflexivity|].
      right. right. lia.
    + rewrite Z.max_l by lia.
      replace (len - (len + e - exp_min)) with k by (unfold k; lia).
      pose proof (sticky_round N D k HD HN Hk) as [A B]. cbn zeta in A, B. fold c in A, B.
      assert (Hkept : 0 <= c / 10 ^ k) by (apply Z.div_pos; lia).
      assert (Hkept28 : c / 10 ^ k < 10 ^ 28).
      { apply Z.div_lt_upper_bound; [lia|].
        assert (10 ^ len <= 10 ^ k * 10 ^ 28).
        { rewrite <- Z.pow_add_r by lia. apply Z.pow_le_mono_r; lia. }
        lia. }
      assert (Hlow : exp_min = len + e - 28 -> 10 ^ 27 <= c / 10 ^ k).
      { intros Hx. apply Z.div_le_lower_bound; [lia|].
        rewrite <- Z.pow_add_r by lia. replace (k + 27) with (len - 1) by (unfold k; lia).
        exact Hl3. }
      destruct (round_half_even_values c k) as [R|[R|R]]; rewrite R in *; cbn in A, B;
        [change (0 <? 1) with true|change (0 <? 0) with false|change (0 <? -1) with false];
        cbv beta iota.
      * (* rounded away from zero *)
        destruct (28 <? Decimal.ndigits (c / 10 ^ k + 1)) eqn:Ecar;
          [apply Z.ltb_lt in Ecar|apply Z.ltb_ge in Ecar]; cbv beta iota.
        -- (* the carry gives one digit more: 10^28 *)
           pose proof (ndigits_lower (c / 10 ^ k + 1) ltac:(lia)) as Hcl.
           assert (Hp28 : 10 ^ 28 <= 10 ^ (Decimal.ndigits (c / 10 ^ k + 1) - 1))
             by (apply Z.pow_le_mono_r; lia).
           assert (Hcar : c / 10 ^ k + 1 = 10 ^ 28) by lia.
           destruct (999999 - 28 + 1 <? exp_min + 1); [discriminate|]. intros [= <-].
           cbn [Decimal.sign Decimal.coeff Decimal.exp].
           rewrite Hcar in *. change (10 ^ 28 / 10) with (10 ^ 27).
           rewrite Z2N.id by (apply Z.lt_le_incl, pow10_pos; lia).
           replace (exp_min + 1 - e) with (k + 1) by (unfold k; lia).
           rewrite Z.pow_add_r by lia. change (10 ^ 1) with 10.
           replace (10 ^ 27 * (10 ^ k * 10)) with (10 ^ 28 * 10 ^ k)
             by (change (10 ^ 28) with (10 ^ 27 * 10); ring).
           split; [reflexivity|]. split; [lia|]. split; [nia|].
           split; [intros H; exfalso; nia|]. split; [reflexivity|].
           right. left. reflexivity.
        -- pose proof (ndigits_bounds (c / 10 ^ k + 1) ltac:(lia)) as [_ Hcb].
           assert (Hp28 : 10 ^ Decimal.ndigits (c / 10 ^ k + 1) <= 10 ^ 28)
             by (apply Z.pow_le_mono_r; lia).
           destruct (999999 - 28 + 1 <? exp_min); [discriminate|]. intros [= <-].
           cbn [Decimal.sign Decimal.coeff Decimal.exp]. fold k.
           rewrite Z2N.id by lia.
           split; [reflexivity|]. split; [lia|]. split; [exact A|].
           split; [intros H; specialize (B H);
                   destruct (c / 10 ^ k + 1) as [|pn|pn] eqn:Ek; [reflexivity|exact B|lia]|].
           split; [lia|].
           destruct Hem as (_ & _ & [Hx|Hx]); [right; left; specialize (Hlow Hx); lia|right; right; lia].
      * destruct (999999 - 28 + 1 <? exp_min); [discriminate|]. intros [= <-].
        cbn [Decimal.sign Decimal.coeff Decimal.exp]. fold k.
        rewrite Z.add_0_r in A, B. rewrite Z2N.id by lia.
        split; [reflexivity|]. split; [lia|]. split; [exact A|].
        split; [intros H; specialize (B H);
                destruct (c / 10 ^ k) as [|pn|pn] eqn:Ek; [reflexivity|exact B|lia]|].
        split; [lia|].
        destruct Hem as (_ & _ & [Hx|Hx]); [right; left; apply Hlow, Hx|right; right; lia].
      * destruct (999999 - 28 + 1 <? exp_min); [discriminate|]. intros [= <-].
        cbn [Decimal.sign Decimal.coeff Decimal.exp]. fold k.
        rewrite Z.add_0_r in A, B. rewrite Z2N.id by lia.
        split; [reflexivity|]. split; [lia|]. split; [exact A|].
        split; [intros H; specialize (B H);
                destruct (c / 10 ^ k) as [|pn|pn] eqn:Ek; [reflexivity|exact B|lia]|].
        split; [lia|].
        destruct Hem as (_ & _ & [Hx|Hx]); [right; left; apply Hlow, Hx|right; right; lia].
  - (* representable as it is: the division was exact *)
    intros [= <-]. cbn [Decimal.sign Decimal.coeff Decimal.exp].
    rewrite Z2N.id, Z.sub_diag by lia. change (10 ^ 0) with 1.
    assert (Hex : N mod D = 0).
    { destruct (Z.eq_dec (N mod D) 0) as [Hz|Hz]; [exact Hz|]. specialize (Hlong Hz). lia. }
    destruct (Hb3 Hex) as [_ HNc].
    assert (Hc28 : c < 10 ^ 28).
    { assert (10 ^ len <= 10 ^ 28) by (apply Z.pow_le_mono_r; lia). lia. }
    split; [reflexivity|]. split; [lia|].
    replace (N - c * 1 * D) with 0 by lia. cbn.
    split; [lia|]. split; [intros; exfalso; lia|]. split; [exact Hc28|]. left. lia.
Qed.

(** The loop towards the ideal exponent keeps the value. *)
Lemma strip_zeros_value fuel : forall c e ideal c' e',
  Decimal.strip_zeros fuel c e ideal = (c', e') -> 0 < c ->
  e <= e' /\ c = c' * 10 ^ (e' - e) /\ 0 < c'.
Proof.
  induction fuel as [|f IH]; intros c e ideal c' e' H Hc; cbn [Decimal.strip_zeros] in H.
  - injection H as <- <-. rewrite Z.sub_diag. change (10 ^ 0) with 1. lia.
  - destruct ((e <? ideal) && (c mod 10 =? 0)) eqn:E.
    + apply andb_true_iff in E. destruct E as [_ Em]. apply Z.eqb_eq in Em.
      assert (Hc10 : c = 10 * (c / 10)) by (pose proof (Z.div_mod c 10 ltac:(lia)); lia).
      destruct (IH _ _ _ _ _ H ltac:(lia)) as (A & B & C).
      split; [lia|]. split; [|exact C].
      replace (e' - e) with (e' - (e + 1) + 1) by lia.
      rewrite Z.pow_add_r by lia. change (10 ^ 1) with 10. lia.
    + injection H as <- <-. rewrite Z.sub_diag. change (10 ^ 0) with 1. lia.
Qed.

Lemma long_quotient N D :
  0 < D -> 10 ^ Decimal.prec * D <= N -> Decimal.prec < Decimal.ndigits (sticky N D).
Proof.
  intros HD HN.
  assert (H0 : 0 <= N) by (pose proof (pow10_pos Decimal.prec ltac:(unfold Decimal.prec; lia)); nia).
  pose proof (sticky_bounds N D HD H0) as (Hb1 & _ & _).
  assert (Hq : 10 ^ Decimal.prec <= N / D) by (apply Z.div_le_lower_bound; lia).
  pose proof (ndigits_bounds (sticky N D) ltac:(pose proof (pow10_pos Decimal.prec ltac:(unfold Decimal.prec; lia)); lia)) as [_ Hu].
  apply (Z.pow_lt_mono_r_iff 10); [lia| |lia].
  pose proof (ndigits_bounds (sticky N D)). lia.
Qed.

Lemma rounded_scale N D e e' q' d :
  0 < D -> e <= e' -> N = q' * 10 ^ (e' - e) * D ->
  rounded (q' * D) D e' d -> rounded N D e d.
Proof.
  intros HD He HN (A & B & C & E & F).
  pose proof (pow10_pos (e' - e) ltac:(lia)) as Hp.
  set (p := 10 ^ (e' - e)) in *.
  set (k := 10 ^ (Decimal.exp d - e')) in *.
  set (n := Z.of_N (Decimal.coeff d)) in *.
  assert (Hk : 10 ^ (Decimal.exp d - e) = k * p).
  { replace (Decimal.exp d - e) with (Decimal.exp d - e' + (e' - e)) by lia.
    apply Z.pow_add_r; lia. }
  assert (Hdiff : N - n * (k * p) * D = p * (q' * D - n * k * D)) by (rewrite HN; ring).
  unfold rounded. fold n. rewrite Hk, Hdiff, Z.abs_mul, (Z.abs_eq p) by lia.
  split; [lia|]. split; [nia|]. split; [intros H; apply C; nia|]. split; [exact E|].
  destruct F as [F|F]; [left|right; exact F].
  rewrite HN. transitivity (p * (q' * D)); [ring|rewrite F; ring].
Qed.

Lemma div_rounded sg N D e fuel ideal d :
  0 < D -> 10 ^ Decimal.prec * D <= N ->
  (if negb (N mod D =? 0) then
     Decimal.fix_ (Decimal.Dec sg (Z.to_N (if N / D mod 5 =? 0 then N / D + 1 else N / D)) e)
   else
     let '(q, e') := Decimal.strip_zeros fuel (N / D) e ideal in
     Decimal.fix_ (Decimal.Dec sg (Z.to_N q) e')) = Decimal.Ok d ->
  Decimal.sign d = sg /\ rounded N D e d.
Proof.
  intros HD HN.
  pose proof (pow10_pos Decimal.prec ltac:(unfold Decimal.prec; lia)) as Hp.
  assert (H0 : 0 <= N) by nia.
  assert (Hq : 10 ^ Decimal.prec <= N / D) by (apply Z.div_le_lower_bound; lia).
  pose proof (long_quotient N D HD HN) as Hlong.
  pose proof (sticky_bounds N D HD H0) as (Hb1 & _ & Hb3).
  destruct (N mod D =? 0) eqn:Er; cbn [negb].
  - apply Z.eqb_eq in Er. destruct (Hb3 Er) as [Hs HNs]. rewrite Hs in HNs.
    destruct (Decimal.strip_zeros fuel (N / D) e ideal) as [q' e'] eqn:Es.
    destruct (strip_zeros_value _ _ _ _ _ _ Es ltac:(lia)) as (He & Hv & Hq').
    intros H.
    assert (Hst : sticky (q' * D) D = q').
    { unfold sticky. rewrite Z.mod_mul by lia. cbn [negb andb]. apply Z.div_mul; lia. }
    pose proof (fix_sticky sg (q' * D) D e' d HD ltac:(nia)) as Hf.
    rewrite Hst in Hf. specialize (Hf Hq').
    specialize (Hf ltac:(rewrite Z.mod_mul by lia; intros X; exfalso; apply X; reflexivity) H).
    destruct Hf as (A & Hf). split; [exact A|].
    apply (rounded_scale N D e e' q' d HD He); [rewrite HNs, Hv; ring|exact Hf].
  - intros H. apply Z.eqb_neq in Er.
    assert (Hst : sticky N D = (if N / D mod 5 =? 0 then N / D + 1 else N / D)).
    { unfold sticky. destruct (N mod D =? 0) eqn:E; [apply Z.eqb_eq in E; contradiction|].
      reflexivity. }
    rewrite <- Hst in H.
    destruct (fix_sticky sg N D e d HD H0 ltac:(lia) ltac:(intros _; exact Hlong) H) as (A & Hf).
    split; [exact A|exact Hf].
Qed.

Lemma pos_units_abs z (w : Q) : (0 < w)%Q -> (Qabs (inject_Z z * w) == inject_Z (Z.abs z) * w)%Q.
Proof.
  intros Hw. rewrite Qabs_Qmult, (Qabs_pos w) by (apply Qlt_le_weak, Hw). reflexivity.
Qed.

Lemma pos_units_le z p (w : Q) :
  (0 < w)%Q -> 2 * Z.abs z <= p ->
  (Qabs (inject_Z z * w) <= (1#2) * (inject_Z p * w))%Q.
Proof.
  intros Hw H. rewrite pos_units_abs, Qmult_assoc by exact Hw.
  apply Qmult_le_r; [exact Hw|].
  unfold Qle, inject_Z; simpl. lia.
Qed.

Lemma pos_units_eq z p (w : Q) :
  (0 < w)%Q ->
  (Qabs (inject_Z z * w) == (1#2) * (inject_Z p * w))%Q -> 2 * Z.abs z = p.
Proof.
  intros Hw. rewrite pos_units_abs, Qmult_assoc by exact Hw. intros H.
  apply Qmult_inj_r in H; [|intros E; rewrite E in Hw; discriminate].
  unfold Qeq, inject_Z in H; simpl in H. lia.
Qed.

Lemma inject_pos D : 0 < D -> (0 < inject_Z D)%Q.
Proof. intros H. change 0%Q with (inject_Z 0). rewrite <- Zlt_Qlt. exact H. Qed.

(** From the integers to the values: [d] is the decimal of its exponent
    nearest to [± N / D * 10 ^ e]. *)
Lemma rounded_nearest sg N D e d :
  0 < D -> Decimal.sign d = sg -> rounded N D e d ->
  nearest_at (inject_Z ((if sg then -1 else 1) * N) * (Qpower 10 e / inject_Z D))
             (Decimal.exp d) d.
Proof.
  intros HD Hs (He & Hle & Htie & _).
  set (k := Decimal.exp d - e) in *.
  pose proof (inject_pos D HD) as HiD.
  pose proof (ten_pow_pos e) as Ht.
  assert (Hw : (0 < Qpower 10 e / inject_Z D)%Q).
  { apply Qlt_shift_div_l; [exact HiD|]. rewrite Qmult_0_l. exact Ht. }
  assert (HDne : ~ (inject_Z D == 0)%Q) by (intros E; rewrite E in HiD; discriminate).
  assert (Hexp : Decimal.exp d = e + k) by (unfold k; lia).
  assert (Hdiff : (Decimal.to_Q d
                   - inject_Z ((if sg then -1 else 1) * N) * (Qpower 10 e / inject_Z D)
                   == inject_Z ((if sg then -1 else 1)
                                * (Z.of_N (Decimal.coeff d) * 10 ^ k * D - N))
                      * (Qpower 10 e / inject_Z D))%Q).
  { unfold Decimal.to_Q, Decimal.signed. rewrite Hs, Hexp, ten_pow_split by lia.
    generalize (Qpower 10 e) as t; intros t.
    destruct sg; unfold Zminus;
      rewrite ?inject_Z_mult, ?inject_Z_plus, ?inject_Z_opp, ?inject_Z_mult;
      generalize (inject_Z (10 ^ k)) as p; intros p;
      change (inject_Z (-1)) with (- (1))%Q; change (inject_Z 1) with 1%Q;
      field; exact HDne. }
  assert (Hhalf : ((1#2) * Qpower 10 (Decimal.exp d)
                   == (1#2) * (inject_Z (10 ^ k * D) * (Qpower 10 e / inject_Z D)))%Q).
  { rewrite Hexp, ten_pow_split, inject_Z_mult by lia.
    generalize (Qpower 10 e) as t; intros t.
    generalize (inject_Z (10 ^ k)) as p; intros p. field; exact HDne. }
  split; [reflexivity|]. rewrite Hdiff, Hhalf. split.
  - apply pos_units_le; [exact Hw|]. rewrite abs_signed. lia.
  - intros H. apply pos_units_eq in H; [|exact Hw]. rewrite abs_signed in H.
    apply Htie. lia.
Qed.

Lemma rounded_exact sg N D e d :
  0 < D -> Decimal.sign d = sg -> e <= Decimal.exp d ->
  N = Z.of_N (Decimal.coeff d) * 10 ^ (Decimal.exp d - e) * D ->
  (Decimal.to_Q d == inject_Z ((if sg then -1 else 1) * N) * (Qpower 10 e / inject_Z D))%Q.
Proof.
  intros HD Hs He HN.
  set (k := Decimal.exp d - e) in *.
  pose proof (inject_pos D HD) as HiD.
  assert (HDne : ~ (inject_Z D == 0)%Q) by (intros E; rewrite E in HiD; discriminate).
  assert (Hexp : Decimal.exp d = e + k) by (unfold k; lia).
  unfold Decimal.to_Q, Decimal.signed. rewrite Hs, Hexp, ten_pow_split, HN by lia.
  generalize (Qpower 10 e) as t; intros t.
  destruct sg; rewrite ?inject_Z_mult, ?inject_Z_opp, ?inject_Z_mult;
    generalize (inject_Z (10 ^ k)) as p; intros p;
    change (inject_Z (-1)) with (- (1))%Q; change (inject_Z 1) with 1%Q;
    field; exact HDne.
Qed.

Lemma rounded_to_prec_intro sg N D e d :
  0 < D -> Decimal.sign d = sg -> rounded N D e d ->
  rounded_to_prec (inject_Z ((if sg then -1 else 1) * N) * (Qpower 10 e / inject_Z D)) d.
Proof.
  intros HD Hs H. split; [apply rounded_nearest; assumption|].
  destruct H as (He & _ & _ & Hc & Hf). split; [exact Hc|].
  destruct Hf as [Hf|Hf]; [left|right; exact Hf].
  apply rounded_exact; assumption.
Qed.

(** The exact quotient of two decimals, over the integers that
    [__truediv__] divides. *)
Lemma quotient_value a b N D shift :
  Z.of_N (Decimal.coeff b) <> 0 ->
  (0 <= shift /\ N = Z.of_N (Decimal.coeff a) * 10 ^ shift /\ D = Z.of_N (Decimal.coeff b)) \/
  (shift < 0 /\ N = Z.of_N (Decimal.coeff a) /\ D = Z.of_N (Decimal.coeff b) * 10 ^ (- shift)) ->
  (Decimal.to_Q a / Decimal.to_Q b
   == inject_Z ((if xorb (Decimal.sign a) (Decimal.sign b) then -1 else 1) * N)
      * (Qpower 10 (Decimal.exp a - Decimal.exp b - shift) / inject_Z D))%Q.
Proof.
  destruct a as [sa ca ea], b as [sb cb eb]. cbn [Decimal.sign Decimal.coeff Decimal.exp].
  intros Hb Hc.
  assert (Hcb : ~ (inject_Z (Z.of_N cb) == 0)%Q).
  { intros E. unfold Qeq, inject_Z in E; simpl in E. lia. }
  pose proof (ten_pow_pos eb) as Htb.
  assert (Htbne : ~ (Qpower 10 eb == 0)%Q) by (intros E; rewrite E in Htb; discriminate).
  set (e := ea - eb - shift).
  pose proof (ten_pow_pos e) as Hte.
  unfold Decimal.to_Q, Decimal.signed. cbn [Decimal.sign Decimal.coeff Decimal.exp].
  destruct Hc as [(Hs & -> & ->)|(Hs & -> & ->)].
  - pose proof (pow10_pos shift Hs) as Hp.
    replace ea with (eb + e + shift) by (unfold e; lia).
    rewrite ten_pow_split by exact Hs. rewrite Qpower_plus by discriminate.
    generalize (Qpower 10 e) as te. generalize (Qpower 10 eb) as tb, Htbne. intros tb Hne te.
    destruct sa, sb; cbn [xorb];
      rewrite ?inject_Z_mult, ?inject_Z_opp, ?inject_Z_mult;
      generalize (inject_Z (10 ^ shift)) as p; intros p;
      change (inject_Z (-1)) with (- (1))%Q; change (inject_Z 1) with 1%Q;
      field; repeat split; assumption.
  - pose proof (pow10_pos (- shift) ltac:(lia)) as Hp.
    assert (Hpne : ~ (inject_Z (10 ^ (- shift)) == 0)%Q).
    { intros E. unfold Qeq, inject_Z in E; simpl in E. lia. }
    assert (Hrel : (Qpower 10 e * Qpower 10 eb == inject_Z (10 ^ (- shift)) * Qpower 10 ea)%Q).
    { rewrite <- Qpower_plus by discriminate. rewrite <- ten_pow_split by lia.
      replace (e + eb) with (ea + - shift) by (unfold e; lia). reflexivity. }
    assert (Hte' : (Qpower 10 e == inject_Z (10 ^ (- shift)) * Qpower 10 ea / Qpower 10 eb)%Q).
    { rewrite <- Hrel. field. exact Htbne. }
    rewrite Hte'.
    generalize (Qpower 10 ea) as ta. generalize (Qpower 10 eb) as tb, Htbne. intros tb Hne ta.
    destruct sa, sb; cbn [xorb];
      rewrite ?inject_Z_mult, ?inject_Z_opp, ?inject_Z_mult;
      generalize (inject_Z (10 ^ (- shift))) as p, Hpne; intros p Hpne';
      change (inject_Z (-1)) with (- (1))%Q; change (inject_Z 1) with 1%Q;
      field; repeat split; assumption.
Qed.

Lemma rounded_to_prec_compat x y d :
  (x == y)%Q -> rounded_to_prec y d -> rounded_to_prec x d.
Proof.
  intros E. unfold rounded_to_prec, nearest_at. rewrite E. exact (fun H => H).
Qed.

Lemma to_Q_zero sg e : (Decimal.to_Q (Decimal.Dec sg 0 e) == 0)%Q.
Proof.
  unfold Decimal.to_Q, Decimal.signed; cbn [Decimal.sign Decimal.coeff Decimal.exp].
  destruct sg; cbn [Z.of_N]; change (- 0) with 0; change (inject_Z 0) with 0%Q; apply Qmult_0_l.
Qed.

(** [Decimal.__truediv__] gives the exact quotient rounded to the precision
    of the context. *)
Lemma div_rounds a b d :
  Decimal.div a b = Decimal.Ok d ->
  Decimal.coeff b <> 0%N /\ rounded_to_prec (Decimal.to_Q a / Decimal.to_Q b) d.
Proof.
  unfold Decimal.div.
  destruct (Z.of_N (Decimal.coeff b) =? 0) eqn:Eb;
    [destruct (Z.of_N (Decimal.coeff a) =? 0); discriminate|].
  apply Z.eqb_neq in Eb. intros H. split; [lia|].
  destruct (Z.of_N (Decimal.coeff a) =? 0) eqn:Ea.
  - apply Z.eqb_eq in Ea. unfold Decimal.fix_ in H.
    cbn [Decimal.sign Decimal.coeff Decimal.exp Z.of_N] in H. change (0 =? 0) with true in H.
    cbv iota in H. injection H as <-.
    assert (Hx : (Decimal.to_Q a / Decimal.to_Q b == 0)%Q).
    { destruct a as [sa ca ea]. cbn [Decimal.coeff] in Ea.
      assert (ca = 0%N) by lia. subst ca. rewrite to_Q_zero. apply Qmult_0_l. }
    unfold rounded_to_prec, nearest_at. rewrite Hx, to_Q_zero.
    cbn [Decimal.coeff Decimal.exp Z.of_N].
    split; [|split; [reflexivity|left; reflexivity]].
    split; [reflexivity|]. split; [|intros _; reflexivity].
    change (Qabs (0 - 0)) with 0%Q.
    apply Qmult_le_0_compat; [discriminate|apply Qlt_le_weak, ten_pow_pos].
  - apply Z.eqb_neq in Ea.
    set (ca := Z.of_N (Decimal.coeff a)) in *. set (cb := Z.of_N (Decimal.coeff b)) in *.
    assert (Hca : 0 < ca) by (unfold ca; lia). assert (Hcb : 0 < cb) by (unfold cb; lia).
    pose proof (ndigits_bounds ca ltac:(lia)) as [Ha1 Ha2].
    pose proof (ndigits_bounds cb ltac:(lia)) as [Hb1 Hb2].
    pose proof (ndigits_lower ca Hca) as Ha3.
    set (la := Decimal.ndigits ca) in *. set (lb := Decimal.ndigits cb) in *.
    unfold Decimal.prec in H |- *. cbv zeta in H.
    set (shift := lb - la + 28 + 1) in *.
    set (e := Decimal.exp a - Decimal.exp b - shift) in *.
    pose proof (pow10_pos lb ltac:(lia)) as Hplb.
    destruct (0 <=? shift) eqn:Es; [apply Z.leb_le in Es|apply Z.leb_gt in Es]; cbv iota beta in H.
    + pose proof (pow10_pos shift Es) as Hp.
      assert (Hbig : 10 ^ Decimal.prec * cb <= ca * 10 ^ shift).
      { unfold Decimal.prec.
        assert (10 ^ (la - 1) * 10 ^ shift = 10 ^ 28 * 10 ^ lb).
        { rewrite <- !Z.pow_add_r by lia. f_equal. unfold shift. lia. }
        nia. }
      destruct (div_rounded _ _ _ _ _ _ _ Hcb Hbig H) as [Hsg Hr].
      apply (rounded_to_prec_compat _ _ _ (quotient_value a b (ca * 10 ^ shift) cb shift Eb
               (or_introl (conj Es (conj eq_refl eq_refl))))).
      apply rounded_to_prec_intro; assumption.
    + pose proof (pow10_pos (- shift) ltac:(lia)) as Hp.
      assert (Hbig : 10 ^ Decimal.prec * (cb * 10 ^ (- shift)) <= ca).
      { unfold Decimal.prec.
        assert (10 ^ 28 * (10 ^ lb * 10 ^ (- shift)) = 10 ^ (la - 1)).
        { rewrite <- !Z.pow_add_r by lia. f_equal. unfold shift. lia. }
        nia. }
      assert (HD : 0 < cb * 10 ^ (- shift)) by nia.
      destruct (div_rounded _ _ _ _ _ _ _ HD Hbig H) as [Hsg Hr].
      apply (rounded_to_prec_compat _ _ _ (quotient_value a b ca (cb * 10 ^ (- shift)) shift Eb
               (or_intror (conj Es (conj eq_refl eq_refl))))).
      apply rounded_to_prec_intro; assumption.
Qed.

End DecimalFacts.
(* ===================================================================== *)
(** ** Facts about the metadata cache                                     *)
(* ===================================================================== *)

Section CacheFacts.
Import MarketUtils.

Section ODictFacts.
Context {V : Type}.
Implicit Types d : list (string * V).

Lemma odict_get_set_eq k v d : ODict.get k (ODict.set k v d) = Some v.
Proof.
  induction d as [|[k' v'] r IH]; cbn.
  - rewrite String.eqb_refl. reflexivity.
  - destruct (String.eqb k k') eqn:E; cbn; rewrite E; [reflexivity|exact IH].
Qed.

Lemma odict_get_set_ne k k' v d : k <> k' -> ODict.get k' (ODict.set k v d) = ODict.get k' d.
Proof.
  intros Hne. induction d as [|[k0 v0] r IH]; cbn.
  - destruct (String.eqb k' k) eqn:E; [apply String.eqb_eq in E; congruence|reflexivity].
  - destruct (String.eqb k k0) eqn:E; cbn.
    + apply String.eqb_eq in E. subst k0.
      destruct (String.eqb k' k) eqn:E'; [apply String.eqb_eq in E'; congruence|reflexivity].
    + destruct (String.eqb k' k0); [reflexivity|exact IH].
Qed.
End ODictFacts.

Lemma Qltb_lt x y : Qltb x y = true <-> (x < y)%Q.
Proof.
  unfold Qltb. rewrite negb_true_iff. split.
  - intros H. apply Qnot_le_lt. intros L. apply Qle_bool_iff in L. congruence.
  - intros H. destruct (Qle_bool y x) eqn:E; [|reflexivity].
    apply Qle_bool_iff in E. exfalso. exact (Qlt_not_le _ _ H E).
Qed.

Lemma Qltb_ge x y : Qltb x y = false <-> (y <= x)%Q.
Proof.
  unfold Qltb. rewrite negb_false_iff. apply Qle_bool_iff.
Qed.

Lemma truthy_float_true x : truthy_float x = true <-> ~ (x == 0)%Q.
Proof.
  unfold truthy_float. rewrite negb_true_iff. split.
  - intros H E. apply Qeq_bool_iff in E. congruence.
  - intros H. destruct (Qeq_bool x 0) eqn:E; [|reflexivity].
    apply Qeq_bool_iff in E. contradiction.
Qed.

(** What a bulk fetch leaves in the two dictionaries. *)
Lemma fetch_loop t data : forall st,
  let st' := fold_left (cache_one t) data st in
  (forall l1 mk l2, data = l1 ++ mk :: l2 ->
     (forall x, In x l2 -> name x <> name mk) ->
     ODict.get (name mk) (_market_cache st') = Some mk /\
     ODict.get (name mk) (_cache_timestamps st') = Some t) /\
  (forall k, (forall x, In x data -> name x <> k) ->
     ODict.get k (_market_cache st') = ODict.get k (_market_cache st) /\
     ODict.get k (_cache_timestamps st') = ODict.get k (_cache_timestamps st)).
Proof.
  induction data as [|m0 r IH]; intros st; cbn zeta.
  - split.
    + intros [|? ?] mk l2 H; discriminate.
    + intros k _. split; reflexivity.
  - cbn [fold_left]. destruct (IH (cache_one t st m0)) as [IH1 IH2]. split.
    + intros l1 mk l2 Hd Hl2. destruct l1 as [|y l1']; cbn in Hd; injection Hd as -> ->.
      * destruct (IH2 (name mk) Hl2) as [A B]. rewrite A, B. cbn.
        rewrite !odict_get_set_eq. split; reflexivity.
      * eapply IH1; [reflexivity|exact Hl2].
    + intros k Hk.
      destruct (IH2 k (fun x Hx => Hk x (or_intror Hx))) as [A B]. rewrite A, B. cbn.
      assert (name m0 <> k) by (apply Hk; left; reflexivity).
      rewrite !odict_get_set_ne by assumption. split; reflexivity.
Qed.

Lemma fetch_stamped a st :
  ~ (current_time a == 0)%Q -> stamped st -> stamped (_fetch_and_cache_all_markets a st).
Proof.
  intros Ht Hs. unfold _fetch_and_cache_all_markets.
  destruct (markets_response a) as [data|]; [|exact Hs].
  revert st Hs. induction data as [|m0 r IH]; intros st Hs; [exact Hs|].
  cbn [fold_left]. apply IH. intros k ts. cbn.
  destruct (String.eqb_spec (name m0) k) as [->|Hne].
  - rewrite odict_get_set_eq. intros [= <-]. exact Ht.
  - rewrite odict_get_set_ne by assumption. apply Hs.
Qed.

Lemma init_stamped : stamped init.
Proof. intros k ts H. discriminate. Qed.

Lemma fetch_bulk_refreshed a st : bulk_refreshed a st (_fetch_and_cache_all_markets a st).
Proof.
  unfold bulk_refreshed, _fetch_and_cache_all_markets. split.
  - intros data ->. apply fetch_loop.
  - intros ->. reflexivity.
Qed.

(** C5.  [get_market_object] on a cache whose timestamps are clock
    readings: when the market has an entry younger than 60 seconds, the
    entry is returned, nothing is fetched and the cache is left as it is;
    otherwise one bulk fetch is made, every fetched market is stored under
    its name with the new timestamp, and the entry that the cache then has
    for the market is returned, or nothing when it has none. *)
Theorem C5_get_market_object now a st market_name :
  stamped st ->
  let '(res, st', n) := get_market_object now a st market_name in
  (fresh_entry now st market_name ->
     res = ODict.get market_name (_market_cache st) /\ st' = st /\ n = 0%nat) /\
  (~ fresh_entry now st market_name ->
     n = 1%nat /\ bulk_refreshed a st st' /\
     res = ODict.get market_name (_market_cache st')).
Proof.
  intros Hs. unfold get_market_object.
  pose proof (fetch_bulk_refreshed a st) as Hrefresh.
  destruct (ODict.get market_name (_market_cache st)) as [mk|] eqn:Ec.
  - destruct (ODict.get market_name (_cache_timestamps st)) as [ts|] eqn:Et.
    + destruct (truthy_float ts && Qltb (now - ts) CACHE_DURATION_SECONDS) eqn:E.
      * apply andb_true_iff in E. destruct E as [_ E]. apply Qltb_lt in E.
        split; [intros _; repeat split; reflexivity|].
        intros Hn. exfalso. apply Hn. exists mk, ts. repeat split; assumption.
      * split.
        -- intros (mk' & ts' & H1 & H2 & H3). exfalso.
           rewrite Et in H2. injection H2 as <-.
           apply andb_false_iff in E. destruct E as [E|E].
           ++ assert (T : truthy_float ts = true) by (apply truthy_float_true; eapply Hs; eassumption).
              congruence.
           ++ apply Qltb_ge in E. exact (Qlt_not_le _ _ H3 E).
        -- intros _. split; [reflexivity|]. split; [exact Hrefresh|reflexivity].
    + split.
      * intros (mk' & ts' & H1 & H2 & H3). congruence.
      * intros _. split; [reflexivity|]. split; [exact Hrefresh|reflexivity].
  - split.
    + intros (mk' & ts' & H1 & H2 & H3). congruence.
    + intros _. split; [reflexivity|]. split; [exact Hrefresh|reflexivity].
Qed.

Section Listing.
Variable py_float : PyVal.t -> option Q.

Lemma with_volume_In l mk v :
  In (mk, v) (with_volume py_float l) <-> In mk l /\ volume_of py_float mk = Some v.
Proof.
  induction l as [|x r IH]; cbn.
  - tauto.
  - destruct (volume_of py_float x) as [vx|] eqn:E; cbn; rewrite IH; split.
    + intros [[= -> ->]|[H1 H2]]; [split; [left; reflexivity|exact E]|split; [right|]; assumption].
    + intros [[->|H1] H2]; [left; congruence|right; split; assumption].
    + intros [H1 H2]. split; [right|]; assumption.
    + intros [[->|H1] H2]; [congruence|split; assumption].
Qed.

Lemma insert_desc_perm x l : Permutation (insert_desc x l) (x :: l).
Proof.
  induction l as [|y r IH]; cbn; [reflexivity|].
  destruct (Qltb (snd x) (snd y)); [|reflexivity].
  rewrite IH. apply perm_swap.
Qed.

Lemma sort_desc_perm l : Permutation (sort_desc l) l.
Proof.
  induction l as [|x r IH]; cbn; [reflexivity|].
  rewrite insert_desc_perm. constructor. exact IH.
Qed.




End Listing.

End CacheFacts.

(* ===================================================================== *)
(** ** Facts about the provider                                           *)
(* ===================================================================== *)

Section ProviderFacts.
Import Provider.

(* ---------- strings ---------- *)
Lemma upper_ascii_idem c : PyStr.upper_ascii (PyStr.upper_ascii c) = PyStr.upper_ascii c.
Proof.
  destruct c as [[] [] [] [] [] [] [] []]; vm_compute; reflexivity.
Qed.

Lemma upper_idem s : PyStr.upper (PyStr.upper s) = PyStr.upper s.
Proof.
  induction s as [|c r IH]; cbn; [reflexivity|].
  rewrite upper_ascii_idem, IH. reflexivity.
Qed.

(* ---------- frame facts ---------- *)
Lemma start_one_data s raw : _latest_market_data (start_one s raw) = _latest_market_data s.
Proof.
  unfold start_one, create_task. cbn.
  destruct (_ !! _) as [tid|]; [destruct (task_done _ tid)|]; reflexivity.
Qed.

Lemma start_streams_data ms s :
  _latest_market_data (start_streams ms s) = _latest_market_data s.
Proof.
  unfold start_streams.
  assert (H : forall s0, _latest_market_data (fold_left start_one ms s0) = _latest_market_data s0).
  { induction ms as [|x r IH]; intros s0; cbn; [reflexivity|].
    rewrite IH. apply start_one_data. }
  rewrite H. reflexivity.
Qed.

Lemma start_one_active s raw mk :
  _active_market_listeners (start_one s raw) !! mk =
  if decide (PyStr.upper raw = mk) then Some true else _active_market_listeners s !! mk.
Proof.
  unfold start_one, create_task. cbn.
  assert (H : <[PyStr.upper raw := true]> (_active_market_listeners s) !! mk
              = if decide (PyStr.upper raw = mk) then Some true else _active_market_listeners s !! mk).
  { destruct (decide (PyStr.upper raw = mk)) as [->|Hne];
      [apply lookup_insert_eq|apply lookup_insert_ne, Hne]. }
  destruct (_connection_tasks s !! _) as [tid|]; [destruct (task_done _ tid)|]; exact H.
Qed.

Lemma start_streams_flag ms s mk :
  flag_up (start_streams ms s) mk -> mk ∈ map PyStr.upper ms \/ flag_up s mk.
Proof.
  unfold start_streams, flag_up.
  change (_active_market_listeners s) with (_active_market_listeners (set_running true s)).
  generalize (set_running true s) as s0.
  induction ms as [|x r IH]; intros s0; cbn [fold_left map]; [right; assumption|].
  intros H. destruct (IH _ H) as [H'|H'].
  - left. right. exact H'.
  - rewrite start_one_active in H'. destruct (decide (PyStr.upper x = mk)) as [->|].
    + left. left.
    + right. exact H'.
Qed.

Lemma stop_forget_frame ms stopped s :
  _latest_market_data (stop_forget ms stopped s) = _latest_market_data s /\
  _active_market_listeners (stop_forget ms stopped s) = _active_market_listeners s /\
  _market_connections (stop_forget ms stopped s) = _market_connections s /\
  tasks (stop_forget ms stopped s) = tasks s.
Proof.
  unfold stop_forget. generalize (take (length stopped) ms) as l.
  intros l. revert s. induction l as [|x r IH]; intros s; cbn [fold_left]; [auto|].
  destruct (IH (set_registry (delete (PyStr.upper x)) s)) as (A & B & C & D).
  rewrite A, B, C, D. auto.
Qed.

Lemma set_pc_frame tid k s :
  _latest_market_data (set_pc tid k s) = _latest_market_data s /\
  _active_market_listeners (set_pc tid k s) = _active_market_listeners s /\
  _connection_tasks (set_pc tid k s) = _connection_tasks s /\
  _market_connections (set_pc tid k s) = _market_connections s /\
  _running (set_pc tid k s) = _running s.
Proof. unfold set_pc. cbn. auto. Qed.

(** A listener step changes the quote of a market only where it deletes
    it, or where it writes it with the flag up. *)
Lemma on_snapshot_data mk0 snap clk s s' :
  on_snapshot mk0 snap clk s = Some s' ->
  _active_market_listeners s' = _active_market_listeners s /\
  forall mk qt, _latest_market_data s' !! mk = Some qt ->
    _latest_market_data s !! mk = Some qt \/ flag_up s mk.
Proof.
  unfold on_snapshot. intros H.
  destruct (data snap) as [d|]; [|injection H as <-; auto].
  destruct (_ && _); [|injection H as <-; auto].
  destruct (best_level (b d)) as [bb|]; [|discriminate].
  destruct (best_level (a d)) as [ba|]; [|discriminate].
  destruct (_ && _); [|injection H as <-; auto].
  destruct (default false (_active_market_listeners s !! mk0)) eqn:E; [|injection H as <-; auto].
  injection H as <-. cbn. split; [reflexivity|].
  intros mk qt. destruct (decide (mk0 = mk)) as [->|Hne].
  - intros _. right. unfold flag_up.
    destruct (_active_market_listeners s !! mk) as [[]|]; cbn in E; congruence.
  - rewrite lookup_insert_ne by exact Hne. auto.
Qed.

Lemma finish_data tid mk0 s mk qt :
  _latest_market_data (finish tid mk0 s) !! mk = Some qt -> _latest_market_data s !! mk = Some qt.
Proof.
  unfold finish. cbn. intros H. apply lookup_delete_Some in H. tauto.
Qed.

Lemma resume_data tid i s s' :
  resume tid i s = Some s' ->
  _active_market_listeners s' = _active_market_listeners s /\
  forall mk qt, _latest_market_data s' !! mk = Some qt ->
    _latest_market_data s !! mk = Some qt \/ flag_up s mk.
Proof.
  unfold resume. intros H.
  destruct (tasks s !! tid) as [t|]; [|discriminate].
  destruct (pc_done (t_pc t)); [discriminate|].
  destruct (t_must_cancel t).
  { injection H as <-. destruct (socket_of (t_pc t)); cbn; auto. }
  assert (Ho : forall s0, _active_market_listeners (outer_head tid (t_market t) s0) = _active_market_listeners s0 /\
            forall mk qt, _latest_market_data (outer_head tid (t_market t) s0) !! mk = Some qt ->
                          _latest_market_data s0 !! mk = Some qt).
  { intros s0. unfold outer_head. destruct (wanted _ _); [cbn; auto|].
    split; [reflexivity|]. intros mk qt. apply finish_data. }
  assert (Hl : forall s0, _active_market_listeners (loop_tail tid (t_market t) s0) = _active_market_listeners s0 /\
            forall mk qt, _latest_market_data (loop_tail tid (t_market t) s0) !! mk = Some qt ->
                          _latest_market_data s0 !! mk = Some qt).
  { intros s0. unfold loop_tail. destruct (wanted _ _); [cbn; auto|].
    split; [reflexivity|]. intros mk qt. apply finish_data. }
  assert (Hi : forall c s0, _active_market_listeners (inner_head tid (t_market t) c s0) = _active_market_listeners s0 /\
            _latest_market_data (inner_head tid (t_market t) c s0) = _latest_market_data s0).
  { intros c s0. unfold inner_head. destruct (wanted _ _); cbn; auto. }
  destruct (t_pc t) as [| |c|c|c| |], i as [| | |[snap clk| | |]]; try discriminate.
  - injection H as <-. destruct (Ho s) as [A B]. split; [exact A|]. intros; left; eauto.
  - injection H as <-.
    destruct (Hi (length (sockets s))
               (set_conns (insert (t_market t) (length (sockets s)))
                          (set_sockets (fun l => l ++ [false]) s))) as [A B].
    rewrite A, B. cbn. auto.
  - injection H as <-. destruct (Hl s) as [A B]. split; [exact A|]. intros; left; eauto.
  - destruct (on_snapshot (t_market t) snap clk s) as [s1|] eqn:E; injection H as <-.
    + destruct (on_snapshot_data _ _ _ _ _ E) as [A B].
      destruct (Hi c s1) as [A' B']. rewrite A', B'. split; [exact A|exact B].
    + cbn. auto.
  - injection H as <-. destruct (Hi c s) as [A B]. rewrite A, B. auto.
  - injection H as <-. cbn. auto.
  - injection H as <-. cbn. auto.
  - injection H as <-. cbn. auto.
  - injection H as <-. destruct (Hl (close_socket c s)) as [A B]. split; [exact A|]. intros; left; eauto.
  - injection H as <-. destruct (Ho s) as [A B]. split; [exact A|]. intros; left; eauto.
Qed.

Lemma stop_request_active raw s mk :
  _active_market_listeners (stop_request raw s) !! mk =
  if decide (PyStr.upper raw = mk) then Some false else _active_market_listeners s !! mk.
Proof.
  unfold stop_request. 
  assert (H : <[PyStr.upper raw := false]> (_active_market_listeners s) !! mk
              = if decide (PyStr.upper raw = mk) then Some false else _active_market_listeners s !! mk).
  { destruct (decide (PyStr.upper raw = mk)) as [->|Hne];
      [apply lookup_insert_eq|apply lookup_insert_ne, Hne]. }
  destruct (live_task _ _); cbn; exact H.
Qed.

Lemma stop_request_data raw s : _latest_market_data (stop_request raw s) = _latest_market_data s.
Proof. unfold stop_request. destruct (live_task _ _); reflexivity. Qed.

(** No step writes the quote of a market whose flag is down. *)
Lemma step_no_write e s s' mk qt :
  step e s = Some s' -> ~ flag_up s mk ->
  _latest_market_data s' !! mk = Some qt -> _latest_market_data s !! mk = Some qt.
Proof.
  intros Hstep Hflag. destruct e; cbn in Hstep.
  - injection Hstep as <-. rewrite start_streams_data. auto.
  - injection Hstep as <-. rewrite stop_request_data. auto.
  - injection Hstep as <-. cbn. auto.
  - injection Hstep as <-. cbn. intros H. apply lookup_delete_Some in H. tauto.
  - destruct (forallb _ _); [|discriminate]. injection Hstep as <-.
    destruct (stop_forget_frame markets_to_stop stopped s) as (-> & _). auto.
  - destruct (resume_data _ _ _ _ Hstep) as [_ B]. intros H.
    destruct (B _ _ H); [assumption|contradiction].
Qed.

(** Only [start_streams] raises a flag. *)
Lemma step_flag e s s' mk :
  step e s = Some s' -> starts mk e = false -> flag_up s' mk -> flag_up s mk.
Proof.
  intros Hstep Hq. destruct e; cbn in Hstep, Hq.
  - injection Hstep as <-. intros H. apply start_streams_flag in H.
    destruct H as [H|H]; [|exact H]. apply bool_decide_eq_false in Hq. contradiction.
  - injection Hstep as <-. unfold flag_up. rewrite stop_request_active.
    destruct (decide _); [discriminate|auto].
  - injection Hstep as <-. auto.
  - injection Hstep as <-. auto.
  - destruct (forallb _ _); [|discriminate]. injection Hstep as <-.
    unfold flag_up. destruct (stop_forget_frame markets_to_stop stopped s) as (_ & -> & _). auto.
  - destruct (resume_data _ _ _ _ Hstep) as [A _]. unfold flag_up. rewrite A. auto.
Qed.

Lemma step_parked e s s' mk :
  step e s = Some s' -> starts mk e = false -> parked s mk -> parked s' mk.
Proof.
  intros Hstep Hq [H1 H2]. split.
  - intros H. apply H1. eapply step_flag; eassumption.
  - destruct (_latest_market_data s' !! mk) as [qt|] eqn:E; [|reflexivity].
    rewrite <- H2. symmetry. eapply step_no_write; eassumption.
Qed.

Lemma run_parked evs : forall s s' mk,
  run evs s = Some s' -> quiet mk evs -> parked s mk -> parked s' mk.
Proof.
  induction evs as [|e r IH]; intros s s' mk Hrun Hq Hp; cbn in Hrun.
  - injection Hrun as <-. exact Hp.
  - apply Forall_cons in Hq. destruct Hq as [Hq1 Hq2].
    destruct (step e s) as [s1|] eqn:E; [|discriminate].
    eapply IH; [eassumption|assumption|]. eapply step_parked; eassumption.
Qed.

Lemma run_flag_down evs : forall s s' mk,
  run evs s = Some s' -> quiet mk evs -> ~ flag_up s mk -> ~ flag_up s' mk.
Proof.
  induction evs as [|e r IH]; intros s s' mk Hrun Hq Hp; cbn in Hrun.
  - injection Hrun as <-. exact Hp.
  - apply Forall_cons in Hq. destruct Hq as [Hq1 Hq2].
    destruct (step e s) as [s1|] eqn:E; [|discriminate].
    eapply IH; [eassumption|assumption|]. intros H. apply Hp. eapply step_flag; eassumption.
Qed.

Lemma stop_each_parked ms : forall env stopped s s1 stopped1 env1 mk,
  stop_each ms env stopped s = Some (s1, stopped1, env1) ->
  Forall (quiet mk) env ->
  parked s mk \/ mk ∈ map PyStr.upper ms ->
  parked s1 mk /\ Forall (quiet mk) env1.
Proof.
  induction ms as [|raw r IH]; intros env stopped s s1 stopped1 env1 mk Hs Hq Hp; cbn in Hs.
  - injection Hs as <- <- <-. destruct Hp as [Hp|Hp]; [auto|]. cbn in Hp. inversion Hp.
  - set (s0 := stop_request raw s) in *.
    assert (Hs0 : (parked s mk \/ PyStr.upper raw = mk) -> ~ flag_up s0 mk).
    { intros H. unfold s0, flag_up. rewrite stop_request_active.
      destruct (decide _); [discriminate|]. destruct H as [[H _]|H]; [exact H|contradiction]. }
    assert (Hd0 : parked s mk -> _latest_market_data s0 !! mk = None).
    { intros [_ H]. unfold s0. rewrite stop_request_data. exact H. }
    assert (Hclear : forall s2, (parked s2 mk \/ (PyStr.upper raw = mk /\ ~ flag_up s2 mk)) ->
                                parked (stop_clear raw s2) mk).
    { intros s2 H. unfold parked, stop_clear, flag_up. cbn.
      destruct H as [[H1 H2]|[H1 H2]].
      - split; [exact H1|]. apply lookup_delete_None. right. exact H2.
      - split; [exact H2|]. rewrite H1. apply lookup_delete_eq. }
    assert (Hcase : parked s mk \/ PyStr.upper raw = mk \/ mk ∈ map PyStr.upper r).
    { destruct Hp as [Hp|Hp]; [auto|]. cbn in Hp. apply elem_of_cons in Hp.
      destruct Hp as [->|Hp]; auto. }
    destruct (open_conn raw s0) as [c|].
    + destruct env as [|evs env']; [discriminate|].
      apply Forall_cons in Hq. destruct Hq as [Hq1 Hq2].
      destruct (run evs s0) as [s2|] eqn:Er; [|discriminate].
      eapply IH; [exact Hs|exact Hq2|].
      destruct Hcase as [Hc|[Hc|Hc]]; [left|left|right; exact Hc]; apply Hclear.
      * left. assert (P2 : parked s2 mk).
        { eapply run_parked; [exact Er|exact Hq1|]. split; [apply Hs0; auto|apply Hd0; exact Hc]. }
        destruct P2 as [A B]. split; [exact A|exact B].
      * right. split; [exact Hc|].
        assert (F2 : ~ flag_up s2 mk) by (eapply run_flag_down; [exact Er|exact Hq1|apply Hs0; auto]).
        exact F2.
    + eapply IH; [exact Hs|exact Hq|].
      destruct Hcase as [Hc|[Hc|Hc]]; [left|left|right; exact Hc]; apply Hclear.
      * left. split; [apply Hs0; auto|apply Hd0; exact Hc].
      * right. split; [exact Hc|apply Hs0; auto].
Qed.

(** C2.  No step of the system writes a quote for a market whose flag is
    down: a quote found in the store after the step was there before it.
    And once [stop_specific_streams] has returned for a market, the store
    holds no quote for it, now and after any further steps, as long as
    nobody starts the market again, whatever messages were under way while
    the caller was waiting. *)
Theorem C2_no_write_after_stop :
  (forall e s s' mk qt,
     step e s = Some s' -> ~ flag_up s mk ->
     _latest_market_data s' !! mk = Some qt -> _latest_market_data s !! mk = Some qt) /\
  (forall env markets_to_stop s s' raw,
     stop_specific_streams env markets_to_stop s = Some s' ->
     In raw markets_to_stop ->
     Forall (quiet (PyStr.upper raw)) env ->
     get_best_bid_ask s' raw = None /\
     forall evs s'', quiet (PyStr.upper raw) evs -> run evs s' = Some s'' ->
       get_best_bid_ask s'' raw = None).
Proof.
  split; [exact step_no_write|].
  intros env ms s s' raw Hstop Hin Hq.
  assert (P : parked s' (PyStr.upper raw)).
  { unfold stop_specific_streams in Hstop.
    destruct (stop_each ms env [] s) as [[[s1 stopped] env1]|] eqn:E; [|discriminate].
    destruct (stop_each_parked _ _ _ _ _ _ _ (PyStr.upper raw) E Hq) as [P1 Q1].
    { right. apply list_elem_of_In. apply in_map. exact Hin. }
    destruct stopped as [|t0 st0]; [injection Hstop as <-; exact P1|].
    destruct env1 as [|evs env2]; [discriminate|].
    apply Forall_cons in Q1. destruct Q1 as [Q1 _].
    destruct (run evs s1) as [s2|] eqn:Er; [|discriminate].
    eapply step_parked; [exact Hstop|reflexivity|].
    eapply run_parked; eassumption. }
  split; [apply P|].
  intros evs s'' Hq' Hr. eapply run_parked in Hr; [|exact Hq'|exact P]. apply Hr.
Qed.

(* ---------- C9 ---------- *)


Lemma init_registered : registered init.
Proof. intros tid t H. cbn in H. discriminate. Qed.

Lemma create_task_registered mk s :
  registered s ->
  (forall tid t, tasks s !! tid = Some t -> live t -> t_market t <> mk) ->
  registered (create_task mk s).
Proof.
  intros R Hfree tid t Ht Hl. unfold create_task in *. cbn in *.
  apply lookup_app_Some in Ht. destruct Ht as [Ht|[Hlen Ht]].
  - rewrite lookup_insert_ne by (intros E; eapply Hfree; eauto).
    apply R; assumption.
  - destruct (tid - length (tasks s))%nat as [|n] eqn:E; cbn in Ht; [|discriminate].
    injection Ht as <-. cbn. rewrite lookup_insert_eq. f_equal. lia.
Qed.

Lemma start_one_registered s raw : registered s -> registered (start_one s raw).
Proof.
  intros R. unfold start_one.
  set (s1 := set_active (insert (PyStr.upper raw) true) s).
  assert (R1 : registered s1) by exact R.
  destruct (_connection_tasks s1 !! PyStr.upper raw) as [tid|] eqn:E.
  - destruct (task_done s1 tid) eqn:D; [|exact R1].
    apply create_task_registered; [exact R1|].
    intros tid' t Ht Hl Hm. pose proof (R1 _ _ Ht Hl) as A. rewrite Hm, E in A.
    injection A as ->. unfold task_done in D. rewrite Ht in D. unfold live in Hl. congruence.
  - apply create_task_registered; [exact R1|].
    intros tid' t Ht Hl Hm. pose proof (R1 _ _ Ht Hl) as A. rewrite Hm, E in A. discriminate.
Qed.

Lemma start_streams_registered ms s : registered s -> registered (start_streams ms s).
Proof.
  unfold start_streams. intros R.
  assert (R0 : registered (set_running true s)) by exact R.
  revert R0. generalize (set_running true s) as s0.
  induction ms as [|x r IH]; intros s0 R0; cbn; [exact R0|].
  apply IH, start_one_registered, R0.
Qed.

(** Changing where one task stands, or its cancel mark, keeps the
    registry right as long as a finished task stays finished. *)
Lemma update_task_registered tid t' s :
  registered s ->
  (forall t, tasks s !! tid = Some t -> t_market t' = t_market t /\ (live t' -> live t)) ->
  registered (set_tasks (fun ts => match ts !! tid with
                                   | Some _ => <[tid := t']> ts
                                   | None => ts
                                   end) s).
Proof.
  intros R H tid0 t0 Ht Hl. cbn in *.
  destruct (tasks s !! tid) as [t|] eqn:E; [|apply R; assumption].
  destruct (H t eq_refl) as [Hm Hlive].
  destruct (decide (tid = tid0)) as [<-|Hne].
  - rewrite list_lookup_insert_eq in Ht by (eapply lookup_lt_Some; eassumption).
    injection Ht as <-. rewrite Hm. apply R; auto.
  - rewrite list_lookup_insert_ne in Ht by exact Hne. apply R; assumption.
Qed.

Lemma set_pc_registered tid k s :
  registered s ->
  (forall t, tasks s !! tid = Some t -> pc_done k = false -> live t) ->
  registered (set_pc tid k s).
Proof.
  intros R H. unfold set_pc.
  destruct (tasks s !! tid) as [t|] eqn:E.
  - replace (set_tasks _ s) with
      (set_tasks (fun ts => match ts !! tid with
                            | Some _ => <[tid := Task (t_market t) k (t_must_cancel t)]> ts
                            | None => ts
                            end) s)
      by (unfold set_tasks; cbn beta; rewrite E; reflexivity).
    apply update_task_registered; [exact R|].
    intros t1 Ht1. rewrite E in Ht1. injection Ht1 as <-.
    split; [reflexivity|]. apply H. reflexivity.
  - replace (set_tasks _ s) with s; [exact R|].
    unfold set_tasks; cbn beta; rewrite E; destruct s; reflexivity.
Qed.

Lemma registered_ext s1 s2 :
  tasks s1 = tasks s2 -> _connection_tasks s1 = _connection_tasks s2 ->
  registered s2 -> registered s1.
Proof. unfold registered. intros -> ->. auto. Qed.

Lemma resume_registered tid i s s' :
  resume tid i s = Some s' -> registered s -> registered s'.
Proof.
  unfold resume. intros H R.
  destruct (tasks s !! tid) as [t|] eqn:Et; [|discriminate].
  destruct (pc_done (t_pc t)) eqn:Ed; [discriminate|].
  assert (Hpc : forall k s0, tasks s0 = tasks s -> _connection_tasks s0 = _connection_tasks s ->
                             registered (set_pc tid k s0)).
  { intros k s0 E1 E2. apply set_pc_registered.
    - eapply registered_ext; eassumption.
    - intros t1 Ht1 _. rewrite E1, Et in Ht1. injection Ht1 as <-. exact Ed. }
  assert (Hfin : forall s0, tasks s0 = tasks s -> _connection_tasks s0 = _connection_tasks s ->
                            registered (finish tid (t_market t) s0)).
  { intros s0 E1 E2. unfold finish. apply Hpc; cbn; assumption. }
  destruct (t_must_cancel t).
  { injection H as <-. destruct (socket_of (t_pc t)); apply Hpc; reflexivity. }
  destruct (t_pc t) as [| |c|c|c| |], i as [| | |[snap clk| | |]]; try discriminate.
  - injection H as <-. unfold outer_head. destruct (wanted _ _); [apply Hpc|apply Hfin]; reflexivity.
  - injection H as <-. unfold inner_head. destruct (wanted _ _); apply Hpc; reflexivity.
  - injection H as <-. unfold loop_tail. destruct (wanted _ _); [apply Hpc|apply Hfin]; reflexivity.
  - destruct (on_snapshot (t_market t) snap clk s) as [s1|] eqn:E; injection H as <-.
    + assert (tasks s1 = tasks s /\ _connection_tasks s1 = _connection_tasks s) as [E1 E2].
      { unfold on_snapshot in E.
        repeat match type of E with
               | context [match ?x with _ => _ end] => destruct x; try discriminate
               end; injection E as <-; split; reflexivity. }
      unfold inner_head. destruct (wanted _ _); apply Hpc; assumption.
    + apply Hpc; reflexivity.
  - injection H as <-. unfold inner_head. destruct (wanted _ _); apply Hpc; reflexivity.
  - injection H as <-. apply Hpc; reflexivity.
  - injection H as <-. apply Hpc; reflexivity.
  - injection H as <-. apply Hpc; reflexivity.
  - injection H as <-. unfold loop_tail. destruct (wanted _ _); [apply Hpc|apply Hfin]; reflexivity.
  - injection H as <-. unfold outer_head. destruct (wanted _ _); [apply Hpc|apply Hfin]; reflexivity.
Qed.

Lemma stop_request_registered raw s : registered s -> registered (stop_request raw s).
Proof.
  intros R. unfold stop_request.
  set (s1 := set_active (insert (PyStr.upper raw) false) s).
  assert (R1 : registered s1) by exact R.
  destruct (live_task raw s1) as [tid|]; [|exact R1].
  unfold cancel. destruct (tasks s1 !! tid) as [t|] eqn:E.
  - replace (set_tasks _ s1) with
      (set_tasks (fun ts => match ts !! tid with
                            | Some _ => <[tid := Task (t_market t) (t_pc t) true]> ts
                            | None => ts
                            end) s1)
      by (unfold set_tasks; cbn beta; rewrite E; reflexivity).
    apply update_task_registered; [exact R1|].
    intros t1 Ht1. rewrite E in Ht1. injection Ht1 as <-.
    split; [reflexivity|auto].
  - replace (set_tasks _ s1) with s1; [exact R1|].
    unfold set_tasks; cbn beta; rewrite E; destruct s1; reflexivity.
Qed.

Lemma step_registered e s s' :
  is_forget e = false -> step e s = Some s' -> registered s -> registered s'.
Proof.
  intros Hf Hstep R. destruct e; cbn in Hstep, Hf; try discriminate.
  - injection Hstep as <-. apply start_streams_registered, R.
  - injection Hstep as <-. apply stop_request_registered, R.
  - injection Hstep as <-. exact R.
  - injection Hstep as <-. exact R.
  - eapply resume_registered; eassumption.
Qed.

Lemma run_registered evs : forall s s',
  Forall (fun e => is_forget e = false) evs -> run evs s = Some s' ->
  registered s -> registered s'.
Proof.
  induction evs as [|e r IH]; intros s s' Hf Hrun R; cbn in Hrun.
  - injection Hrun as <-. exact R.
  - apply Forall_cons in Hf. destruct Hf as [Hf1 Hf2].
    destruct (step e s) as [s1|] eqn:E; [|discriminate].
    eapply IH; [exact Hf2|exact Hrun|]. eapply step_registered; eassumption.
Qed.










(* ---------- C10, provider side ---------- *)

Lemma start_one_upper s raw : start_one s (PyStr.upper raw) = start_one s raw.
Proof. unfold start_one. rewrite upper_idem. reflexivity. Qed.

Lemma start_streams_upper ms s : start_streams (map PyStr.upper ms) s = start_streams ms s.
Proof.
  unfold start_streams. generalize (set_running true s) as s0.
  induction ms as [|x r IH]; intros s0; cbn; [reflexivity|].
  rewrite start_one_upper. apply IH.
Qed.

Lemma live_task_upper raw s : live_task (PyStr.upper raw) s = live_task raw s.
Proof. unfold live_task. rewrite upper_idem. reflexivity. Qed.

Lemma stop_request_upper raw s : stop_request (PyStr.upper raw) s = stop_request raw s.
Proof. unfold stop_request. rewrite live_task_upper, upper_idem. reflexivity. Qed.

Lemma open_conn_upper raw s : open_conn (PyStr.upper raw) s = open_conn raw s.
Proof. unfold open_conn. rewrite upper_idem. reflexivity. Qed.

Lemma stop_clear_upper raw s : stop_clear (PyStr.upper raw) s = stop_clear raw s.
Proof. unfold stop_clear. rewrite upper_idem. reflexivity. Qed.

Lemma stop_each_upper ms : forall env stopped s,
  stop_each (map PyStr.upper ms) env stopped s = stop_each ms env stopped s.
Proof.
  induction ms as [|x r IH]; intros env stopped s; cbn [map stop_each]; [reflexivity|].
  rewrite live_task_upper, stop_request_upper, open_conn_upper.
  destruct (open_conn x _) as [c|].
  - destruct env as [|evs env']; [reflexivity|].
    destruct (run evs _) as [s2|]; [|reflexivity].
    rewrite stop_clear_upper. apply IH.
  - rewrite stop_clear_upper. apply IH.
Qed.

Lemma stop_forget_upper ms stopped s :
  stop_forget (map PyStr.upper ms) stopped s = stop_forget ms stopped s.
Proof.
  unfold stop_forget. rewrite <- fmap_take.
  generalize (take (length stopped) ms) as l. intros l. revert s.
  induction l as [|x r IH]; intros s; cbn; [reflexivity|].
  rewrite upper_idem. apply IH.
Qed.

Lemma stop_specific_streams_upper env ms s :
  stop_specific_streams env (map PyStr.upper ms) s = stop_specific_streams env ms s.
Proof.
  unfold stop_specific_streams. rewrite stop_each_upper.
  destruct (stop_each ms env [] s) as [[[s1 stopped] env1]|]; [|reflexivity].
  destruct stopped as [|t0 st0]; [reflexivity|].
  destruct env1 as [|evs env2]; [reflexivity|].
  destruct (run evs s1) as [s2|]; [|reflexivity].
  cbn [step]. rewrite stop_forget_upper. reflexivity.
Qed.

Lemma get_best_bid_ask_upper s raw :
  get_best_bid_ask s (PyStr.upper raw) = get_best_bid_ask s raw.
Proof. unfold get_best_bid_ask. rewrite upper_idem. reflexivity. Qed.

(** The entries under any other key are left alone. *)
Lemma start_one_other s raw k :
  k <> PyStr.upper raw ->
  _active_market_listeners (start_one s raw) !! k = _active_market_listeners s !! k /\
  _connection_tasks (start_one s raw) !! k = _connection_tasks s !! k.
Proof.
  intros Hne. rewrite start_one_active. destruct (decide _); [congruence|]. split; [reflexivity|].
  unfold start_one, create_task. cbn.
  destruct (_connection_tasks s !! PyStr.upper raw) as [tid|];
    [destruct (task_done _ tid)|]; cbn; rewrite ?lookup_insert_ne by congruence; reflexivity.
Qed.

Lemma stop_other raw s k :
  k <> PyStr.upper raw ->
  _active_market_listeners (stop_request raw s) !! k = _active_market_listeners s !! k /\
  _latest_market_data (stop_clear raw s) !! k = _latest_market_data s !! k /\
  _market_connections (stop_clear raw s) !! k = _market_connections s !! k.
Proof.
  intros Hne. rewrite stop_request_active. destruct (decide _); [congruence|].
  split; [reflexivity|]. unfold stop_clear. cbn.
  rewrite !lookup_delete_ne by congruence. split; reflexivity.
Qed.

(* ---------- C6 ---------- *)

Lemma finish_clears tid mk s :
  _latest_market_data (finish tid mk s) !! mk = None /\
  _market_connections (finish tid mk s) !! mk = None.
Proof. unfold finish. cbn. rewrite !lookup_delete_eq. auto. Qed.

Lemma task_done_set_pc tid k s t :
  tasks s !! tid = Some t -> task_done (set_pc tid k s) tid = pc_done k.
Proof.
  intros H. unfold task_done, set_pc. cbn. rewrite H.
  rewrite list_lookup_insert_eq by (eapply lookup_lt_Some; eassumption). reflexivity.
Qed.

(** A listener that was not cancelled and ends, ends through lines 83-88. *)
Lemma resume_own_cleanup tid t i s s' :
  tasks s !! tid = Some t -> t_must_cancel t = false ->
  resume tid i s = Some s' -> task_done s' tid = true ->
  _latest_market_data s' !! t_market t = None /\
  _market_connections s' !! t_market t = None.
Proof.
  intros Ht Hc H Hd. unfold resume in H. rewrite Ht, Hc in H.
  destruct (pc_done (t_pc t)); [discriminate|].
  assert (Hpc : forall k s0, tasks s0 = tasks s -> pc_done k = false ->
                 task_done (set_pc tid k s0) tid = true -> False).
  { intros k s0 E Hk D. rewrite (task_done_set_pc tid k s0 t) in D by (rewrite E; exact Ht).
    congruence. }
  assert (Ho : forall s0, tasks s0 = tasks s ->
            task_done (outer_head tid (t_market t) s0) tid = true ->
            _latest_market_data (outer_head tid (t_market t) s0) !! t_market t = None /\
            _market_connections (outer_head tid (t_market t) s0) !! t_market t = None).
  { intros s0 E. unfold outer_head. destruct (wanted _ _).
    - intros D. exfalso. eapply Hpc; [exact E| |exact D]. reflexivity.
    - intros _. apply finish_clears. }
  assert (Hl : forall s0, tasks s0 = tasks s ->
            task_done (loop_tail tid (t_market t) s0) tid = true ->
            _latest_market_data (loop_tail tid (t_market t) s0) !! t_market t = None /\
            _market_connections (loop_tail tid (t_market t) s0) !! t_market t = None).
  { intros s0 E. unfold loop_tail. destruct (wanted _ _).
    - intros D. exfalso. eapply Hpc; [exact E| |exact D]. reflexivity.
    - intros _. apply finish_clears. }
  assert (Hi : forall c s0, tasks s0 = tasks s ->
            task_done (inner_head tid (t_market t) c s0) tid = true -> False).
  { intros c s0 E. unfold inner_head. destruct (wanted _ _); intros D;
      (eapply Hpc; [exact E| |exact D]; reflexivity). }
  destruct (t_pc t) as [| |c|c|c| |], i as [| | |[snap clk| | |]]; try discriminate.
  - injection H as <-. apply Ho; [reflexivity|exact Hd].
  - injection H as <-. exfalso. eapply Hi; [|exact Hd]. reflexivity.
  - injection H as <-. apply Hl; [reflexivity|exact Hd].
  - destruct (on_snapshot (t_market t) snap clk s) as [s1|] eqn:E; injection H as <-.
    + exfalso. eapply Hi; [|exact Hd].
      unfold on_snapshot in E.
      repeat match type of E with
             | context [match ?x with _ => _ end] => destruct x; try discriminate
             end; injection E as <-; reflexivity.
    + exfalso. eapply Hpc; [| |exact Hd]; reflexivity.
  - injection H as <-. exfalso. eapply Hi; [|exact Hd]. reflexivity.
  - injection H as <-. exfalso. eapply Hpc; [| |exact Hd]; reflexivity.
  - injection H as <-. exfalso. eapply Hpc; [| |exact Hd]; reflexivity.
  - injection H as <-. exfalso. eapply Hpc; [| |exact Hd]; reflexivity.
  - injection H as <-. apply Hl; [reflexivity|exact Hd].
  - injection H as <-. apply Ho; [reflexivity|exact Hd].
Qed.

(** A cancelled listener ends at once and leaves the stores as they are. *)
Lemma resume_cancelled tid t i s s' :
  tasks s !! tid = Some t -> t_must_cancel t = true ->
  resume tid i s = Some s' ->
  task_done s' tid = true /\
  _latest_market_data s' = _latest_market_data s /\
  _market_connections s' = _market_connections s /\
  _connection_tasks s' = _connection_tasks s.
Proof.
  intros Ht Hc H. unfold resume in H. rewrite Ht, Hc in H.
  destruct (pc_done (t_pc t)); [discriminate|]. injection H as <-.
  split.
  - destruct (socket_of (t_pc t)); apply (task_done_set_pc tid Done _ t); exact Ht.
  - destruct (socket_of (t_pc t)); cbn; auto.
Qed.

(** Only the end of a stop takes entries out of [_connection_tasks], and
    it runs when the tasks it waited for are done. *)
Lemma registry_deleted_by_forget e s s' mk :
  step e s = Some s' ->
  is_Some (_connection_tasks s !! mk) -> _connection_tasks s' !! mk = None ->
  exists ms stopped, e = EStopForget ms stopped /\
    Forall (fun tid => task_done s tid = true) stopped.
Proof.
  intros Hstep [tid0 Hs] Hn. destruct e; cbn in Hstep.
  - exfalso. injection Hstep as <-. revert Hn. unfold start_streams.
    assert (G : forall l s0, is_Some (_connection_tasks s0 !! mk) ->
                             is_Some (_connection_tasks (fold_left start_one l s0) !! mk)).
    { induction l as [|x r IH]; intros s0 H0; cbn; [exact H0|]. apply IH.
      unfold start_one, create_task. cbn.
      destruct (_connection_tasks s0 !! PyStr.upper x) as [tid|];
        [destruct (task_done _ tid)|]; cbn; try exact H0;
        (destruct (decide (PyStr.upper x = mk)) as [->|Hne];
         [rewrite lookup_insert_eq; eauto|rewrite lookup_insert_ne by exact Hne; exact H0]). }
    intros Hn. destruct (G markets (set_running true s)) as [x Hx]; [cbn; eauto|]. congruence.
  - exfalso. injection Hstep as <-. unfold stop_request in Hn.
    destruct (live_task _ _); cbn in Hn; congruence.
  - exfalso. injection Hstep as <-. cbn in Hn. congruence.
  - exfalso. injection Hstep as <-. cbn in Hn. congruence.
  - destruct (forallb (task_done s) stopped) eqn:E; [|discriminate].
    exists markets_to_stop, stopped. split; [reflexivity|].
    apply List.Forall_forall. exact (proj1 (List.forallb_forall _ _) E).
  - exfalso.
    assert (G : _connection_tasks s' = _connection_tasks s).
    { unfold resume in Hstep.
      destruct (tasks s !! tid) as [t|]; [|discriminate].
      destruct (pc_done (t_pc t)); [discriminate|].
      destruct (t_must_cancel t).
      { injection Hstep as <-. destruct (socket_of (t_pc t)); reflexivity. }
      destruct (t_pc t) as [| |c|c|c| |], i as [| | |[snap clk| | |]]; try discriminate;
        try (injection Hstep as <-;
             unfold outer_head, loop_tail, inner_head, finish;
             repeat match goal with |- context [wanted ?a ?b] => destruct (wanted a b) end;
             reflexivity).
      destruct (on_snapshot (t_market t) snap clk s) as [s1|] eqn:E; injection Hstep as <-.
      - unfold on_snapshot in E.
        repeat match type of E with
               | context [match ?x with _ => _ end] => destruct x; try discriminate
               end; injection E as <-;
          unfold inner_head; destruct (wanted _ _); reflexivity.
      - reflexivity. }
    congruence.
Qed.

(** C6, as amended.  The caller of [stop_specific_streams] deletes the
    cached quote and the connection entry of the market itself, under the
    lock, after it has lowered the flag and asked for the cancellation and
    before it waits for the task: when it comes to wait, the quotes of all
    markets of the call are gone.  Entries leave the task registry only at
    the end of a stop, when the tasks waited for are done.  A listener that
    ends on its own has deleted its quote and its connection entry in its
    last step; a cancelled listener ends without touching the stores. *)
Theorem C6_who_deletes_what :
  (* the caller of stop drops the quote and the connection entry itself,
     whatever the task is doing, and touches neither tasks nor registry *)
  (forall raw s,
     _latest_market_data (stop_clear raw s) !! PyStr.upper raw = None /\
     _market_connections (stop_clear raw s) !! PyStr.upper raw = None /\
     tasks (stop_clear raw s) = tasks s /\
     _connection_tasks (stop_clear raw s) = _connection_tasks s) /\
  (* by the time the caller waits for the tasks, the quotes are gone *)
  (forall ms env s s1 stopped env1 raw,
     stop_each ms env [] s = Some (s1, stopped, env1) ->
     In raw ms -> Forall (quiet (PyStr.upper raw)) env ->
     get_best_bid_ask s1 raw = None) /\
  (* entries leave the task registry only at the end of a stop, once the
     tasks it waited for are done *)
  (forall e s s' mk,
     step e s = Some s' ->
     is_Some (_connection_tasks s !! mk) -> _connection_tasks s' !! mk = None ->
     exists ms stopped, e = EStopForget ms stopped /\
       Forall (fun tid => task_done s tid = true) stopped) /\
  (* a listener that ends on its own has dropped its entries *)
  (forall tid t i s s',
     tasks s !! tid = Some t -> t_must_cancel t = false ->
     resume tid i s = Some s' -> task_done s' tid = true ->
     _latest_market_data s' !! t_market t = None /\
     _market_connections s' !! t_market t = None) /\
  (* a cancelled listener ends without touching the stores *)
  (forall tid t i s s',
     tasks s !! tid = Some t -> t_must_cancel t = true ->
     resume tid i s = Some s' ->
     task_done s' tid = true /\
     _latest_market_data s' = _latest_market_data s /\
     _market_connections s' = _market_connections s /\
     _connection_tasks s' = _connection_tasks s).
Proof.
  split; [|split; [|split; [|split]]].
  - intros raw s. unfold stop_clear. cbn. rewrite !lookup_delete_eq. auto.
  - intros ms env s s1 stopped env1 raw Hs Hin Hq.
    destruct (stop_each_parked _ _ _ _ _ _ _ (PyStr.upper raw) Hs Hq) as [[_ P] _];
      [right; apply list_elem_of_In, in_map, Hin|exact P].
  - exact registry_deleted_by_forget.
  - exact resume_own_cleanup.
  - exact resume_cancelled.
Qed.

End ProviderFacts.

(* ===================================================================== *)
(** ** Facts about the strategy                                           *)
(* ===================================================================== *)

Section StrategyFacts.
Import BestOrder.

Section Strategy.
Variable place_order : order -> placement.

Lemma execute_unfold now api mu prov market side amount :
  execute place_order now api mu prov market side amount =
  match body place_order (MarketUtils.get_market_object now api mu market).1.1
             prov market side amount with
  | (Return v, ef) =>
      Outcome v ef (MarketUtils.get_market_object now api mu market).1.2
              (MarketUtils.get_market_object now api mu market).2
  | (Raised e, ef) =>
      Outcome None (Effects (log ef ++ [handler market e ef]) (sent ef))
              (MarketUtils.get_market_object now api mu market).1.2
              (MarketUtils.get_market_object now api mu market).2
  end.
Proof.
  unfold execute. destruct (MarketUtils.get_market_object now api mu market) as [[mc mu'] n].
  reflexivity.
Qed.

Lemma body_config now api mu prov market side amount tc :
  config_of now api mu market = Some tc ->
  body place_order (MarketUtils.get_market_object now api mu market).1.1
       prov market side amount =
  match Provider.get_best_bid_ask prov market with
  | None => (Return None, Effects [RealtimeDataNotAvailable market] [])
  | Some qt => with_price place_order tc market side amount qt
  end.
Proof.
  unfold config_of, body. destruct (_.1.1) as [mc|]; cbn; [|discriminate].
  intros ->. reflexivity.
Qed.

Lemma body_no_config now api mu prov market side amount :
  config_of now api mu market = None ->
  body place_order (MarketUtils.get_market_object now api mu market).1.1
       prov market side amount = (Return None, Effects [ConfigNotFound market] []).
Proof.
  unfold config_of, body. destruct (_.1.1) as [mc|]; cbn; [|reflexivity].
  intros ->. reflexivity.
Qed.

(** The handler always writes an error record, of one of three kinds. *)
Lemma handler_kind market e ef :
  is_error (handler market e ef) = true /\
  (failure_of (handler market e ef) = Some InsufficientBalance \/
   failure_of (handler market e ef) = Some PrecisionError \/
   failure_of (handler market e ef) = Some UnclassifiedExecutionFailure).
Proof.
  unfold handler. destruct (PyStr.contains _ _); [cbn; auto|].
  destruct (PyStr.contains _ _); cbn; auto.
Qed.

Lemma handler_decimal market e ef :
  handler market (DecimalException e) ef = UnexpectedError (str_exn (DecimalException e)).
Proof. destruct e; vm_compute; reflexivity. Qed.

(** How [place] ends, case by case. *)
Lemma place_cases tc market side amount price lg :
  match sizes tc amount price with
  | Decimal.Raise e =>
      place place_order tc market side amount price lg
      = (Raised (DecimalException e), Effects lg [])
  | Decimal.Ok (mn, qty) =>
      if Decimal.ltb qty mn then
        place place_order tc market side amount price lg
        = (Return None, Effects (lg ++ [QuantityBelowMinimum qty mn market]) [])
      else
        let o := Order market qty price (side_of side) true in
        match place_order o with
        | Accepted id =>
            place place_order tc market side amount price lg
            = (Return (Some id), Effects (lg ++ [PlacingOrder o; OrderPlaced id]) [o])
        | Rejected msg =>
            place place_order tc market side amount price lg
            = (Raised (ClientException msg), Effects (lg ++ [PlacingOrder o]) [o])
        end
  end.
Proof.
  unfold place, side_of. destruct (sizes tc amount price) as [[mn qty]|e]; [|reflexivity].
  destruct (Decimal.ltb qty mn); [reflexivity|].
  cbn zeta. destruct (place_order _); reflexivity.
Qed.

(** The price with which [place] is entered is the reference price. *)
Lemma with_price_cases tc market side amount qt :
  match reference_price side qt with
  | Some price =>
      with_price place_order tc market side amount qt
      = place place_order tc market side amount price
              [if is_buy side then UsingBid price market side else UsingAsk price market side]
  | None =>
      sent (with_price place_order tc market side amount qt).2 = [] /\
      (forall v, (with_price place_order tc market side amount qt).1 = Return v -> v = None)
  end.
Proof.
  unfold reference_price, with_price, book_price.
  destruct (is_buy side).
  - destruct (PyVal.truthy _); [|cbn; split; [reflexivity|intros v [= <-]; reflexivity]].
    destruct (PyVal.to_decimal _); [reflexivity|]. cbn. split; [reflexivity|intros v H; discriminate].
  - destruct (is_sell side); [|cbn; split; [reflexivity|intros v [= <-]; reflexivity]].
    destruct (PyVal.truthy _); [|cbn; split; [reflexivity|intros v [= <-]; reflexivity]].
    destruct (PyVal.to_decimal _); [reflexivity|]. cbn. split; [reflexivity|intros v H; discriminate].
Qed.
End Strategy.

Section Claims.
Variable place_order : order -> placement.

Lemma using_not_error market side price :
  is_error (if is_buy side then UsingBid price market side else UsingAsk price market side) = false.
Proof. destruct (is_buy side); reflexivity. Qed.

(** C4.  When the quantity that [execute] computes (the quotient quantized
  to the size step) is strictly below the minimum order size of the
  market, the call returns no order id, sends no order and reports
  BelowMinimumSize with that very quantity: nothing is rounded up. *)
Theorem C4_below_minimum_rejected now api mu prov market side amount tc qt price mn qty :
  config_of now api mu market = Some tc ->
  Provider.get_best_bid_ask prov market = Some qt ->
  reference_price side qt = Some price ->
  sizes tc amount price = Decimal.Ok (mn, qty) ->
  (Decimal.to_Q qty < Decimal.to_Q mn)%Q ->
  let r := execute place_order now api mu prov market side amount in
  returned r = None /\
  sent (eff r) = [] /\
  errors r = [QuantityBelowMinimum qty mn market] /\
  failure_kind r = Some BelowMinimumSize.
Proof.
  intros Hc Hq Hp Hs Hlt. cbn zeta.
  rewrite execute_unfold, (body_config _ _ _ _ _ _ _ _ tc Hc), Hq.
  pose proof (with_price_cases place_order tc market side amount qt) as W.
  rewrite Hp in W. rewrite W.
  pose proof (place_cases place_order tc market side amount price
                [if is_buy side then UsingBid price market side else UsingAsk price market side]) as P.
  rewrite Hs in P. apply ltb_spec in Hlt. rewrite Hlt in P. rewrite P.
  unfold errors, failure_kind. cbn [returned eff sent log].
  destruct (is_buy side); cbn; auto.
Qed.

(** C3, as amended.  A run of [execute] on a market without a cached quote
  returns no order id and sends no order, whatever the side, the amount
  and the age of the metadata.  It reports QuoteUnavailable when the
  metadata lookup (served from the cache or after a bulk refresh) ends
  with a trading configuration, and ConfigurationUnavailable when it ends
  with none. *)
Theorem C3_no_quote_no_order now api mu prov market side amount :
  Provider.get_best_bid_ask prov market = None ->
  let r := execute place_order now api mu prov market side amount in
  returned r = None /\
  sent (eff r) = [] /\
  match config_of now api mu market with
  | Some _ =>
      errors r = [RealtimeDataNotAvailable market] /\
      failure_kind r = Some QuoteUnavailable
  | None =>
      errors r = [ConfigNotFound market] /\
      failure_kind r = Some ConfigurationUnavailable
  end.
Proof.
  intros Hq. cbn zeta. rewrite execute_unfold.
  destruct (config_of now api mu market) as [tc|] eqn:Hc.
  - rewrite (body_config _ _ _ _ _ _ _ _ tc Hc), Hq. cbn. auto.
  - rewrite (body_no_config _ _ _ _ _ _ _ _ Hc). cbn. auto.
Qed.
End Claims.

Lemma sizes_inv tc amount price mn qty :
  sizes tc amount price = Decimal.Ok (mn, qty) ->
  exists step ratio,
    PyVal.to_decimal (MarketUtils.min_order_size tc) = Decimal.Ok mn /\
    PyVal.to_decimal (MarketUtils.min_order_size_change tc) = Decimal.Ok step /\
    Decimal.div amount price = Decimal.Ok ratio /\
    Decimal.quantize ratio step = Decimal.Ok qty.
Proof.
  unfold sizes. intros H.
  destruct (PyVal.to_decimal (MarketUtils.min_order_size tc)) as [mn'|]; [|discriminate].
  destruct (PyVal.to_decimal (MarketUtils.min_order_size_change tc)) as [step|]; [|discriminate].
  destruct (Decimal.div amount price) as [ratio|]; [|discriminate].
  destruct (Decimal.quantize ratio step) as [qty'|] eqn:E; [|discriminate].
  injection H as -> ->. exists step, ratio. auto.
Qed.

Lemma reference_price_side side qt price :
  reference_price side qt = Some price ->
  (is_buy side = true /\ book_price (Provider.bid_price qt) = Some price) \/
  (is_buy side = false /\ is_sell side = true /\ book_price (Provider.ask_price qt) = Some price).
Proof.
  unfold reference_price. destruct (is_buy side); [auto|].
  destruct (is_sell side); [auto|discriminate].
Qed.

Section Orders.
Variable place_order : order -> placement.

(** The orders that a run with metadata and quote sends. *)
Lemma sent_cases now api mu prov market side amount tc qt :
  config_of now api mu market = Some tc ->
  Provider.get_best_bid_ask prov market = Some qt ->
  let r := execute place_order now api mu prov market side amount in
  match reference_price side qt with
  | Some price =>
      match sizes tc amount price with
      | Decimal.Ok (mn, qty) =>
          if Decimal.ltb qty mn then sent (eff r) = []
          else sent (eff r) = [Order market qty price (side_of side) true]
      | Decimal.Raise _ => sent (eff r) = []
      end
  | None => sent (eff r) = []
  end.
Proof.
  intros Hc Hq. cbn zeta.
  rewrite execute_unfold, (body_config _ _ _ _ _ _ _ _ tc Hc), Hq.
  pose proof (with_price_cases place_order tc market side amount qt) as W.
  destruct (reference_price side qt) as [price|].
  - rewrite W.
    pose proof (place_cases place_order tc market side amount price
                  [if is_buy side then UsingBid price market side else UsingAsk price market side]) as P.
    destruct (sizes tc amount price) as [[mn qty]|e]; [|rewrite P; reflexivity].
    destruct (Decimal.ltb qty mn); [rewrite P; reflexivity|].
    cbn zeta in P. destruct (place_order _); rewrite P; reflexivity.
  - destruct W as [W _].
    destruct (with_price place_order tc market side amount qt) as [[v|e] ef]; exact W.
Qed.

(** Every run ends with an order id and no error record, or with [None]
    and exactly one error record, the last of the log. *)
Lemma outcome_cases now api mu prov market side amount :
  let r := execute place_order now api mu prov market side amount in
  match returned r with
  | Some id =>
      errors r = [] /\ failure_kind r = None /\
      exists o, sent (eff r) = [o] /\ place_order o = Accepted id
  | None =>
      exists msg k,
        errors r = [msg] /\ last (log (eff r)) = Some msg /\
        failure_of msg = Some k /\ failure_kind r = Some k
  end.
Proof.
  cbn zeta. rewrite execute_unfold.
  set (mc := (MarketUtils.get_market_object now api mu market).1.1).
  unfold body.
  destruct mc as [mc|]; [|cbn; eauto 10].
  destruct (MarketUtils.trading_config mc) as [tc|]; [|cbn; eauto 10].
  destruct (Provider.get_best_bid_ask prov market) as [qt|]; [|cbn; eauto 10].
  assert (Hplace : forall price lg,
    lg = [UsingBid price market side] \/ lg = [UsingAsk price market side] ->
    let r := match place place_order tc market side amount price lg with
             | (Return v, ef) => Outcome v ef (MarketUtils.get_market_object now api mu market).1.2
                                         (MarketUtils.get_market_object now api mu market).2
             | (Raised e, ef) => Outcome None (Effects (log ef ++ [handler market e ef]) (sent ef))
                                         (MarketUtils.get_market_object now api mu market).1.2
                                         (MarketUtils.get_market_object now api mu market).2
             end in
    match returned r with
    | Some id =>
        errors r = [] /\ failure_kind r = None /\
        exists o, sent (eff r) = [o] /\ place_order o = Accepted id
    | None =>
        exists msg k,
          errors r = [msg] /\ last (log (eff r)) = Some msg /\
          failure_of msg = Some k /\ failure_kind r = Some k
    end).
  { intros price lg Hlg. cbn zeta.
    pose proof (place_cases place_order tc market side amount price lg) as P.
    destruct (sizes tc amount price) as [[mn qty]|e].
    - destruct (Decimal.ltb qty mn).
      + rewrite P. destruct Hlg as [-> | ->]; cbn; eauto 10.
      + cbn zeta in P. destruct (place_order _) as [id|msg] eqn:Epl; rewrite P.
        * destruct Hlg as [-> | ->]; cbn; eauto 10.
        * pose proof (handler_kind market (ClientException msg)
                        (Effects (lg ++ [PlacingOrder (Order market qty price (side_of side) true)])
                                 [Order market qty price (side_of side) true])) as [He Hk].
          set (h := handler _ _ _) in *.
          assert (Hf : exists k, failure_of h = Some k) by (destruct Hk as [->|[->| ->]]; eauto).
          destruct Hf as [k Hf]. exists h, k.
          unfold errors, failure_kind. cbn [returned eff log sent].
          destruct Hlg as [-> | ->]; cbn; rewrite He; cbn; auto.
    - rewrite P. rewrite handler_decimal.
      exists (UnexpectedError (str_exn (DecimalException e))), UnclassifiedExecutionFailure.
      destruct Hlg as [-> | ->]; cbn; auto. }
  unfold with_price.
  destruct (is_buy side).
  - destruct (PyVal.truthy _); [|cbn; eauto 10].
    destruct (PyVal.to_decimal _) as [price|e]; [apply Hplace; auto|].
    rewrite handler_decimal. cbn. eauto 10.
  - destruct (is_sell side); [|cbn; eauto 10].
    destruct (PyVal.truthy _); [|cbn; eauto 10].
    destruct (PyVal.to_decimal _) as [price|e]; [apply Hplace; auto|].
    rewrite handler_decimal. cbn. eauto 10.
Qed.

Lemma invalid_side now api mu prov market side amount tc qt :
  config_of now api mu market = Some tc ->
  Provider.get_best_bid_ask prov market = Some qt ->
  is_buy side = false -> is_sell side = false ->
  let r := execute place_order now api mu prov market side amount in
  returned r = None /\ sent (eff r) = [] /\
  errors r = [InvalidSideMsg side market] /\ failure_kind r = Some InvalidSide.
Proof.
  intros Hc Hq Hb Hs. cbn zeta.
  rewrite execute_unfold, (body_config _ _ _ _ _ _ _ _ tc Hc), Hq.
  unfold with_price. rewrite Hb, Hs. cbn. auto.
Qed.
End Orders.

(* ---------- the filter of the logger ---------- *)

Lemma error_text_some msg : is_error msg = true -> exists text, error_text msg = Some text.
Proof. destruct msg; cbn; intros H; try discriminate; eauto. Qed.

Lemma filter_drops text :
  APIMessageFilter.filter text = false <->
  PyStr.contains "Error response from POST" text = true /\
  PyStr.contains "api.extended.exchange" text = true.
Proof.
  unfold APIMessageFilter.filter. rewrite negb_false_iff, andb_true_iff. reflexivity.
Qed.

(** Of a single error record, the log gets what the filter lets through. *)
Lemma logged_single r msg :
  errors r = [msg] -> logged_errors r = if passes msg then [msg] else [].
Proof.
  unfold logged_errors. intros ->. rewrite filter_cons, filter_nil.
  destruct (passes msg); reflexivity.
Qed.

End StrategyFacts.

(* ===================================================================== *)
(** ** The claims of the specification                                    *)
(* ===================================================================== *)

(** *** The strategy: C1, C3, C4, C8 *)

(** C1, as amended.  In a run of [execute] that finds metadata with the two
    sizes and a cached quote, every order sent is the only one, is
    post-only, and is priced at the reference price: the cached best bid
    for a buy alias, the cached best ask for a sell alias.  Its quantity
    comes from the quotient of the notional by that price rounded to 28
    significant digits, ties to even; when the size step is written with
    the one digit 1 (its decimal has the coefficient 1: 1, 0.1, 0.01, ...,
    not 10 and not 1.0) the quantity is the multiple of the step nearest to
    that rounded quotient, ties to even.  The order is sent whenever the
    quantity is not below the minimum.  With the quote 100 / 101 and step
    0.01, a buy of 1000 is 10.00 at 100 and a sell of 1000 is 9.90 at
    101. *)
Theorem C1_order_at_best_price :
  (forall place_order now api mu prov market side amount tc qt,
     config_of now api mu market = Some tc ->
     Provider.get_best_bid_ask prov market = Some qt ->
     let r := BestOrder.execute place_order now api mu prov market side amount in
     (forall o, In o (BestOrder.sent (BestOrder.eff r)) ->
        BestOrder.sent (BestOrder.eff r) = [o] /\
        BestOrder.market_name o = market /\
        BestOrder.post_only o = true /\
        BestOrder.side o = side_of side /\
        reference_price side qt = Some (BestOrder.price o) /\
        exists step mn ratio,
          PyVal.to_decimal (MarketUtils.min_order_size_change tc) = Decimal.Ok step /\
          PyVal.to_decimal (MarketUtils.min_order_size tc) = Decimal.Ok mn /\
          rounded_to_prec (Decimal.to_Q amount / Decimal.to_Q (BestOrder.price o)) ratio /\
          (Decimal.coeff step = 1%N ->
           nearest_multiple (Decimal.to_Q ratio) step (BestOrder.amount_of_synthetic o)) /\
          ~ (Decimal.to_Q (BestOrder.amount_of_synthetic o) < Decimal.to_Q mn)%Q) /\
     (forall price mn qty,
        reference_price side qt = Some price ->
        BestOrder.sizes tc amount price = Decimal.Ok (mn, qty) ->
        ~ (Decimal.to_Q qty < Decimal.to_Q mn)%Q ->
        BestOrder.sent (BestOrder.eff r)
        = [BestOrder.Order market qty price (side_of side) true])) /\
  BestOrder.sent (BestOrder.eff
    (BestOrder.execute Sample.accept Sample.soon Sample.venue Sample.cached Sample.streaming
       "BTC-USD" "buy" (Sample.dec 1000 0)))
  = [BestOrder.Order "BTC-USD" (Sample.dec 1000 (-2)) (Sample.dec 100 0) BestOrder.BUY true] /\
  BestOrder.sent (BestOrder.eff
    (BestOrder.execute Sample.accept Sample.soon Sample.venue Sample.cached Sample.streaming
       "BTC-USD" "sell" (Sample.dec 1000 0)))
  = [BestOrder.Order "BTC-USD" (Sample.dec 990 (-2)) (Sample.dec 101 0) BestOrder.SELL true].
Proof.
  split; [|split; vm_compute; reflexivity].
  intros place_order now api mu prov market side amount tc qt.
  intros Hc Hq. cbn zeta.
  pose proof (sent_cases place_order now api mu prov market side amount tc qt Hc Hq) as S.
  cbn zeta in S. split.
  - intros o Ho.
    destruct (reference_price side qt) as [price|]; [|rewrite S in Ho; destruct Ho].
    destruct (BestOrder.sizes tc amount price) as [[mn qty]|e] eqn:Hs;
      [|rewrite S in Ho; destruct Ho].
    destruct (Decimal.ltb qty mn) eqn:Hlt; [rewrite S in Ho; destruct Ho|].
    rewrite S in Ho. destruct Ho as [<-|[]].
    cbn [BestOrder.market_name BestOrder.post_only BestOrder.side BestOrder.price
         BestOrder.amount_of_synthetic].
    split; [exact S|]. repeat (split; [reflexivity|]).
    destruct (sizes_inv _ _ _ _ _ Hs) as (step & ratio & H1 & H2 & H3 & H4).
    exists step, mn, ratio. do 2 (split; [assumption|]).
    split; [apply (div_rounds _ _ _ H3)|].
    split; [intros Hu; apply quantize_nearest_multiple; assumption|].
    intros L. apply ltb_spec in L. congruence.
  - intros price mn qty Hp Hs Hn. rewrite Hp, Hs in S.
    destruct (Decimal.ltb qty mn) eqn:Hlt; [|exact S].
    exfalso. apply Hn, ltb_spec, Hlt.
Qed.

Lemma C1_order_at_best_price_witness :
  config_of Sample.soon Sample.venue Sample.cached "BTC-USD"
    = Some (MarketUtils.TradingConfig (Sample.num 1 0) (Sample.num 1 (-2))) /\
  Provider.get_best_bid_ask Sample.streaming "BTC-USD" = Some (Sample.book "100" "101") /\
  BestOrder.sent (BestOrder.eff
    (BestOrder.execute Sample.no_balance Sample.soon Sample.venue Sample.cached
       Sample.streaming "BTC-USD" "BB" (Sample.dec 25005 (-1))))
  = [BestOrder.Order "BTC-USD" (Sample.dec 2500 (-2)) (Sample.dec 100 0) BestOrder.BUY true].
Proof.
  assert (Hc : config_of Sample.soon Sample.venue Sample.cached "BTC-USD"
               = Some (MarketUtils.TradingConfig (Sample.num 1 0) (Sample.num 1 (-2))))
    by (vm_compute; reflexivity).
  assert (Hq : Provider.get_best_bid_ask Sample.streaming "BTC-USD"
               = Some (Sample.book "100" "101"))
    by (vm_compute; reflexivity).
  split; [exact Hc|]. split; [exact Hq|].
  apply (proj2 (proj1 C1_order_at_best_price Sample.no_balance Sample.soon Sample.venue
                  Sample.cached Sample.streaming "BTC-USD" "BB" (Sample.dec 25005 (-1))
                  _ _ Hc Hq)
           (Sample.dec 100 0) (Sample.dec 1 0) (Sample.dec 2500 (-2))).
  - vm_compute; reflexivity.
  - vm_compute; reflexivity.
  - vm_compute. discriminate.
Defined.

(** C1 as it is written fails twice.  A size step of 10 is quantized to
    whole units, so 1000 at a bid of 0.3 gives 3333, no multiple of 10.
    And the quotient carries 28 digits, not all of them: 1 at a bid of
    7.9999999999999999999999999999999999 gives 0.12, while the exact
    quotient lies above 0.125 and is nearer to 0.13. *)
Lemma C1_counterexample :
  BestOrder.sent (BestOrder.eff
    (BestOrder.execute Sample.accept Sample.soon Sample.venue Sample.cached Sample.streaming
       "DOGE-USD" "buy" (Sample.dec 1000 0)))
  = [BestOrder.Order "DOGE-USD" (Sample.dec 3333 0) (Sample.dec 3 (-1)) BestOrder.BUY true] /\
  ~ nearest_multiple (Decimal.to_Q (Sample.dec 1000 0) / Decimal.to_Q (Sample.dec 3 (-1)))
      (Sample.dec 10 0) (Sample.dec 3333 0) /\
  BestOrder.sent (BestOrder.eff
    (BestOrder.execute Sample.accept Sample.soon Sample.venue Sample.cached Sample.streaming
       "ETH-USD" "buy" (Sample.dec 1 0)))
  = [BestOrder.Order "ETH-USD" (Sample.dec 12 (-2))
       (Sample.dec 79999999999999999999999999999999999 (-34)) BestOrder.BUY true] /\
  ~ nearest_multiple
      (Decimal.to_Q (Sample.dec 1 0)
       / Decimal.to_Q (Sample.dec 79999999999999999999999999999999999 (-34)))
      (Sample.dec 1 (-2)) (Sample.dec 12 (-2)).
Proof.
  split; [vm_compute; reflexivity|]. split.
  - intros [[k Hk] _]. unfold Decimal.to_Q, Sample.dec, Decimal.signed, Qeq in Hk.
    cbn in Hk. lia.
  - split; [vm_compute; reflexivity|].
    intros (_ & Hle & _). vm_compute in Hle. apply Hle. reflexivity.
Qed.

Lemma C3_no_quote_no_order_witness :
  Provider.get_best_bid_ask Provider.init "BTC-USD" = None /\
  BestOrder.failure_kind
    (BestOrder.execute Sample.accept Sample.late Sample.venue Sample.cached Provider.init
       "BTC-USD" "buy" (Sample.dec 1000 0))
  = Some BestOrder.QuoteUnavailable.
Proof.
  assert (Hq : Provider.get_best_bid_ask Provider.init "BTC-USD" = None)
    by (vm_compute; reflexivity).
  split; [exact Hq|].
  exact (proj2 (proj2 (proj2 (C3_no_quote_no_order Sample.accept Sample.late Sample.venue
           Sample.cached Provider.init "BTC-USD" "buy" (Sample.dec 1000 0) Hq)))).
Defined.

(** C3 as it is written fails where the venue does not list the market:
    there is no quote, and the failure is ConfigurationUnavailable. *)
Lemma C3_counterexample :
  Provider.get_best_bid_ask Sample.streaming "XRP-USD" = None /\
  BestOrder.failure_kind
    (BestOrder.execute Sample.accept Sample.soon Sample.venue Sample.cached Sample.streaming
       "XRP-USD" "buy" (Sample.dec 1000 0))
  = Some BestOrder.ConfigurationUnavailable /\
  BestOrder.failure_kind
    (BestOrder.execute Sample.accept Sample.soon Sample.venue Sample.cached Sample.streaming
       "XRP-USD" "buy" (Sample.dec 1000 0))
  <> Some BestOrder.QuoteUnavailable.
Proof.
  split; [vm_compute; reflexivity|]. split; [vm_compute; reflexivity|].
  vm_compute. discriminate.
Qed.

(** A quantity of 0.50 against a minimum of 1. *)
Lemma C4_below_minimum_rejected_witness :
  BestOrder.sizes (MarketUtils.TradingConfig (Sample.num 1 0) (Sample.num 1 (-2)))
                  (Sample.dec 50 0) (Sample.dec 100 0)
  = Decimal.Ok (Sample.dec 1 0, Sample.dec 50 (-2)) /\
  (Decimal.to_Q (Sample.dec 50 (-2)) < Decimal.to_Q (Sample.dec 1 0))%Q /\
  errors (BestOrder.execute Sample.accept Sample.soon Sample.venue Sample.cached
            Sample.streaming "BTC-USD" "buy" (Sample.dec 50 0))
  = [BestOrder.QuantityBelowMinimum (Sample.dec 50 (-2)) (Sample.dec 1 0) "BTC-USD"] /\
  BestOrder.sent (BestOrder.eff
    (BestOrder.execute Sample.accept Sample.soon Sample.venue Sample.cached
       Sample.streaming "BTC-USD" "buy" (Sample.dec 50 0))) = [].
Proof.
  assert (Hs : BestOrder.sizes (MarketUtils.TradingConfig (Sample.num 1 0) (Sample.num 1 (-2)))
                 (Sample.dec 50 0) (Sample.dec 100 0)
               = Decimal.Ok (Sample.dec 1 0, Sample.dec 50 (-2)))
    by (vm_compute; reflexivity).
  assert (Hlt : (Decimal.to_Q (Sample.dec 50 (-2)) < Decimal.to_Q (Sample.dec 1 0))%Q)
    by (vm_compute; reflexivity).
  split; [exact Hs|]. split; [exact Hlt|].
  assert (Hc : config_of Sample.soon Sample.venue Sample.cached "BTC-USD"
               = Some (MarketUtils.TradingConfig (Sample.num 1 0) (Sample.num 1 (-2))))
    by (vm_compute; reflexivity).
  assert (Hq : Provider.get_best_bid_ask Sample.streaming "BTC-USD"
               = Some (Sample.book "100" "101"))
    by (vm_compute; reflexivity).
  assert (Hp : reference_price "buy" (Sample.book "100" "101") = Some (Sample.dec 100 0))
    by (vm_compute; reflexivity).
  pose proof (C4_below_minimum_rejected Sample.accept Sample.soon Sample.venue Sample.cached
                Sample.streaming "BTC-USD" "buy" (Sample.dec 50 0) _ _ _ _ _
                Hc Hq Hp Hs Hlt) as (_ & H2 & H3 & _).
  split; [exact H3|exact H2].
Defined.

(** C8, as amended.  A run of [execute] never ends with an exception: it
    returns an order id, with no error record, or it returns [None] and
    hands exactly one error record to its logger, the last of the run,
    which falls under exactly one of the seven kinds
    ConfigurationUnavailable, QuoteUnavailable, InvalidSide,
    BelowMinimumSize, InsufficientBalance, PrecisionError and
    UnclassifiedExecutionFailure.  The returned value is the same for all
    failures: the kinds differ in the log only.  The filter of the logger
    lets the record through to the log unless its text holds both "Error
    response from POST" and "api.extended.exchange"; then the record is
    dropped and the log shows no error for the failure.  The record of an
    insufficient balance always gets through.  A side outside the buy and
    sell aliases is InvalidSide, an exception of the trading client or of
    the arithmetic is one of the last three kinds, each of the seven kinds
    occurs with its record in the log, and a rejection by the venue occurs
    whose record is dropped. *)
Theorem C8_failures_are_logged :
  (forall place_order now api mu prov market side amount,
     let r := BestOrder.execute place_order now api mu prov market side amount in
     match BestOrder.returned r with
     | Some id =>
         errors r = [] /\ BestOrder.failure_kind r = None /\
         exists o, BestOrder.sent (BestOrder.eff r) = [o] /\ place_order o = BestOrder.Accepted id
     | None =>
         exists msg k,
           errors r = [msg] /\ last (BestOrder.log (BestOrder.eff r)) = Some msg /\
           BestOrder.failure_of msg = Some k /\ BestOrder.failure_kind r = Some k
     end) /\
  (forall market e ef,
     BestOrder.is_error (BestOrder.handler market e ef) = true /\
     (BestOrder.failure_of (BestOrder.handler market e ef) = Some BestOrder.InsufficientBalance \/
      BestOrder.failure_of (BestOrder.handler market e ef) = Some BestOrder.PrecisionError \/
      BestOrder.failure_of (BestOrder.handler market e ef)
      = Some BestOrder.UnclassifiedExecutionFailure)) /\
  (forall place_order now api mu prov market side amount tc qt,
     config_of now api mu market = Some tc ->
     Provider.get_best_bid_ask prov market = Some qt ->
     BestOrder.is_buy side = false -> BestOrder.is_sell side = false ->
     let r := BestOrder.execute place_order now api mu prov market side amount in
     BestOrder.returned r = None /\ BestOrder.sent (BestOrder.eff r) = [] /\
     errors r = [BestOrder.InvalidSideMsg side market] /\
     BestOrder.failure_kind r = Some BestOrder.InvalidSide) /\
  (* each kind occurs, with its record in the log *)
  (forall k : BestOrder.failure,
     exists place_order prov market side amount,
       let r := BestOrder.execute place_order Sample.soon Sample.venue Sample.cached
                  prov market side amount in
       BestOrder.returned r = None /\ BestOrder.failure_kind r = Some k /\
       logged_errors r = errors r) /\
  (* what the filter of the logger does to the record of a failure *)
  (forall place_order now api mu prov market side amount msg,
     let r := BestOrder.execute place_order now api mu prov market side amount in
     errors r = [msg] ->
     exists text,
       BestOrder.error_text msg = Some text /\
       (APIMessageFilter.filter text = true -> logged_errors r = [msg]) /\
       (APIMessageFilter.filter text = false -> logged_errors r = []) /\
       (APIMessageFilter.filter text = false <->
        PyStr.contains "Error response from POST" text = true /\
        PyStr.contains "api.extended.exchange" text = true)) /\
  passes BestOrder.InsufficientBalanceMsg = true /\
  (* a failure that leaves no error in the log *)
  (let r := BestOrder.execute Sample.venue_says_no Sample.soon Sample.venue Sample.cached
              Sample.streaming "BTC-USD" "buy" (Sample.dec 1000 0) in
   BestOrder.returned r = None /\
   BestOrder.failure_kind r = Some BestOrder.UnclassifiedExecutionFailure /\
   logged_errors r = []).
Proof.
  split; [exact outcome_cases|]. split; [exact handler_kind|]. split; [exact invalid_side|].
  split.
  { intros k. destruct k.
    - exists Sample.accept, Sample.streaming, "XRP-USD", "buy", (Sample.dec 1000 0).
      vm_compute. auto.
    - exists Sample.accept, Provider.init, "BTC-USD", "buy", (Sample.dec 1000 0).
      vm_compute. auto.
    - exists Sample.accept, Sample.streaming, "BTC-USD", "hold", (Sample.dec 1000 0).
      vm_compute. auto.
    - exists Sample.accept, Sample.streaming, "BTC-USD", "buy", (Sample.dec 50 0).
      vm_compute. auto.
    - exists Sample.no_balance, Sample.streaming, "BTC-USD", "buy", (Sample.dec 1000 0).
      vm_compute. auto.
    - exists Sample.bad_precision, Sample.streaming, "BTC-USD", "buy", (Sample.dec 1000 0).
      vm_compute. auto.
    - exists Sample.closed_market, Sample.streaming, "BTC-USD", "buy", (Sample.dec 1000 0).
      vm_compute. auto. }
  split.
  { intros place_order now api mu prov market side amount msg r Hr.
    assert (He : BestOrder.is_error msg = true).
    { assert (Hin : msg ∈ errors r) by (rewrite Hr; apply list_elem_of_singleton; reflexivity).
      unfold errors in Hin. apply list_elem_of_filter in Hin. exact (proj1 Hin). }
    destruct (error_text_some msg He) as [text Ht]. exists text.
    pose proof (logged_single r msg Hr) as Hl. unfold passes in Hl. rewrite Ht in Hl.
    split; [exact Ht|]. split; [intros E; rewrite E in Hl; exact Hl|].
    split; [intros E; rewrite E in Hl; exact Hl|]. apply filter_drops. }
  split; [vm_compute; reflexivity|].
  vm_compute. auto.
Qed.

Lemma C8_failures_are_logged_witness :
  let em := "Error response from POST https://api.extended.exchange/api/v1/user/order: code 1121 - Market is not active"%string in
  let r := BestOrder.execute Sample.venue_says_no Sample.soon Sample.venue Sample.cached
             Sample.streaming "BTC-USD" "buy" (Sample.dec 1000 0) in
  BestOrder.is_buy "hold" = false /\ BestOrder.is_sell "hold" = false /\
  BestOrder.failure_kind
    (BestOrder.execute Sample.accept Sample.soon Sample.venue Sample.cached Sample.streaming
       "BTC-USD" "hold" (Sample.dec 1000 0))
  = Some BestOrder.InvalidSide /\
  errors r = [BestOrder.UnexpectedError em] /\
  logged_errors r = [].
Proof.
  intros em r.
  assert (Hc : config_of Sample.soon Sample.venue Sample.cached "BTC-USD"
               = Some (MarketUtils.TradingConfig (Sample.num 1 0) (Sample.num 1 (-2))))
    by (vm_compute; reflexivity).
  assert (Hq : Provider.get_best_bid_ask Sample.streaming "BTC-USD"
               = Some (Sample.book "100" "101"))
    by (vm_compute; reflexivity).
  assert (Hb : BestOrder.is_buy "hold" = false) by (vm_compute; reflexivity).
  assert (Hs : BestOrder.is_sell "hold" = false) by (vm_compute; reflexivity).
  assert (Hr : errors r = [BestOrder.UnexpectedError em]) by (vm_compute; reflexivity).
  split; [exact Hb|]. split; [exact Hs|]. split; [|split; [exact Hr|]].
  - exact (proj2 (proj2 (proj2
      (proj1 (proj2 (proj2 C8_failures_are_logged)) Sample.accept Sample.soon Sample.venue
         Sample.cached Sample.streaming "BTC-USD" "hold" (Sample.dec 1000 0) _ _ Hc Hq Hb Hs)))).
  - destruct (proj1 (proj2 (proj2 (proj2 (proj2 C8_failures_are_logged))))
                Sample.venue_says_no Sample.soon Sample.venue Sample.cached Sample.streaming
                "BTC-USD" "buy" (Sample.dec 1000 0) _ Hr) as (text & Ht & _ & Hdrop & Hiff).
    apply Hdrop, Hiff. cbn in Ht. injection Ht as <-. split; vm_compute; reflexivity.
Defined.

(** C8 as it is written fails: a run without metadata and a run without a
    quote fail in different kinds, and the caller gets the same value from
    both. *)
Lemma C8_counterexample :
  let r1 := BestOrder.execute Sample.accept Sample.soon Sample.venue Sample.cached
              Sample.streaming "XRP-USD" "buy" (Sample.dec 1000 0) in
  let r2 := BestOrder.execute Sample.accept Sample.soon Sample.venue Sample.cached
              Provider.init "BTC-USD" "buy" (Sample.dec 1000 0) in
  BestOrder.failure_kind r1 = Some BestOrder.ConfigurationUnavailable /\
  BestOrder.failure_kind r2 = Some BestOrder.QuoteUnavailable /\
  BestOrder.returned r1 = BestOrder.returned r2.
Proof. vm_compute. auto. Qed.

(** *** The metadata cache: C5, C7 *)

Lemma C5_get_market_object_witness :
  stamped Sample.cached /\
  fresh_entry Sample.soon Sample.cached "BTC-USD" /\
  MarketUtils.get_market_object Sample.soon Sample.venue_down Sample.cached "BTC-USD"
  = (Some Sample.btc, Sample.cached, 0%nat).
Proof.
  assert (Hs : stamped Sample.cached).
  { intros k ts H. cbn in H.
    repeat match type of H with
           | context [if ?c then _ else _] => destruct c
           end; try discriminate; injection H as <-; discriminate. }
  assert (Hf : fresh_entry Sample.soon Sample.cached "BTC-USD").
  { exists Sample.btc, 1700000000%Q.
    split; [vm_compute; reflexivity|]. split; vm_compute; reflexivity. }
  split; [exact Hs|]. split; [exact Hf|].
  pose proof (C5_get_market_object Sample.soon Sample.venue_down Sample.cached "BTC-USD" Hs) as H.
  destruct (MarketUtils.get_market_object Sample.soon Sample.venue_down Sample.cached "BTC-USD")
    as [[res st'] n].
  destruct H as [H _]. destruct (H Hf) as (-> & -> & ->). reflexivity.
Defined.



(** *** The provider: C2, C6, C10 *)

(** The BTC stream is stopped while a message for it is under way. *)
Lemma C2_no_write_after_stop_witness :
  let in_flight :=
    Provider.EResume 0
      (Provider.Received
         (Provider.RecvSnapshot (Sample.message "BTC-USD" "105" "106") Sample.clock_ms)) in
  let env := [[in_flight]; []] in
  let s' := default Provider.init (Provider.stop_specific_streams env ["btc-usd"] Sample.streaming) in
  Provider.stop_specific_streams env ["btc-usd"] Sample.streaming = Some s' /\
  Provider.get_best_bid_ask Sample.streaming "btc-usd" = Some (Sample.book "100" "101") /\
  Provider.get_best_bid_ask s' "btc-usd" = None.
Proof.
  intros in_flight env s'.
  assert (Hs : Provider.stop_specific_streams env ["btc-usd"] Sample.streaming = Some s')
    by (vm_compute; reflexivity).
  assert (Hq : Forall (quiet (PyStr.upper "btc-usd")) env).
  { repeat first [apply Forall_nil_2 | apply Forall_cons_2 | reflexivity]. }
  split; [exact Hs|]. split; [vm_compute; reflexivity|].
  exact (proj1 (proj2 C2_no_write_after_stop env ["btc-usd"] Sample.streaming s' "btc-usd"
                  Hs (or_introl eq_refl) Hq)).
Defined.

Lemma C6_who_deletes_what_witness :
  let s1 := Provider.stop_clear "BTC-USD" (Provider.stop_request "BTC-USD" Sample.reconnecting) in
  Provider.stop_each ["BTC-USD"] [] [] Sample.reconnecting = Some (s1, [0%nat], []) /\
  Provider.get_best_bid_ask s1 "BTC-USD" = None.
Proof.
  intros s1.
  assert (Hs : Provider.stop_each ["BTC-USD"] [] [] Sample.reconnecting = Some (s1, [0%nat], []))
    by (vm_compute; reflexivity).
  split; [exact Hs|].
  exact (proj1 (proj2 C6_who_deletes_what) ["BTC-USD"] [] Sample.reconnecting s1 [0%nat] []
           "BTC-USD" Hs (or_introl eq_refl) (Forall_nil_2 _)).
Defined.

(** C6 as it is written fails.  The BTC task sleeps before it reconnects,
    its last quote is in the store and its socket is closed.  The stop has
    nothing to wait for before it reaches the lock: when it comes to wait
    for the task, the quote and the connection entry are deleted, by the
    caller, and the task has not run, let alone ended.  When the task runs
    it ends at once and deletes nothing. *)
Lemma C6_counterexample :
  let s1 := Provider.stop_clear "BTC-USD" (Provider.stop_request "BTC-USD" Sample.reconnecting) in
  Provider.get_best_bid_ask Sample.reconnecting "BTC-USD" = Some (Sample.book "100" "101") /\
  Provider.task_done Sample.reconnecting 0 = false /\
  Provider.open_conn "BTC-USD" (Provider.stop_request "BTC-USD" Sample.reconnecting) = None /\
  Provider.stop_each ["BTC-USD"] [] [] Sample.reconnecting = Some (s1, [0%nat], []) /\
  Provider.get_best_bid_ask s1 "BTC-USD" = None /\
  Provider._market_connections s1 !! "BTC-USD" = None /\
  Provider.task_done s1 0 = false /\
  exists s2,
    Provider.resume 0 Provider.Go s1 = Some s2 /\
    Provider.task_done s2 0 = true /\
    Provider._latest_market_data s2 = Provider._latest_market_data s1.
Proof.
  intros s1. do 7 (split; [vm_compute; reflexivity|]).
  exists (default Provider.init (Provider.resume 0 Provider.Go s1)).
  do 2 (split; [vm_compute; reflexivity|]). vm_compute; reflexivity.
Qed.

(** C10.  [get_best_bid_ask], [start_streams] and [stop_specific_streams]
    give the same result for a market name and for its upper-case form, and
    starting or stopping a market leaves the entries under every other key
    alone.  The metadata lookup takes the name as it is: with the quote of
    BTC-USD cached and the venue listing BTC-USD, the lower-case name finds
    the quote, finds no metadata, and [execute] fails with
    ConfigurationUnavailable where the upper-case name places the order. *)
Theorem C10_market_names :
  (forall s raw,
     Provider.get_best_bid_ask s raw = Provider.get_best_bid_ask s (PyStr.upper raw)) /\
  (forall ms s,
     Provider.start_streams ms s = Provider.start_streams (map PyStr.upper ms) s) /\
  (forall env ms s,
     Provider.stop_specific_streams env ms s
     = Provider.stop_specific_streams env (map PyStr.upper ms) s) /\
  (forall s raw k,
     k <> PyStr.upper raw ->
     Provider._active_market_listeners (Provider.start_one s raw) !! k
     = Provider._active_market_listeners s !! k /\
     Provider._connection_tasks (Provider.start_one s raw) !! k
     = Provider._connection_tasks s !! k) /\
  (forall raw s k,
     k <> PyStr.upper raw ->
     Provider._active_market_listeners (Provider.stop_request raw s) !! k
     = Provider._active_market_listeners s !! k /\
     Provider._latest_market_data (Provider.stop_clear raw s) !! k
     = Provider._latest_market_data s !! k /\
     Provider._market_connections (Provider.stop_clear raw s) !! k
     = Provider._market_connections s !! k) /\
  Provider.get_best_bid_ask Sample.streaming "btc-usd" = Some (Sample.book "100" "101") /\
  (MarketUtils.get_market_object Sample.soon Sample.venue Sample.cached "btc-usd").1.1 = None /\
  (MarketUtils.get_market_object Sample.soon Sample.venue Sample.cached "BTC-USD").1.1
  = Some Sample.btc /\
  BestOrder.failure_kind
    (BestOrder.execute Sample.accept Sample.soon Sample.venue Sample.cached Sample.streaming
       "btc-usd" "buy" (Sample.dec 1000 0))
  = Some BestOrder.ConfigurationUnavailable /\
  BestOrder.returned
    (BestOrder.execute Sample.accept Sample.soon Sample.venue Sample.cached Sample.streaming
       "BTC-USD" "buy" (Sample.dec 1000 0))
  = Some 42.
Proof.
  split; [intros; symmetry; apply get_best_bid_ask_upper|].
  split; [intros; symmetry; apply start_streams_upper|].
  split; [intros; symmetry; apply stop_specific_streams_upper|].
  split; [exact start_one_other|]. split; [exact stop_other|].
  do 4 (split; [vm_compute; reflexivity|]). vm_compute; reflexivity.
Qed.

Lemma C10_market_names_witness :
  "ETH-USD" <> PyStr.upper "btc-usd" /\
  Provider._active_market_listeners (Provider.start_one Sample.reconnecting "btc-usd") !! "ETH-USD"
  = Provider._active_market_listeners Sample.reconnecting !! "ETH-USD".
Proof.
  assert (Hne : "ETH-USD" <> PyStr.upper "btc-usd") by (vm_compute; discriminate).
  split; [exact Hne|].
  exact (proj1 (proj1 (proj2 (proj2 (proj2 C10_market_names)))
                  Sample.reconnecting "btc-usd" "ETH-USD" Hne)).
Defined.
(* ===================================================================== *)
(** ** Further facts about the provider                                  *)
(* ===================================================================== *)

Section ListenerFacts.
Import Provider.

Lemma on_snapshot_priced mk0 snap clk s s' :
  on_snapshot mk0 snap clk s = Some s' -> all_priced s -> all_priced s'.
Proof.
  unfold on_snapshot. intros H Hs.
  destruct (data snap) as [d|]; [|injection H as <-; exact Hs].
  destruct (_ && _); [|injection H as <-; exact Hs].
  destruct (best_level (b d)) as [bb|]; [|discriminate].
  destruct (best_level (a d)) as [ba|]; [|discriminate].
  destruct (PyVal.truthy (p bb) && PyVal.truthy (p ba)) eqn:Ep; [|injection H as <-; exact Hs].
  destruct (default false _); [|injection H as <-; exact Hs].
  injection H as <-. apply andb_true_iff in Ep.
  intros mk qt. cbn. destruct (decide (mk0 = mk)) as [->|Hne].
  - rewrite lookup_insert_eq. intros [= <-]. exact Ep.
  - rewrite lookup_insert_ne by exact Hne. apply Hs.
Qed.

(** A step adds no quote but through [on_snapshot]. *)
Lemma all_priced_sub s s' :
  (forall mk qt, _latest_market_data s' !! mk = Some qt -> _latest_market_data s !! mk = Some qt) ->
  all_priced s -> all_priced s'.
Proof. intros H Hs mk qt Hq. exact (Hs mk qt (H mk qt Hq)). Qed.

Lemma all_priced_same s s' :
  _latest_market_data s' = _latest_market_data s -> all_priced s -> all_priced s'.
Proof. intros H. apply all_priced_sub. rewrite H. auto. Qed.

Lemma finish_priced tid mk s : all_priced s -> all_priced (finish tid mk s).
Proof. apply all_priced_sub. intros k qt. apply finish_data. Qed.

Lemma resume_priced tid i s s' :
  resume tid i s = Some s' -> all_priced s -> all_priced s'.
Proof.
  unfold resume. intros H Hs.
  destruct (tasks s !! tid) as [t|]; [|discriminate].
  destruct (pc_done (t_pc t)); [discriminate|].
  destruct (t_must_cancel t).
  { injection H as <-. revert Hs. apply all_priced_same.
    destruct (socket_of (t_pc t)); reflexivity. }
  assert (Ho : forall s0, all_priced s0 -> all_priced (outer_head tid (t_market t) s0)).
  { intros s0. unfold outer_head. destruct (wanted _ _); [apply all_priced_same; reflexivity|].
    apply finish_priced. }
  assert (Hl : forall s0, all_priced s0 -> all_priced (loop_tail tid (t_market t) s0)).
  { intros s0. unfold loop_tail. destruct (wanted _ _); [apply all_priced_same; reflexivity|].
    apply finish_priced. }
  assert (Hi : forall c s0, all_priced s0 -> all_priced (inner_head tid (t_market t) c s0)).
  { intros c s0. unfold inner_head. destruct (wanted _ _); apply all_priced_same; reflexivity. }
  destruct (t_pc t) as [| |c|c|c| |], i as [| | |[snap clk| | |]]; try discriminate.
  - injection H as <-. apply Ho, Hs.
  - injection H as <-. apply Hi. revert Hs. apply all_priced_same. reflexivity.
  - injection H as <-. apply Hl, Hs.
  - destruct (on_snapshot (t_market t) snap clk s) as [s1|] eqn:E.
    + injection H as <-. apply Hi. exact (on_snapshot_priced _ _ _ _ _ E Hs).
    + injection H as <-. revert Hs. apply all_priced_same. reflexivity.
  - injection H as <-. apply Hi, Hs.
  - injection H as <-. revert Hs. apply all_priced_same. reflexivity.
  - injection H as <-. revert Hs. apply all_priced_same. reflexivity.
  - injection H as <-. revert Hs. apply all_priced_same. reflexivity.
  - injection H as <-. apply Hl. revert Hs. apply all_priced_same. reflexivity.
  - injection H as <-. apply Ho, Hs.
Qed.

Lemma step_priced e s s' : step e s = Some s' -> all_priced s -> all_priced s'.
Proof.
  destruct e as [ms|raw|c|raw|ms stopped|tid i]; cbn [step]; intros H.
  - injection H as <-. apply all_priced_same, start_streams_data.
  - injection H as <-. apply all_priced_same, stop_request_data.
  - injection H as <-. apply all_priced_same. reflexivity.
  - injection H as <-. apply all_priced_sub. intros mk qt. unfold stop_clear. cbn.
    intros Hq. apply lookup_delete_Some in Hq. tauto.
  - destruct (forallb _ _); [|discriminate]. injection H as <-.
    apply all_priced_same. apply stop_forget_frame.
  - apply (resume_priced _ _ _ _ H).
Qed.

Lemma run_priced evs : forall s s', run evs s = Some s' -> all_priced s -> all_priced s'.
Proof.
  induction evs as [|e r IH]; intros s s'; cbn [run].
  - intros [= <-]. auto.
  - destruct (step e s) as [s1|] eqn:E; [|discriminate].
    intros H Hs. apply (IH _ _ H). exact (step_priced _ _ _ E Hs).
Qed.

(** X1. Whatever is started and stopped and whatever the feeds send, a quote
    that [get_best_bid_ask] returns carries a truthy bid price and a truthy
    ask price. *)
Theorem X1_quotes_have_both_prices evs s raw qt :
  run evs init = Some s -> get_best_bid_ask s raw = Some qt ->
  PyVal.truthy (bid_price qt) = true /\ PyVal.truthy (ask_price qt) = true.
Proof.
  intros Hr Hq.
  assert (Hi : all_priced init) by (intros mk q; cbn; rewrite lookup_empty; discriminate).
  revert Hr Hi. generalize init as s0. 
  induction evs as [|e r IH]; intros s0; cbn [run].
  - intros [= ->] Hs. exact (Hs _ _ Hq).
  - destruct (step e s0) as [s1|] eqn:E; [|discriminate].
    intros Hr Hs. apply (IH _ Hr). exact (step_priced _ _ _ E Hs).
Qed.

End ListenerFacts.

(** Three feeds have sent a message each: the quotes of the store have
    both prices. *)
Lemma X1_quotes_have_both_prices_witness :
  Provider.run Sample.first_messages Provider.init = Some Sample.streaming /\
  Provider.get_best_bid_ask Sample.streaming "btc-usd" = Some (Sample.book "100" "101") /\
  PyVal.truthy (Provider.bid_price (Sample.book "100" "101")) = true /\
  PyVal.truthy (Provider.ask_price (Sample.book "100" "101")) = true.
Proof.
  assert (Hr : Provider.run Sample.first_messages Provider.init = Some Sample.streaming)
    by (vm_compute; reflexivity).
  assert (Hq : Provider.get_best_bid_ask Sample.streaming "btc-usd"
               = Some (Sample.book "100" "101")) by (vm_compute; reflexivity).
  split; [exact Hr|]. split; [exact Hq|].
  exact (X1_quotes_have_both_prices Sample.first_messages Sample.streaming "btc-usd"
           (Sample.book "100" "101") Hr Hq).
Defined.

Section ListenerFrame.
Import Provider.

Lemma own_business_refl tid mk s : own_business tid mk s s.
Proof. unfold own_business. auto 10. Qed.

Lemma own_business_trans tid mk s1 s2 s3 :
  own_business tid mk s1 s2 -> own_business tid mk s2 s3 -> own_business tid mk s1 s3.
Proof.
  intros (A1 & B1 & C1 & D1 & E1) (A2 & B2 & C2 & D2 & E2).
  unfold own_business. rewrite A2, B2, C2. repeat (split; [assumption|]). split.
  - intros k Hk. destruct (D1 k Hk) as [X1 Y1]. destruct (D2 k Hk) as [X2 Y2].
    rewrite X2, Y2. auto.
  - intros j Hj. rewrite (E2 j Hj). apply E1, Hj.
Qed.

Lemma set_pc_own tid mk k s : own_business tid mk s (set_pc tid k s).
Proof.
  unfold own_business, set_pc. cbn. repeat (split; [reflexivity|]). split; [auto|].
  intros j Hj. destruct (tasks s !! tid) as [t|]; [|reflexivity].
  apply list_lookup_insert_ne. congruence.
Qed.

Lemma finish_own tid mk s : own_business tid mk s (finish tid mk s).
Proof.
  unfold finish. eapply own_business_trans; [|apply set_pc_own].
  unfold own_business. cbn. repeat (split; [reflexivity|]). split; [|auto].
  intros k Hk. rewrite !lookup_delete_ne by congruence. auto.
Qed.

Lemma close_socket_own tid mk c s : own_business tid mk s (close_socket c s).
Proof. unfold own_business, close_socket. cbn. auto 10. Qed.

Lemma on_snapshot_own tid mk snap clk s s' :
  on_snapshot mk snap clk s = Some s' -> own_business tid mk s s'.
Proof.
  unfold on_snapshot. intros H.
  destruct (data snap) as [d|]; [|injection H as <-; apply own_business_refl].
  destruct (_ && _); [|injection H as <-; apply own_business_refl].
  destruct (best_level (b d)) as [bb|]; [|discriminate].
  destruct (best_level (a d)) as [ba|]; [|discriminate].
  destruct (_ && _); [|injection H as <-; apply own_business_refl].
  destruct (default false _); [|injection H as <-; apply own_business_refl].
  injection H as <-. unfold own_business. cbn. repeat (split; [reflexivity|]). split; [|auto].
  intros k Hk. rewrite lookup_insert_ne by congruence. auto.
Qed.

(** A listener step changes nothing but the quote and the connection
    entry of its own market, its own task record and the sockets. *)
Lemma resume_own tid t i s s' :
  tasks s !! tid = Some t -> resume tid i s = Some s' ->
  own_business tid (t_market t) s s'.
Proof.
  unfold resume. intros Ht H. rewrite Ht in H.
  destruct (pc_done (t_pc t)); [discriminate|].
  set (mk := t_market t) in *.
  destruct (t_must_cancel t).
  { injection H as <-. eapply own_business_trans; [|apply set_pc_own].
    destruct (socket_of (t_pc t)); [apply close_socket_own|apply own_business_refl]. }
  assert (Ho : forall s0, own_business tid mk s0 (outer_head tid mk s0)).
  { intros s0. unfold outer_head. destruct (wanted _ _); [apply set_pc_own|apply finish_own]. }
  assert (Hl : forall s0, own_business tid mk s0 (loop_tail tid mk s0)).
  { intros s0. unfold loop_tail. destruct (wanted _ _); [apply set_pc_own|apply finish_own]. }
  assert (Hi : forall c s0, own_business tid mk s0 (inner_head tid mk c s0)).
  { intros c s0. unfold inner_head. destruct (wanted _ _); apply set_pc_own. }
  destruct (t_pc t) as [| |c|c|c| |], i as [| | |[snap clk| | |]]; try discriminate.
  - injection H as <-. apply Ho.
  - injection H as <-. eapply own_business_trans; [|apply Hi].
    unfold own_business. cbn. repeat (split; [reflexivity|]). split; [|auto].
    intros k Hk. rewrite lookup_insert_ne by congruence. auto.
  - injection H as <-. apply Hl.
  - destruct (on_snapshot mk snap clk s) as [s1|] eqn:E; injection H as <-.
    + eapply own_business_trans; [apply (on_snapshot_own tid _ _ _ _ _ E)|apply Hi].
    + apply set_pc_own.
  - injection H as <-. apply Hi.
  - injection H as <-. apply set_pc_own.
  - injection H as <-. apply set_pc_own.
  - injection H as <-. apply set_pc_own.
  - injection H as <-. eapply own_business_trans; [apply close_socket_own|apply Hl].
  - injection H as <-. apply Ho.
Qed.

Lemma start_streams_frame ms s :
  _latest_market_data (start_streams ms s) = _latest_market_data s /\
  _market_connections (start_streams ms s) = _market_connections s.
Proof.
  unfold start_streams.
  assert (H : forall s0, _latest_market_data (fold_left start_one ms s0) = _latest_market_data s0 /\
                         _market_connections (fold_left start_one ms s0) = _market_connections s0).
  { induction ms as [|x r IH]; intros s0; cbn [fold_left]; [auto|].
    destruct (IH (start_one s0 x)) as [A B]. rewrite A, B.
    unfold start_one, create_task. cbn.
    destruct (_ !! _) as [tid|]; [destruct (task_done _ tid)|]; auto. }
  apply (H (set_running true s)).
Qed.

Lemma stop_request_frame raw s :
  _latest_market_data (stop_request raw s) = _latest_market_data s /\
  _market_connections (stop_request raw s) = _market_connections s /\
  _running (stop_request raw s) = _running s.
Proof.
  unfold stop_request. destruct (live_task _ _); cbn; auto.
Qed.

(** X2. The quote and the connection entry of a market are changed only by
    the listener of that market and by a stop of that market: never by a
    start, by the listener of another market, or by the stop of another
    market. *)
Theorem X2_who_touches_a_market e s s' mk :
  step e s = Some s' ->
  _latest_market_data s' !! mk <> _latest_market_data s !! mk \/
  _market_connections s' !! mk <> _market_connections s !! mk ->
  (exists tid t i, e = EResume tid i /\ tasks s !! tid = Some t /\ t_market t = mk) \/
  (exists raw, e = EStopClear raw /\ PyStr.upper raw = mk).
Proof.
  destruct e as [ms|raw|c|raw|ms stopped|tid i]; cbn [step]; intros H Hd.
  - injection H as <-. exfalso. destruct (start_streams_frame ms s) as [A B].
    rewrite A, B in Hd. tauto.
  - injection H as <-. exfalso. destruct (stop_request_frame raw s) as (A & B & _).
    rewrite A, B in Hd. tauto.
  - injection H as <-. exfalso. cbn in Hd. tauto.
  - injection H as <-. right. exists raw. split; [reflexivity|].
    destruct (decide (PyStr.upper raw = mk)) as [E|E]; [exact E|exfalso].
    unfold stop_clear in Hd. cbn in Hd. rewrite !lookup_delete_ne in Hd by exact E. tauto.
  - destruct (forallb _ _); [|discriminate]. injection H as <-. exfalso.
    destruct (stop_forget_frame ms stopped s) as (A & _ & C & _). rewrite A, C in Hd. tauto.
  - left. destruct (tasks s !! tid) as [t|] eqn:Ht; [|unfold resume in H; rewrite Ht in H; discriminate].
    exists tid, t, i. split; [reflexivity|]. split; [exact Ht|].
    destruct (decide (t_market t = mk)) as [E|E]; [exact E|exfalso].
    destruct (resume_own _ _ _ _ _ Ht H) as (_ & _ & _ & D & _).
    destruct (D mk ltac:(congruence)) as [X Y]. rewrite X, Y in Hd. tauto.
Qed.

(* ---------- the flags ---------- *)

Lemma resume_running tid i s s' : resume tid i s = Some s' -> _running s' = _running s.
Proof.
  intros H. destruct (tasks s !! tid) as [t|] eqn:Ht; [|unfold resume in H; rewrite Ht in H; discriminate].
  apply (resume_own _ _ _ _ _ Ht H).
Qed.

Lemma start_streams_active ms s mk :
  _active_market_listeners (start_streams ms s) !! mk =
  if bool_decide (mk ∈ map PyStr.upper ms) then Some true else _active_market_listeners s !! mk.
Proof.
  unfold start_streams.
  change (_active_market_listeners s) with (_active_market_listeners (set_running true s)).
  generalize (set_running true s) as s0.
  induction ms as [|x r IH]; intros s0; cbn [fold_left map].
  - rewrite bool_decide_eq_false_2 by apply not_elem_of_nil. reflexivity.
  - rewrite IH, start_one_active.
    destruct (decide (PyStr.upper x = mk)) as [E|E].
    + rewrite (bool_decide_eq_true_2 (mk ∈ PyStr.upper x :: map PyStr.upper r))
        by (rewrite E; left).
      destruct (bool_decide _); reflexivity.
    + destruct (bool_decide (mk ∈ map PyStr.upper r)) eqn:Er.
      * apply bool_decide_eq_true_1 in Er.
        rewrite bool_decide_eq_true_2 by (right; exact Er). reflexivity.
      * apply bool_decide_eq_false_1 in Er.
        rewrite bool_decide_eq_false_2; [reflexivity|].
        intros Hin. apply elem_of_cons in Hin. destruct Hin as [->|Hin]; [congruence|tauto].
Qed.

End ListenerFrame.

(** A second message on the BTC feed changes the BTC quote: the step is
    one of the BTC listener. *)
Lemma X2_who_touches_a_market_witness :
  let e := Provider.EResume 0
             (Provider.Received
                (Provider.RecvSnapshot (Sample.message "BTC-USD" "105" "106") Sample.clock_ms)) in
  let s' := default Provider.init (Provider.step e Sample.streaming) in
  Provider.step e Sample.streaming = Some s' /\
  Provider._latest_market_data s' !! "BTC-USD"
  <> Provider._latest_market_data Sample.streaming !! "BTC-USD" /\
  ((exists tid t i, e = Provider.EResume tid i /\
      Provider.tasks Sample.streaming !! tid = Some t /\ Provider.t_market t = "BTC-USD") \/
   (exists raw, e = Provider.EStopClear raw /\ PyStr.upper raw = "BTC-USD")).
Proof.
  intros e s'.
  assert (Hs : Provider.step e Sample.streaming = Some s') by (vm_compute; reflexivity).
  assert (Hd : Provider._latest_market_data s' !! "BTC-USD"
               <> Provider._latest_market_data Sample.streaming !! "BTC-USD")
    by (vm_compute; discriminate).
  split; [exact Hs|]. split; [exact Hd|].
  exact (X2_who_touches_a_market e Sample.streaming s' "BTC-USD" Hs (or_introl Hd)).
Defined.

Section ProviderRuns.
Import Provider.




End ProviderRuns.

Section Flags.
Import Provider.








End Flags.



Section Sockets.
Import Provider.

Lemma set_pc_lookup tid k s t :
  tasks s !! tid = Some t ->
  tasks (set_pc tid k s) !! tid = Some (Task (t_market t) k (t_must_cancel t)) /\
  sockets (set_pc tid k s) = sockets s.
Proof.
  intros Ht. unfold set_pc. cbn. rewrite Ht. split; [|reflexivity].
  apply list_lookup_insert_eq. apply lookup_lt_Some in Ht. exact Ht.
Qed.

(** The three places where the listener decides how to go on: the task
    record afterwards, by what it holds. *)
Lemma heads_shape tid t s :
  tasks s !! tid = Some t ->
  (exists k, socket_of k = None /\
     tasks (outer_head tid (t_market t) s) !! tid = Some (Task (t_market t) k (t_must_cancel t)) /\
     sockets (outer_head tid (t_market t) s) = sockets s) /\
  (exists k, socket_of k = None /\
     tasks (loop_tail tid (t_market t) s) !! tid = Some (Task (t_market t) k (t_must_cancel t)) /\
     sockets (loop_tail tid (t_market t) s) = sockets s) /\
  (forall c, exists k, socket_of k = Some c /\
     tasks (inner_head tid (t_market t) c s) !! tid = Some (Task (t_market t) k (t_must_cancel t)) /\
     sockets (inner_head tid (t_market t) c s) = sockets s).
Proof.
  intros Ht.
  assert (Hf : tasks (finish tid (t_market t) s) !! tid = Some (Task (t_market t) Done (t_must_cancel t)) /\
               sockets (finish tid (t_market t) s) = sockets s).
  { unfold finish.
    exact (set_pc_lookup tid Done
             (set_data (delete (t_market t)) (set_conns (delete (t_market t)) s)) t Ht). }
  split; [|split].
  - unfold outer_head. destruct (wanted _ _).
    + exists Connecting. split; [reflexivity|]. apply set_pc_lookup, Ht.
    + exists Done. split; [reflexivity|]. exact Hf.
  - unfold loop_tail. destruct (wanted _ _).
    + exists Backoff10. split; [reflexivity|]. apply set_pc_lookup, Ht.
    + exists Done. split; [reflexivity|]. exact Hf.
  - intros c. unfold inner_head. destruct (wanted _ _).
    + exists (Receiving c). split; [reflexivity|]. apply set_pc_lookup, Ht.
    + exists (Closing c). split; [reflexivity|]. apply set_pc_lookup, Ht.
Qed.

Lemma on_snapshot_tasks mk snap clk s s' :
  on_snapshot mk snap clk s = Some s' -> tasks s' = tasks s /\ sockets s' = sockets s.
Proof.
  unfold on_snapshot. intros H.
  destruct (data snap) as [d|]; [|injection H as <-; auto].
  destruct (_ && _); [|injection H as <-; auto].
  destruct (best_level (b d)) as [bb|]; [|discriminate].
  destruct (best_level (a d)) as [ba|]; [|discriminate].
  destruct (_ && _); [|injection H as <-; auto].
  destruct (default false _); injection H as <-; auto.
Qed.

Lemma open_after_close c (l : list bool) c' :
  <[c := true]> l !! c' = Some false -> l !! c' = Some false /\ c' <> c.
Proof.
  intros H. destruct (decide (c' = c)) as [->|Hne].
  - exfalso. destruct (decide (c < length l)%nat) as [Hl|Hl].
    + rewrite list_lookup_insert_eq in H by exact Hl. discriminate.
    + rewrite list_insert_ge in H by lia. apply lookup_lt_Some in H. lia.
  - rewrite list_lookup_insert_ne in H by congruence. auto.
Qed.

(** What a listener step does to the sockets: one that is open afterwards
    is held by the task, or was open before and was not the task's. *)
Lemma resume_sockets tid t i s s' :
  tasks s !! tid = Some t -> resume tid i s = Some s' ->
  exists t', tasks s' !! tid = Some t' /\
    forall c, sockets s' !! c = Some false ->
      socket_of (t_pc t') = Some c \/
      (sockets s !! c = Some false /\ socket_of (t_pc t) <> Some c).
Proof.
  intros Ht H. unfold resume in H. rewrite Ht in H.
  destruct (pc_done (t_pc t)); [discriminate|].
  destruct (t_must_cancel t) eqn:Hmc.
  { injection H as <-.
    destruct (socket_of (t_pc t)) as [c0|] eqn:Es.
    - destruct (set_pc_lookup tid Done (close_socket c0 s) t Ht) as [A B].
      eexists. split; [exact A|]. rewrite B. intros c Hc. right.
      apply open_after_close in Hc. destruct Hc. split; [assumption|congruence].
    - destruct (set_pc_lookup tid Done s t Ht) as [A B].
      eexists. split; [exact A|]. rewrite B. intros c Hc. right. auto. }
  assert (Hsame : forall s0 k, tasks s0 !! tid = Some t -> sockets s0 = sockets s ->
            socket_of k = socket_of (t_pc t) \/ socket_of (t_pc t) = None ->
            exists t', tasks (set_pc tid k s0) !! tid = Some t' /\
              forall c, sockets (set_pc tid k s0) !! c = Some false ->
                socket_of (t_pc t') = Some c \/
                (sockets s !! c = Some false /\ socket_of (t_pc t) <> Some c)).
  { intros s0 k Ht0 Hs0 Hk. destruct (set_pc_lookup tid k s0 t Ht0) as [A B].
    eexists. split; [exact A|]. rewrite B, Hs0. cbn [t_pc]. intros c Hc.
    destruct (decide (socket_of (t_pc t) = Some c)) as [E|E]; [|right; auto].
    left. destruct Hk as [Hk|Hk]; congruence. }
  assert (Hnone : forall s1, (exists k, socket_of k = None /\
              tasks s1 !! tid = Some (Task (t_market t) k (t_must_cancel t)) /\
              sockets s1 = sockets s) ->
            socket_of (t_pc t) = None ->
            exists t', tasks s1 !! tid = Some t' /\
              forall c, sockets s1 !! c = Some false ->
                socket_of (t_pc t') = Some c \/
                (sockets s !! c = Some false /\ socket_of (t_pc t) <> Some c)).
  { intros s1 (k & Hk & A & B) Hn. eexists. split; [exact A|]. rewrite B.
    intros c Hc. right. split; [exact Hc|congruence]. }
  assert (Hin : forall c s0, tasks s0 !! tid = Some t -> sockets s0 = sockets s ->
            socket_of (t_pc t) = Some c ->
            exists t', tasks (inner_head tid (t_market t) c s0) !! tid = Some t' /\
              forall c', sockets (inner_head tid (t_market t) c s0) !! c' = Some false ->
                socket_of (t_pc t') = Some c' \/
                (sockets s !! c' = Some false /\ socket_of (t_pc t) <> Some c')).
  { intros c s0 Ht0 Hs0 Hc.
    destruct (heads_shape tid t s0 Ht0) as (_ & _ & Hi). destruct (Hi c) as (k & Hk & A & B).
    eexists. split; [exact A|]. rewrite B, Hs0. cbn [t_pc]. intros c' Hc'.
    destruct (decide (c' = c)) as [->|Hne]; [left; exact Hk|right].
    split; [exact Hc'|congruence]. }
  destruct (heads_shape tid t s Ht) as (Ho & Hl & Hi).
  destruct (t_pc t) as [| |c|c|c| |] eqn:Epc, i as [| | |[snap clk| | |]]; try discriminate;
    try (injection H as <-).
  - apply Hnone; [exact Ho|reflexivity].
  - (* connected: a new socket *)
    set (s0 := set_conns _ _).
    assert (Ht0 : tasks s0 !! tid = Some t) by exact Ht.
    destruct (heads_shape tid t s0 Ht0) as (_ & _ & Hi0).
    destruct (Hi0 (length (sockets s))) as (k & Hk & A & B).
    eexists. split; [exact A|]. rewrite B. cbn [t_pc]. intros c Hc.
    subst s0. cbn in Hc. destruct (decide (c = length (sockets s))) as [->|Hne].
    + left. exact Hk.
    + right. split; [|discriminate].
      assert (c < length (sockets s))%nat.
      { apply lookup_lt_Some in Hc. rewrite length_app in Hc. cbn in Hc. lia. }
      rewrite lookup_app_l in Hc by assumption. exact Hc.
  - apply Hnone; [exact Hl|reflexivity].
  - destruct (on_snapshot (t_market t) snap clk s) as [s1|] eqn:E; injection H as <-.
    + apply Hin; [| |reflexivity].
      * destruct (on_snapshot_tasks _ _ _ _ _ E) as [X _]. rewrite X. exact Ht.
      * destruct (on_snapshot_tasks _ _ _ _ _ E) as [_ X]. exact X.
    + apply Hsame; [exact Ht|reflexivity|left; reflexivity].
  - apply Hin; [exact Ht|reflexivity|reflexivity].
  - apply Hsame; [exact Ht|reflexivity|left; reflexivity].
  - apply Hsame; [exact Ht|reflexivity|left; reflexivity].
  - apply Hsame; [exact Ht|reflexivity|left; reflexivity].
  - (* the socket is closed on the way out of the [async with] *)
    assert (Ht0 : tasks (close_socket c s) !! tid = Some t) by exact Ht.
    destruct (heads_shape tid t _ Ht0) as (_ & (k & Hk & A & B) & _).
    eexists. split; [exact A|]. rewrite B. intros c' Hc'. right.
    apply open_after_close in Hc'. destruct Hc'. split; [assumption|rewrite ?Epc; cbn; congruence].
  - apply Hnone; [exact Ho|reflexivity].
Qed.

End Sockets.

Section SocketsHeld.
Import Provider.

Lemma held_mono s s' :
  (forall c, sockets s' !! c = Some false -> sockets s !! c = Some false) ->
  (forall j t, tasks s !! j = Some t ->
     exists t', tasks s' !! j = Some t' /\ t_pc t' = t_pc t) ->
  sockets_held s -> sockets_held s'.
Proof.
  intros Hs Ht H c Hc. destruct (H c (Hs c Hc)) as (tid & t & A & B).
  destruct (Ht _ _ A) as (t' & A' & E). exists tid, t'. rewrite E. auto.
Qed.

Lemma create_task_tasks mk s :
  tasks (create_task mk s) = tasks s ++ [Task mk Created false] /\
  sockets (create_task mk s) = sockets s.
Proof. unfold create_task. cbn. auto. Qed.

Lemma start_one_tasks s raw :
  (exists l, tasks (start_one s raw) = tasks s ++ l) /\ sockets (start_one s raw) = sockets s.
Proof.
  unfold start_one. cbn zeta.
  destruct (_ !! _) as [tid|]; [destruct (task_done _ tid)|]; cbn;
    (split; [|reflexivity]); eauto; exists []; rewrite app_nil_r; reflexivity.
Qed.

Lemma start_streams_tasks ms s :
  (exists l, tasks (start_streams ms s) = tasks s ++ l) /\
  sockets (start_streams ms s) = sockets s.
Proof.
  unfold start_streams.
  change (tasks s) with (tasks (set_running true s)).
  change (sockets s) with (sockets (set_running true s)).
  generalize (set_running true s) as s0.
  induction ms as [|x r IH]; intros s0; cbn [fold_left].
  - split; [exists []; rewrite app_nil_r|]; reflexivity.
  - destruct (IH (start_one s0 x)) as [[l A] B].
    destruct (start_one_tasks s0 x) as [[l0 A0] B0].
    rewrite A, B, A0, B0. split; [|reflexivity]. exists (l0 ++ l). rewrite app_assoc. reflexivity.
Qed.

Lemma cancel_tasks tid s j t :
  tasks s !! j = Some t ->
  exists t', tasks (cancel tid s) !! j = Some t' /\ t_pc t' = t_pc t /\ t_market t' = t_market t.
Proof.
  intros Hj. unfold cancel. cbn.
  destruct (tasks s !! tid) as [t0|] eqn:E; [|eauto].
  destruct (decide (tid = j)) as [->|Hne].
  - rewrite list_lookup_insert_eq by (apply lookup_lt_Some in Hj; exact Hj).
    assert (t0 = t) by congruence. subst t0. eexists. split; [reflexivity|]. auto.
  - rewrite list_lookup_insert_ne by exact Hne. eauto.
Qed.

Lemma stop_request_tasks raw s j t :
  tasks s !! j = Some t ->
  exists t', tasks (stop_request raw s) !! j = Some t' /\ t_pc t' = t_pc t /\
             t_market t' = t_market t.
Proof.
  intros Hj. unfold stop_request. cbn zeta.
  destruct (live_task _ _) as [tid|]; [|cbn; eauto].
  apply (cancel_tasks tid (set_active _ s)). exact Hj.
Qed.

Lemma stop_request_sockets raw s : sockets (stop_request raw s) = sockets s.
Proof. unfold stop_request. destruct (live_task _ _); reflexivity. Qed.

Lemma step_held e s s' : step e s = Some s' -> sockets_held s -> sockets_held s'.
Proof.
  destruct e as [ms|raw|c|raw|ms stopped|tid i]; cbn [step]; intros H.
  - injection H as <-. destruct (start_streams_tasks ms s) as [[l A] B].
    apply held_mono; [rewrite B; auto|].
    intros j t Hj. exists t. split; [|reflexivity]. rewrite A.
    rewrite lookup_app_l by (apply lookup_lt_Some in Hj; exact Hj). exact Hj.
  - injection H as <-. apply held_mono; [rewrite stop_request_sockets; auto|].
    intros j t Hj. destruct (stop_request_tasks raw s j t Hj) as (t' & A & B & _). eauto.
  - injection H as <-. apply held_mono; [|eauto].
    intros c' Hc'. cbn in Hc'. apply open_after_close in Hc'. tauto.
  - injection H as <-. apply held_mono; [auto|eauto].
  - destruct (forallb _ _); [|discriminate]. injection H as <-.
    destruct (stop_forget_frame ms stopped s) as (_ & _ & _ & T).
    assert (S' : sockets (stop_forget ms stopped s) = sockets s).
    { unfold stop_forget. generalize (take (length stopped) ms) as l. intros l. clear T.
      revert s. induction l as [|x l IH]; intros s; cbn [fold_left]; [reflexivity|].
      rewrite IH; reflexivity. }
    apply held_mono; [rewrite S'; auto|rewrite T; eauto].
  - intros Hh. destruct (tasks s !! tid) as [t|] eqn:Ht;
      [|unfold resume in H; rewrite Ht in H; discriminate].
    destruct (resume_sockets _ _ _ _ _ Ht H) as (t' & Ht' & Hopen).
    destruct (resume_own _ _ _ _ _ Ht H) as (_ & _ & _ & _ & Hother).
    intros c Hc. destruct (Hopen c Hc) as [Hmine|[Hold Hnot]].
    + exists tid, t'. auto.
    + destruct (Hh c Hold) as (j & tj & Hj & Hs).
      assert (j <> tid) by (intros ->; congruence).
      exists j, tj. rewrite (Hother j) by assumption. auto.
Qed.

Lemma run_held evs : forall s s', run evs s = Some s' -> sockets_held s -> sockets_held s'.
Proof.
  induction evs as [|e r IH]; intros s s'; cbn [run].
  - intros [= <-]. auto.
  - destruct (step e s) as [s1|] eqn:E; [|discriminate].
    intros H Hs. apply (IH _ _ H). exact (step_held _ _ _ E Hs).
Qed.

Lemma init_held : sockets_held init.
Proof. intros c Hc. cbn in Hc. rewrite lookup_nil in Hc. discriminate. Qed.

(** X5. No socket is left open behind: after any run from the start, a
    socket that is not closed is the one on which a listener task that is
    still running receives, backs off or is about to close.  So when every
    task is done, every socket is closed. *)
Theorem X5_no_socket_left_open evs s :
  run evs init = Some s ->
  (forall c, socket_closed s c = false ->
     exists tid t, tasks s !! tid = Some t /\ task_done s tid = false /\
       (t_pc t = Receiving c \/ t_pc t = Backoff5 c \/ t_pc t = Closing c)) /\
  ((forall tid, task_done s tid = true) -> forall c, socket_closed s c = true).
Proof.
  intros Hr. pose proof (run_held _ _ _ Hr init_held) as Hh.
  assert (Hopen : forall c, socket_closed s c = false ->
     exists tid t, tasks s !! tid = Some t /\ task_done s tid = false /\
       (t_pc t = Receiving c \/ t_pc t = Backoff5 c \/ t_pc t = Closing c)).
  { intros c Hc. unfold socket_closed in Hc.
    destruct (sockets s !! c) as [[]|] eqn:E; try discriminate.
    destruct (Hh c E) as (tid & t & Ht & Hs). exists tid, t. split; [exact Ht|].
    unfold task_done. rewrite Ht.
    destruct (t_pc t) as [| |c0|c0|c0| |]; cbn in Hs |- *; try discriminate;
      injection Hs as ->; auto. }
  split; [exact Hopen|].
  intros Hdone c. destruct (socket_closed s c) eqn:E; [reflexivity|].
  destruct (Hopen c E) as (tid & _ & _ & Hd & _). rewrite Hdone in Hd. discriminate.
Qed.

End SocketsHeld.

(** The socket of the BTC feed is open, and the BTC listener receives on
    it. *)
Lemma X5_no_socket_left_open_witness :
  Provider.run Sample.first_messages Provider.init = Some Sample.streaming /\
  Provider.socket_closed Sample.streaming 0 = false /\
  exists tid t,
    Provider.tasks Sample.streaming !! tid = Some t /\
    Provider.task_done Sample.streaming tid = false /\
    (Provider.t_pc t = Provider.Receiving 0 \/ Provider.t_pc t = Provider.Backoff5 0 \/
     Provider.t_pc t = Provider.Closing 0).
Proof.
  assert (Hr : Provider.run Sample.first_messages Provider.init = Some Sample.streaming)
    by (vm_compute; reflexivity).
  assert (Hc : Provider.socket_closed Sample.streaming 0 = false) by (vm_compute; reflexivity).
  split; [exact Hr|]. split; [exact Hc|].
  exact (proj1 (X5_no_socket_left_open Sample.first_messages Sample.streaming Hr) 0%nat Hc).
Defined.

Section Shutdown.
Import Provider.

Lemma settles_refl s : settles s s.
Proof. split; auto. Qed.

Lemma settles_trans s1 s2 s3 : settles s1 s2 -> settles s2 s3 -> settles s1 s3.
Proof. intros [A1 B1] [A2 B2]. split; [congruence|auto]. Qed.

Lemma settles_same s s' : tasks s' = tasks s -> settles s s'.
Proof. intros H. unfold settles, task_done. rewrite H. auto. Qed.

Lemma settles_pointwise s s' :
  (forall j t, tasks s !! j = Some t ->
     exists t', tasks s' !! j = Some t' /\ t_pc t' = t_pc t) ->
  length (tasks s') = length (tasks s) ->
  settles s s'.
Proof.
  intros H Hl. split; [exact Hl|]. intros tid. unfold task_done.
  destruct (tasks s !! tid) as [t|] eqn:E.
  - destruct (H _ _ E) as (t' & -> & ->). auto.
  - intros _. apply lookup_ge_None in E. rewrite <- Hl in E.
    apply lookup_ge_None in E. rewrite E. reflexivity.
Qed.

Lemma cancel_settles tid s : settles s (cancel tid s).
Proof.
  apply settles_pointwise.
  - intros j t Hj. destruct (cancel_tasks tid s j t Hj) as (t' & A & B & _). eauto.
  - unfold cancel. cbn. destruct (tasks s !! tid); [apply length_insert|reflexivity].
Qed.

Lemma resume_settles tid i s s' : resume tid i s = Some s' -> settles s s'.
Proof.
  intros H. destruct (tasks s !! tid) as [t|] eqn:Ht;
    [|unfold resume in H; rewrite Ht in H; discriminate].
  destruct (resume_sockets _ _ _ _ _ Ht H) as (t' & Ht' & _).
  destruct (resume_own _ _ _ _ _ Ht H) as (_ & _ & _ & _ & Hother).
  assert (Hlive : task_done s tid = false).
  { unfold task_done. rewrite Ht. unfold resume in H. rewrite Ht in H.
    destruct (pc_done (t_pc t)); [discriminate|reflexivity]. }
  assert (Hlen : length (tasks s') = length (tasks s)).
  { destruct (Nat.lt_trichotomy (length (tasks s')) (length (tasks s))) as [L|[L|L]]; [|exact L|].
    - (* a task beyond the end of the new list *)
      destruct (decide (length (tasks s') = tid)) as [E|E].
      + apply lookup_lt_Some in Ht'. lia.
      + pose proof (Hother _ E) as X. rewrite lookup_ge_None_2 in X by lia.
        symmetry in X. apply lookup_ge_None in X. lia.
    - destruct (decide (length (tasks s) = tid)) as [E|E].
      + apply lookup_lt_Some in Ht. lia.
      + pose proof (Hother _ E) as X. rewrite (lookup_ge_None_2 (tasks s)) in X by lia.
        apply lookup_ge_None in X. lia. }
  split; [exact Hlen|]. intros j Hj.
  destruct (decide (j = tid)) as [->|Hne]; [congruence|].
  unfold task_done in *. rewrite (Hother j Hne). exact Hj.
Qed.

Lemma step_settles e s s' : no_start e = true -> step e s = Some s' -> settles s s'.
Proof.
  destruct e as [ms|raw|c|raw|ms stopped|tid i]; cbn [step no_start]; intros Hn H;
    try discriminate.
  - injection H as <-. unfold stop_request. cbn zeta.
    destruct (live_task _ _) as [tid|]; [|apply settles_same; reflexivity].
    eapply settles_trans; [|apply cancel_settles]. apply settles_same. reflexivity.
  - injection H as <-. apply settles_same. reflexivity.
  - injection H as <-. apply settles_same. reflexivity.
  - destruct (forallb _ _); [|discriminate]. injection H as <-.
    apply settles_same. apply stop_forget_frame.
  - apply (resume_settles _ _ _ _ H).
Qed.

Lemma step_no_start_running e s s' :
  no_start e = true -> step e s = Some s' -> _running s' = _running s.
Proof.
  destruct e as [ms|raw|c|raw|ms stopped|tid i]; cbn [step no_start]; intros Hn H;
    try discriminate.
  - injection H as <-. apply stop_request_frame.
  - injection H as <-. reflexivity.
  - injection H as <-. reflexivity.
  - destruct (forallb _ _); [|discriminate]. injection H as <-.
    unfold stop_forget. generalize (take (length stopped) ms) as l. intros l. revert s.
    induction l as [|x l IH]; intros s; cbn [fold_left]; [reflexivity|]. rewrite IH. reflexivity.
  - apply (resume_running _ _ _ _ H).
Qed.

Lemma no_start_starts mk e : no_start e = true -> starts mk e = false.
Proof. destruct e; cbn; congruence. Qed.

Lemma no_start_quiet mk evs : Forall (fun e => no_start e = true) evs -> quiet mk evs.
Proof. apply List.Forall_impl. intros e. apply no_start_starts. Qed.

(** A run with no start in it. *)
Lemma run_no_start evs : forall s s',
  Forall (fun e => no_start e = true) evs -> run evs s = Some s' ->
  settles s s' /\ _running s' = _running s /\ (forall mk, ~ flag_up s mk -> ~ flag_up s' mk).
Proof.
  induction evs as [|e r IH]; intros s s' Hq; cbn [run].
  - intros [= <-]. split; [apply settles_refl|]. auto.
  - inversion Hq as [|? ? He Hr]; subst.
    destruct (step e s) as [s1|] eqn:E; [|discriminate].
    intros H. destruct (IH _ _ Hr H) as (A & B & C).
    split; [eapply settles_trans; [apply (step_settles _ _ _ He E)|exact A]|].
    split; [rewrite B; apply (step_no_start_running _ _ _ He E)|].
    intros mk Hm. apply C. intros Hf. apply Hm.
    exact (step_flag _ _ _ _ E (no_start_starts mk e He) Hf).
Qed.

End Shutdown.

Section CloseStreams.
Import Provider.

Lemma calm_refl s : calm s s.
Proof. split; auto. apply settles_refl. Qed.

Lemma calm_trans s1 s2 s3 : calm s1 s2 -> calm s2 s3 -> calm s1 s3.
Proof.
  intros [A1 B1 C1 D1] [A2 B2 C2 D2]. split; [|congruence|auto|auto].
  eapply settles_trans; eassumption.
Qed.

Lemma run_calm evs s s' :
  Forall (fun e => no_start e = true) evs -> run evs s = Some s' -> calm s s'.
Proof.
  intros Hq Hr. destruct (run_no_start _ _ _ Hq Hr) as (A & B & C).
  split; [exact A|exact B|exact C|apply (run_held _ _ _ Hr)].
Qed.

Lemma cancel_calm tid s : calm s (cancel tid s).
Proof.
  split; [apply cancel_settles|reflexivity|auto|].
  apply held_mono; [auto|].
  intros j t Hj. destruct (cancel_tasks tid s j t Hj) as (t' & A & B & _). eauto.
Qed.

Lemma cancel_all_calm l : forall s, calm s (cancel_all l s).
Proof.
  unfold cancel_all. induction l as [|x l IH]; intros s; cbn [fold_left]; [apply calm_refl|].
  eapply calm_trans; [apply cancel_calm|apply IH].
Qed.

Lemma close_socket_calm c s : calm s (close_socket c s).
Proof.
  split; [apply settles_same; reflexivity|reflexivity|auto|].
  apply held_mono; [|eauto]. intros c' Hc'. cbn in Hc'. apply open_after_close in Hc'. tauto.
Qed.

Lemma close_each_calm items : forall env s s' env',
  undisturbed env -> close_each items env s = Some (s', env') -> calm s s'.
Proof.
  induction items as [|[mk c] r IH]; intros env s s' env' Henv; cbn [close_each].
  - intros [= <- <-]. apply calm_refl.
  - destruct (socket_closed s c); [apply IH, Henv|].
    destruct env as [|evs env0]; [discriminate|].
    inversion Henv as [|? ? Hevs Henv0]; subst.
    destruct (run evs s) as [s1|] eqn:E; [|discriminate].
    intros H. eapply calm_trans; [apply (run_calm _ _ _ Hevs E)|].
    eapply calm_trans; [apply close_socket_calm|]. exact (IH _ _ _ _ Henv0 H).
Qed.

(** Every task that still runs is one of those that [close_streams] waits
    for. *)
Lemma waited_all s tid t :
  registered s -> tasks s !! tid = Some t -> live t ->
  In tid (tasks_to_wait_for s).
Proof.
  intros Hreg Ht Hl. unfold tasks_to_wait_for.
  apply list_elem_of_In, list_elem_of_filter. split.
  - unfold task_done. rewrite Ht. exact Hl.
  - apply list_elem_of_In, in_map_iff. exists (t_market t, tid). split; [reflexivity|].
    apply list_elem_of_In, elem_of_map_to_list. exact (Hreg _ _ Ht Hl).
Qed.

(** X6. [close_streams] shuts the provider down.  When it returns, the
    three stores are empty, so [get_best_bid_ask] has no quote for any
    market.  If moreover every listener that runs is a registered one and
    every open socket is a listener's (as it is after any run from the
    start), and nobody calls [start_streams] while it waits, then no task
    is left running, no socket is left open, [_running] is false, no market
    is listed as active, and no quote appears for a market before that
    market is started again. *)
Theorem X6_close_streams_shuts_down env items s s' :
  close_streams env items s = Some s' ->
  (_latest_market_data s' = ∅ /\ _market_connections s' = ∅ /\ _connection_tasks s' = ∅ /\
   forall raw, get_best_bid_ask s' raw = None) /\
  (registered s -> sockets_held s -> undisturbed env ->
   all_done s' /\ (forall c, socket_closed s' c = true) /\
   _running s' = false /\ (forall mk, is_active s' mk = false) /\
   forall raw evs s'', quiet (PyStr.upper raw) evs -> run evs s' = Some s'' ->
     get_best_bid_ask s'' raw = None).
Proof.
  unfold close_streams.
  set (s0 := set_active (fun _ => ∅) (set_running false s)).
  set (waited := tasks_to_wait_for s0).
  set (s1 := cancel_all waited s0).
  set (gathered := match waited with [] => Some (s1, env) | _ => _ end).
  destruct gathered as [[s2 env2]|] eqn:Eg; [|discriminate].
  destruct (bool_decide _); [|discriminate].
  destruct (close_each items env2 s2) as [[s3 env3]|] eqn:Ec; [|discriminate].
  intros [= <-]. split.
  { cbn. repeat (split; [reflexivity|]). intros raw. apply lookup_empty. }
  intros Hreg Hheld Henv.
  (* the caller's first moves *)
  assert (H01 : calm s0 s1) by apply cancel_all_calm.
  assert (Hr0 : _running s0 = false) by reflexivity.
  assert (Hf0 : forall mk, ~ flag_up s0 mk).
  { intros mk. unfold flag_up, s0. cbn. rewrite lookup_empty. discriminate. }
  assert (Hh0 : sockets_held s0) by exact Hheld.
  (* the gather *)
  assert (H12 : calm s1 s2 /\ undisturbed env2 /\ Forall (fun tid => task_done s2 tid = true) waited).
  { subst gathered. destruct waited as [|w ws] eqn:Ew.
    - injection Eg as <- <-. split; [apply calm_refl|]. split; [exact Henv|constructor].
    - destruct env as [|evs env0]; [discriminate|].
      inversion Henv as [|? ? Hevs Henv0]; subst.
      destruct (run evs s1) as [s2'|] eqn:E; [|discriminate].
      destruct (forallb (task_done s2') (w :: ws)) eqn:Ef; [|discriminate].
      injection Eg as <- <-. split; [apply (run_calm _ _ _ Hevs E)|]. split; [exact Henv0|].
      apply Forall_forall. intros x Hx.
      apply (proj1 (List.forallb_forall _ _) Ef x). apply list_elem_of_In, Hx. }
  destruct H12 as (H12 & Henv2 & Hwaited).
  assert (H23 : calm s2 s3) by exact (close_each_calm _ _ _ _ _ Henv2 Ec).
  pose proof (calm_trans _ _ _ (calm_trans _ _ _ H01 H12) H23) as H03.
  (* every task is done once the gather is over *)
  assert (Hdone2 : all_done s2).
  { intros tid. destruct (tasks s !! tid) as [t|] eqn:Ht.
    - destruct (pc_done (t_pc t)) eqn:Hp.
      + apply (calm_settles _ _ (calm_trans _ _ _ H01 H12)).
        unfold task_done. change (tasks s0) with (tasks s). rewrite Ht. exact Hp.
      + assert (Hin : In tid waited) by exact (waited_all s0 tid t Hreg Ht Hp).
        rewrite Forall_forall in Hwaited. apply Hwaited, list_elem_of_In, Hin.
    - apply (calm_settles _ _ (calm_trans _ _ _ H01 H12)).
      unfold task_done. change (tasks s0) with (tasks s). rewrite Ht. reflexivity. }
  assert (Hdone3 : all_done s3).
  { intros tid. apply (calm_settles _ _ H23), Hdone2. }
  assert (Hheld3 : sockets_held s3) by exact (calm_held _ _ H03 Hh0).
  split; [exact Hdone3|]. split.
  { intros c. change (socket_closed s3 c = true). unfold socket_closed.
    destruct (sockets s3 !! c) as [[]|] eqn:E; try reflexivity. exfalso.
    destruct (Hheld3 c E) as (tid & t & Ht & Hs).
    specialize (Hdone3 tid). unfold task_done in Hdone3. rewrite Ht in Hdone3.
    destruct (t_pc t); cbn in *; discriminate. }
  split; [cbn; rewrite (calm_running _ _ H03); exact Hr0|].
  assert (Hflags : forall mk, ~ flag_up s3 mk) by (intros mk; apply (calm_flags _ _ H03), Hf0).
  split.
  { intros mk. unfold is_active. cbn. specialize (Hflags mk). unfold flag_up in Hflags.
    destruct (_active_market_listeners s3 !! mk) as [[]|]; cbn; congruence. }
  intros raw evs s'' Hq Hr.
  assert (Hp : parked (set_data (fun _ => ∅) (set_registry (fun _ => ∅) (set_conns (fun _ => ∅) s3)))
                      (PyStr.upper raw)).
  { split; [apply Hflags|]. cbn. apply lookup_empty. }
  exact (proj2 (run_parked _ _ _ _ Hr Hq Hp)).
Qed.

End CloseStreams.

(** The three streams are closed; the cancelled tasks end when they are
    waited for. *)
Lemma X6_close_streams_shuts_down_witness :
  let env := [[Provider.EResume 0 Provider.Go; Provider.EResume 1 Provider.Go;
               Provider.EResume 2 Provider.Go]] in
  let items := [("ETH-USD"%string, 2%nat); ("BTC-USD"%string, 0%nat); ("DOGE-USD"%string, 1%nat)] in
  let s' := default Provider.init (Provider.close_streams env items Sample.streaming) in
  Provider.close_streams env items Sample.streaming = Some s' /\
  registered Sample.streaming /\ sockets_held Sample.streaming /\ undisturbed env /\
  Provider._latest_market_data s' = ∅ /\
  all_done s' /\ (forall c, Provider.socket_closed s' c = true) /\
  Provider._running s' = false /\ (forall mk, Provider.is_active s' mk = false).
Proof.
  intros env items s'.
  assert (Hs : Provider.close_streams env items Sample.streaming = Some s')
    by (vm_compute; reflexivity).
  assert (Hr : Provider.run Sample.first_messages Provider.init = Some Sample.streaming)
    by (vm_compute; reflexivity).
  assert (Hreg : registered Sample.streaming).
  { apply (run_registered Sample.first_messages Provider.init); [|exact Hr|exact init_registered].
    repeat first [apply Forall_nil_2 | apply Forall_cons_2 | reflexivity]. }
  assert (Hheld : sockets_held Sample.streaming)
    by exact (run_held Sample.first_messages Provider.init _ Hr init_held).
  assert (Hu : undisturbed env).
  { repeat first [apply Forall_nil_2 | apply Forall_cons_2 | reflexivity]. }
  destruct (X6_close_streams_shuts_down env items Sample.streaming s' Hs) as ((A & _) & B).
  destruct (B Hreg Hheld Hu) as (B1 & B2 & B3 & B4 & _).
  split; [exact Hs|]. split; [exact Hreg|]. split; [exact Hheld|]. split; [exact Hu|].
  split; [exact A|]. split; [exact B1|]. split; [exact B2|]. split; [exact B3|exact B4].
Defined.

Section Reconnect.
Import Provider.

Lemma set_pc_waits tid mk k k' s :
  waits_at s tid mk k ->
  waits_at (set_pc tid k' s) tid mk k' /\ same_stores s (set_pc tid k' s) /\
  sockets (set_pc tid k' s) = sockets s.
Proof.
  intros [Ht Hw]. destruct (set_pc_lookup tid k' s _ Ht) as [A B]. cbn in A.
  split; [split; [exact A|exact Hw]|]. split; [|exact B]. unfold same_stores. cbn. auto.
Qed.

Lemma resume_waiting tid mk k i s :
  waits_at s tid mk k -> pc_done k = false ->
  resume tid i s =
  match k, i with
  | Created, Go => Some (outer_head tid mk s)
  | Connecting, Connected =>
      let c := length (sockets s) in
      Some (inner_head tid mk c
              (set_conns (insert mk c) (set_sockets (fun l => l ++ [false]) s)))
  | Connecting, ConnectFailed => Some (loop_tail tid mk s)
  | Receiving c, Received (RecvSnapshot snap clock_ms) =>
      match on_snapshot mk snap clock_ms s with
      | Some s' => Some (inner_head tid mk c s')
      | None => Some (set_pc tid (Backoff5 c) s)
      end
  | Receiving c, Received RecvBadJson => Some (inner_head tid mk c s)
  | Receiving c, Received RecvClosed => Some (set_pc tid (Closing c) s)
  | Receiving c, Received RecvError => Some (set_pc tid (Backoff5 c) s)
  | Backoff5 c, Go => Some (set_pc tid (Closing c) s)
  | Closing c, Go => Some (loop_tail tid mk (close_socket c s))
  | Backoff10, Go => Some (outer_head tid mk s)
  | _, _ => None
  end.
Proof.
  intros [Ht _] Hk. unfold resume. rewrite Ht. cbn [t_pc t_market t_must_cancel].
  rewrite Hk. reflexivity.
Qed.

Lemma same_stores_trans s1 s2 s3 :
  same_stores s1 s2 -> same_stores s2 s3 -> same_stores s1 s3.
Proof. intros (A1 & B1 & C1 & D1) (A2 & B2 & C2 & D2). unfold same_stores. repeat split; congruence. Qed.

(** From the loss of the connection to the next attempt: the socket is
    closed, the task sleeps ten seconds and connects again; the stores are
    not touched. *)
Lemma closing_to_connecting tid mk c s :
  waits_at s tid mk (Closing c) ->
  exists s', run [EResume tid Go; EResume tid Go] s = Some s' /\
    waits_at s' tid mk Connecting /\ same_stores s s' /\ socket_closed s' c = true.
Proof.
  intros Hw. cbn [run step].
  rewrite (resume_waiting _ _ _ Go _ Hw) by reflexivity.
  assert (Hw1 : waits_at (close_socket c s) tid mk (Closing c)) by exact Hw.
  unfold loop_tail. rewrite (proj2 Hw1).
  destruct (set_pc_waits tid mk _ Backoff10 _ Hw1) as (Hw2 & S2 & K2).
  rewrite (resume_waiting _ _ _ Go _ Hw2) by reflexivity.
  unfold outer_head. rewrite (proj2 Hw2).
  destruct (set_pc_waits tid mk _ Connecting _ Hw2) as (Hw3 & S3 & K3).
  eexists. split; [reflexivity|]. split; [exact Hw3|]. split.
  - eapply same_stores_trans; [|exact S3]. eapply same_stores_trans; [|exact S2].
    unfold same_stores. cbn. auto.
  - unfold socket_closed. rewrite K3, K2. cbn.
    destruct (decide (c < length (sockets s))%nat) as [Hl|Hl].
    + rewrite list_lookup_insert_eq by exact Hl. reflexivity.
    + rewrite list_insert_ge by lia. rewrite lookup_ge_None_2 by lia. reflexivity.
Qed.

(** X7. A listener rides out what the feed does to it, and the quote
    stays.  While the market is wanted and the task waits for a message: a
    message that is no JSON changes nothing at all; a closed connection
    takes the task, in three steps, through the ten-second sleep to a new
    connection attempt; an error, or a snapshot with an empty bid or ask
    list, does the same with a five-second sleep first.  In both cases the
    old socket is closed and the last quote of the market is still in the
    store. *)
Theorem X7_quote_outlives_the_connection tid mk c s :
  waits_at s tid mk (Receiving c) ->
  resume tid (Received RecvBadJson) s = Some s /\
  (exists s',
     run [EResume tid (Received RecvClosed); EResume tid Go; EResume tid Go] s = Some s' /\
     waits_at s' tid mk Connecting /\ same_stores s s' /\ socket_closed s' c = true) /\
  (forall r,
     r = RecvError \/
     (exists snap clk, r = RecvSnapshot snap clk /\ on_snapshot mk snap clk s = None) ->
     exists s',
       run [EResume tid (Received r); EResume tid Go; EResume tid Go; EResume tid Go] s
       = Some s' /\
       waits_at s' tid mk Connecting /\ same_stores s s' /\ socket_closed s' c = true).
Proof.
  intros Hw. split; [|split].
  - rewrite (resume_waiting _ _ _ _ _ Hw) by reflexivity.
    unfold inner_head. rewrite (proj2 Hw). f_equal.
    unfold set_pc, set_tasks. destruct Hw as [Ht _]. rewrite Ht. cbn [t_market t_must_cancel].
    rewrite list_insert_id by exact Ht. destruct s; reflexivity.
  - cbn [run step]. rewrite (resume_waiting _ _ _ _ _ Hw) by reflexivity.
    destruct (set_pc_waits tid mk _ (Closing c) _ Hw) as (Hw1 & S1 & K1).
    destruct (closing_to_connecting _ _ _ _ Hw1) as (s' & Hr & Hw' & S' & Hc).
    exists s'. split; [exact Hr|]. split; [exact Hw'|]. split; [|exact Hc].
    exact (same_stores_trans _ _ _ S1 S').
  - intros r Hr.
    assert (H1 : resume tid (Received r) s = Some (set_pc tid (Backoff5 c) s)).
    { rewrite (resume_waiting _ _ _ _ _ Hw) by reflexivity.
      destruct Hr as [->|(snap & clk & -> & ->)]; reflexivity. }
    cbn [run step]. rewrite H1.
    destruct (set_pc_waits tid mk _ (Backoff5 c) _ Hw) as (Hw1 & S1 & K1).
    rewrite (resume_waiting _ _ _ Go _ Hw1) by reflexivity.
    destruct (set_pc_waits tid mk _ (Closing c) _ Hw1) as (Hw2 & S2 & K2).
    destruct (closing_to_connecting _ _ _ _ Hw2) as (s' & Hrun & Hw' & S' & Hc).
    exists s'. split; [exact Hrun|]. split; [exact Hw'|]. split; [|exact Hc].
    exact (same_stores_trans _ _ _ (same_stores_trans _ _ _ S1 S2) S').
Qed.

End Reconnect.

(** The BTC listener waits for a message; the connection drops. *)
Lemma X7_quote_outlives_the_connection_witness :
  waits_at Sample.streaming 0 "BTC-USD" (Provider.Receiving 0) /\
  exists s',
    Provider.run [Provider.EResume 0 (Provider.Received Provider.RecvClosed);
                  Provider.EResume 0 Provider.Go; Provider.EResume 0 Provider.Go]
      Sample.streaming = Some s' /\
    waits_at s' 0 "BTC-USD" Provider.Connecting /\ same_stores Sample.streaming s' /\
    Provider.socket_closed s' 0 = true.
Proof.
  assert (Hw : waits_at Sample.streaming 0 "BTC-USD" (Provider.Receiving 0))
    by (split; vm_compute; reflexivity).
  split; [exact Hw|].
  exact (proj1 (proj2 (X7_quote_outlives_the_connection 0%nat "BTC-USD" 0%nat Sample.streaming Hw))).
Defined.

(* ===================================================================== *)
(** ** One task a market                                                 *)
(* ===================================================================== *)

Section OneTask.
Import Provider.

(* ---------- the tasks of a market, step by step ---------- *)






(* ---------- a stop that is left alone ---------- *)


Lemma watched_more markets stopped stopped' s :
  (forall tid, In tid stopped -> In tid stopped') ->
  watched markets stopped s -> watched markets stopped' s.
Proof. intros Hsub W raw tid t Hin Ht Hl Hm. apply Hsub. exact (W raw tid t Hin Ht Hl Hm). Qed.







End OneTask.



(* ===================================================================== *)
(** ** Further facts about the metadata cache                            *)
(* ===================================================================== *)

Section CacheShape.
Import MarketUtils.

Section ODictShape.
Context {V : Type}.
Implicit Types d : list (string * V).

Lemma keys_set_in k v d : In k (ODict.keys d) -> ODict.keys (ODict.set k v d) = ODict.keys d.
Proof.
  induction d as [|[k' v'] r IH]; cbn; [intros []|].
  destruct (String.eqb_spec k k') as [->|Hne]; [reflexivity|].
  intros [E|Hin]; [congruence|]. cbn. f_equal. apply IH, Hin.
Qed.

Lemma keys_set_new k v d :
  ~ In k (ODict.keys d) -> ODict.keys (ODict.set k v d) = ODict.keys d ++ [k].
Proof.
  induction d as [|[k' v'] r IH]; cbn; [reflexivity|].
  destruct (String.eqb_spec k k') as [->|Hne]; [intros H; exfalso; apply H; left; reflexivity|].
  intros H. cbn. f_equal. apply IH. intros Hin. apply H. right. exact Hin.
Qed.

Lemma get_in_keys k d : is_Some (ODict.get k d) <-> In k (ODict.keys d).
Proof.
  induction d as [|[k' v'] r IH]; cbn.
  - split; [intros [x Hx]; discriminate|intros []].
  - destruct (String.eqb_spec k k') as [->|Hne].
    + split; [left; reflexivity|eauto].
    + rewrite IH. split; [auto|intros [E|H]; [congruence|exact H]].
Qed.

Lemma set_entries (P : string * V -> Prop) k v d :
  P (k, v) -> Forall P d -> Forall P (ODict.set k v d).
Proof.
  intros Hk. induction d as [|[k' v'] r IH]; cbn; intros Hd.
  - constructor; [exact Hk|constructor].
  - inversion Hd; subst. destruct (String.eqb_spec k k') as [->|Hne].
    + constructor; assumption.
    + constructor; [assumption|apply IH; assumption].
Qed.

Lemma get_of_entry k v d : NoDup (ODict.keys d) -> In (k, v) d -> ODict.get k d = Some v.
Proof.
  induction d as [|[k' v'] r IH]; cbn; [intros _ []|].
  intros Hn. apply NoDup_cons in Hn. destruct Hn as [Hk Hn].
  intros [E|Hin].
  - injection E as -> ->. rewrite String.eqb_refl. reflexivity.
  - destruct (String.eqb_spec k k') as [->|Hne]; [|apply IH; assumption].
    exfalso. apply Hk. apply list_elem_of_In. apply in_map_iff. exists (k', v). auto.
Qed.
End ODictShape.

Lemma keys_set_same {V W : Type} k (v : V) (w : W) d e :
  ODict.keys d = ODict.keys e -> ODict.keys (ODict.set k v d) = ODict.keys (ODict.set k w e).
Proof.
  intros H. destruct (in_dec string_dec k (ODict.keys d)) as [Hin|Hin].
  - rewrite !keys_set_in; [exact H|rewrite <- H|]; exact Hin.
  - rewrite !keys_set_new; [rewrite H; reflexivity|rewrite <- H|]; exact Hin.
Qed.

Lemma keys_set_prefix {V : Type} k (v : V) d :
  ODict.keys d `prefix_of` ODict.keys (ODict.set k v d).
Proof.
  destruct (in_dec string_dec k (ODict.keys d)) as [Hin|Hin].
  - rewrite keys_set_in by exact Hin. reflexivity.
  - rewrite keys_set_new by exact Hin. apply prefix_app_r. reflexivity.
Qed.

Lemma keys_set_nodup {V : Type} k (v : V) d :
  NoDup (ODict.keys d) -> NoDup (ODict.keys (ODict.set k v d)).
Proof.
  intros Hn. destruct (in_dec string_dec k (ODict.keys d)) as [Hin|Hin].
  - rewrite keys_set_in by exact Hin. exact Hn.
  - rewrite keys_set_new by exact Hin. apply NoDup_app. split; [exact Hn|]. split.
    + intros x Hx Hx'. apply list_elem_of_In in Hx. apply list_elem_of_singleton in Hx'.
      subst x. contradiction.
    + apply NoDup_singleton.
Qed.

Lemma cache_one_coherent t st m0 : coherent st -> coherent (cache_one t st m0).
Proof.
  intros (A & B & C). unfold coherent, cache_one. cbn. split; [|split].
  - apply keys_set_same, A.
  - apply keys_set_nodup, B.
  - apply set_entries; [reflexivity|exact C].
Qed.

Lemma grown_refl st : grown st st.
Proof. split; reflexivity. Qed.

Lemma grown_trans st1 st2 st3 : grown st1 st2 -> grown st2 st3 -> grown st1 st3.
Proof. intros [A1 B1] [A2 B2]. split; etransitivity; eassumption. Qed.

Lemma fetch_shape a st :
  grown st (_fetch_and_cache_all_markets a st) /\
  (coherent st -> coherent (_fetch_and_cache_all_markets a st)).
Proof.
  unfold _fetch_and_cache_all_markets.
  destruct (markets_response a) as [data|]; [|split; [apply grown_refl|auto]].
  revert st. induction data as [|m0 r IH]; intros st; cbn [fold_left];
    [split; [apply grown_refl|auto]|].
  destruct (IH (cache_one (current_time a) st m0)) as [G Ch]. split.
  - eapply grown_trans; [|exact G]. split; apply keys_set_prefix.
  - intros H. apply Ch, cache_one_coherent, H.
Qed.

End CacheShape.

Section CacheTheorems.
Import MarketUtils.
Variable py_float : PyVal.t -> option Q.

Lemma get_market_object_state now a st k :
  (get_market_object now a st k).1.2 = st \/
  (get_market_object now a st k).1.2 = _fetch_and_cache_all_markets a st.
Proof.
  unfold get_market_object.
  destruct (ODict.get k (_market_cache st)); [|right; reflexivity].
  destruct (ODict.get k (_cache_timestamps st)); [|right; reflexivity].
  destruct (_ && _); [left|right]; reflexivity.
Qed.

Lemma get_market_object_result now a st k :
  (get_market_object now a st k).1.1 = ODict.get k (_market_cache (get_market_object now a st k).1.2).
Proof.
  unfold get_market_object.
  destruct (ODict.get k (_market_cache st)) eqn:Ec; [|reflexivity].
  destruct (ODict.get k (_cache_timestamps st)); [|reflexivity].
  destruct (_ && _); [cbn; rewrite Ec|]; reflexivity.
Qed.

Lemma get_markets_state now a st top_n :
  (get_markets py_float now a st top_n).1.2 = st \/
  (get_markets py_float now a st top_n).1.2 = _fetch_and_cache_all_markets a st.
Proof.
  unfold get_markets.
  destruct (ODict.truthy (_market_cache st) && ODict.truthy (_cache_timestamps st)).
  - destruct (negb (any_fresh now 0 _)).
    + destruct (_ && _); [right; reflexivity|]. destruct top_n; right; reflexivity.
    + destruct (negb (ODict.truthy (_market_cache st))).
      * destruct (_ && _); [right; reflexivity|]. destruct top_n; right; reflexivity.
      * destruct (_ && _); [left; reflexivity|]. destruct top_n; left; reflexivity.
  - destruct (_ && _); [left; reflexivity|]. destruct top_n; left; reflexivity.
Qed.

Lemma get_markets_from_cache now a st top_n m :
  In m (get_markets py_float now a st top_n).1.1 ->
  In m (ODict.values (_market_cache (get_markets py_float now a st top_n).1.2)).
Proof.
  unfold get_markets.
  set (p := if ODict.truthy (_market_cache st) && ODict.truthy (_cache_timestamps st)
            then _ else _).
  destruct p as [st1 fetches]. 
  destruct (_ && _); [intros []|].
  destruct top_n as [n|]; cbn [fst snd]; [|auto].
  intros Hin. apply in_map_iff in Hin. destruct Hin as ([m' v] & <- & Hin). cbn.
  assert (Hs : In (m', v) (sort_desc (with_volume py_float (ODict.values (_market_cache st1))))).
  { unfold slice_to in Hin. destruct (0 <=? n);
      apply list_elem_of_In in Hin; apply list_elem_of_In;
      apply elem_of_take in Hin; destruct Hin as (i & Hi & _);
      exact (list_elem_of_lookup_2 _ _ _ Hi). }
  apply (Permutation_in _ (sort_desc_perm _)) in Hs.
  apply with_volume_In in Hs. tauto.
Qed.

(** X8. The two dictionaries of the cache stay in step.  Starting from the
    empty cache, after any call of [get_market_object] or [get_markets]
    they hold the same names in the same order, no name twice, and every
    market under its own name.  So a market returned by
    [get_market_object] has the name that was asked for, and every market
    returned by [get_markets] is the entry that the cache holds under its
    name. *)
Theorem X8_cache_stays_coherent :
  coherent init /\
  (forall now a st k,
     coherent st ->
     coherent (get_market_object now a st k).1.2 /\
     forall m, (get_market_object now a st k).1.1 = Some m -> name m = k) /\
  (forall now a st top_n,
     coherent st ->
     coherent (get_markets py_float now a st top_n).1.2 /\
     forall m, In m (get_markets py_float now a st top_n).1.1 ->
       ODict.get (name m) (_market_cache (get_markets py_float now a st top_n).1.2) = Some m).
Proof.
  assert (Hentry : forall st k m, coherent st -> In (k, m) (_market_cache st) -> name m = k).
  { intros st k m (_ & _ & F) Hin. rewrite Forall_forall in F.
    apply (F (k, m)). apply list_elem_of_In, Hin. }
  assert (Hget : forall st k m, ODict.get k (_market_cache st) = Some m -> In (k, m) (_market_cache st)).
  { intros st k m. generalize (_market_cache st) as d.
    induction d as [|[k' v'] r IH]; cbn; [discriminate|].
    destruct (String.eqb_spec k k') as [->|Hne]; [intros [= ->]; left; reflexivity|].
    intros H. right. apply IH, H. }
  split; [|split].
  - unfold coherent, init. cbn. split; [reflexivity|]. split; constructor.
  - intros now a st k Hc.
    assert (Hc' : coherent (get_market_object now a st k).1.2).
    { destruct (get_market_object_state now a st k) as [-> | ->];
        [exact Hc|apply fetch_shape, Hc]. }
    split; [exact Hc'|]. intros m Hm. rewrite get_market_object_result in Hm.
    exact (Hentry _ _ _ Hc' (Hget _ _ _ Hm)).
  - intros now a st top_n Hc.
    assert (Hc' : coherent (get_markets py_float now a st top_n).1.2).
    { destruct (get_markets_state now a st top_n) as [-> | ->];
        [exact Hc|apply fetch_shape, Hc]. }
    split; [exact Hc'|]. intros m Hm. apply get_markets_from_cache in Hm.
    unfold ODict.values in Hm. apply in_map_iff in Hm. destruct Hm as ([k m'] & E & Hin).
    cbn in E. subst m'. rewrite (Hentry _ _ _ Hc' Hin).
    apply get_of_entry; [apply Hc'|exact Hin].
Qed.

(** X9. The cache never forgets a market.  Whatever the venue answers, a
    call of [get_market_object] or of [get_markets] leaves every name that
    was cached in the cache, at its place in the order of the dictionary;
    new names come after them.  So a market that the venue has stopped
    listing is still returned by [get_markets]. *)
Theorem X9_cache_never_forgets :
  (forall a st, grown st (_fetch_and_cache_all_markets a st)) /\
  (forall now a st k k',
     grown st (get_market_object now a st k).1.2 /\
     (is_Some (ODict.get k' (_market_cache st)) ->
      is_Some (ODict.get k' (_market_cache (get_market_object now a st k).1.2)))) /\
  (forall now a st top_n k',
     grown st (get_markets py_float now a st top_n).1.2 /\
     (is_Some (ODict.get k' (_market_cache st)) ->
      is_Some (ODict.get k' (_market_cache (get_markets py_float now a st top_n).1.2)))).
Proof.
  assert (Hkeep : forall st st' k', grown st st' ->
            is_Some (ODict.get k' (_market_cache st)) ->
            is_Some (ODict.get k' (_market_cache st'))).
  { intros st st' k' [[l Hl] _]. rewrite !get_in_keys, Hl, in_app_iff. auto. }
  split; [intros a st; apply fetch_shape|]. split.
  - intros now a st k k'.
    assert (G : grown st (get_market_object now a st k).1.2).
    { destruct (get_market_object_state now a st k) as [-> | ->];
        [apply grown_refl|apply fetch_shape]. }
    split; [exact G|apply Hkeep, G].
  - intros now a st top_n k'.
    assert (G : grown st (get_markets py_float now a st top_n).1.2).
    { destruct (get_markets_state now a st top_n) as [-> | ->];
        [apply grown_refl|apply fetch_shape]. }
    split; [exact G|apply Hkeep, G].
Qed.

(** X10. Nothing is remembered about a market that the venue does not list.
    When the answer of the venue does not hold the market (or the venue
    does not answer) and the cache has no entry for it younger than the
    time-to-live, [get_market_object] makes a bulk fetch and returns what
    the cache held for the name before, the old object or nothing; the
    entry and its timestamp are as they were, so the next call fetches
    again. *)
Theorem X10_unlisted_market_is_fetched_each_time now a st k :
  (forall data, markets_response a = Some data -> forall x, In x data -> name x <> k) ->
  ~ fresh_entry now st k ->
  get_market_object now a st k
  = (ODict.get k (_market_cache st), _fetch_and_cache_all_markets a st, 1%nat) /\
  ODict.get k (_market_cache (_fetch_and_cache_all_markets a st)) = ODict.get k (_market_cache st) /\
  ODict.get k (_cache_timestamps (_fetch_and_cache_all_markets a st))
  = ODict.get k (_cache_timestamps st) /\
  forall now', (now <= now')%Q -> ~ fresh_entry now' (_fetch_and_cache_all_markets a st) k.
Proof.
  intros Hun Hstale.
  assert (Hsame : ODict.get k (_market_cache (_fetch_and_cache_all_markets a st))
                  = ODict.get k (_market_cache st) /\
                  ODict.get k (_cache_timestamps (_fetch_and_cache_all_markets a st))
                  = ODict.get k (_cache_timestamps st)).
  { destruct (fetch_bulk_refreshed a st) as [H1 H2].
    destruct (markets_response a) as [data|] eqn:E.
    - destruct (H1 data eq_refl) as [_ H]. apply H. apply (Hun data eq_refl).
    - rewrite (H2 eq_refl). auto. }
  destruct Hsame as [Hc Ht]. split; [|split; [exact Hc|split; [exact Ht|]]].
  - unfold get_market_object. cbn zeta. rewrite Hc.
    destruct (ODict.get k (_market_cache st)) as [m|] eqn:Ec; [|reflexivity].
    destruct (ODict.get k (_cache_timestamps st)) as [ts|] eqn:Ets; [|reflexivity].
    destruct (truthy_float ts && Qltb (now - ts) CACHE_DURATION_SECONDS) eqn:E; [|reflexivity].
    exfalso. apply Hstale. apply andb_true_iff in E. destruct E as [_ E]. apply Qltb_lt in E.
    exists m, ts. auto.
  - intros now' Hle (m & ts & Hm & Hts & Hf). apply Hstale.
    rewrite Hc in Hm. rewrite Ht in Hts. exists m, ts. split; [exact Hm|]. split; [exact Hts|].
    eapply Qle_lt_trans; [|exact Hf].
    unfold Qminus. apply Qplus_le_l. exact Hle.
Qed.

End CacheTheorems.

(** A first lookup fills the empty cache; the cache is coherent, and the
    market found has the name asked for. *)
Lemma X8_cache_stays_coherent_witness :
  coherent MarketUtils.init /\
  (MarketUtils.get_market_object Sample.soon Sample.venue MarketUtils.init "BTC-USD").1.2
  = Sample.cached /\
  coherent Sample.cached /\
  (MarketUtils.get_market_object Sample.soon Sample.venue Sample.cached "ETH-USD").1.1
  = Some Sample.eth /\
  MarketUtils.name Sample.eth = "ETH-USD".
Proof.
  pose proof (X8_cache_stays_coherent MarketUtils.exact_float) as (H0 & Hobj & _).
  assert (Hc : (MarketUtils.get_market_object Sample.soon Sample.venue MarketUtils.init
                  "BTC-USD").1.2 = Sample.cached) by (vm_compute; reflexivity).
  assert (He : (MarketUtils.get_market_object Sample.soon Sample.venue Sample.cached
                  "ETH-USD").1.1 = Some Sample.eth) by (vm_compute; reflexivity).
  assert (Hco : coherent Sample.cached).
  { rewrite <- Hc. exact (proj1 (Hobj Sample.soon Sample.venue MarketUtils.init "BTC-USD" H0)). }
  split; [exact H0|]. split; [exact Hc|]. split; [exact Hco|]. split; [exact He|].
  exact (proj2 (Hobj Sample.soon Sample.venue Sample.cached "ETH-USD" Hco) Sample.eth He).
Defined.

(** The venue is down when the entries have grown old: DOGE is still in
    the cache. *)
Lemma X9_cache_never_forgets_witness :
  is_Some (ODict.get "DOGE-USD" (MarketUtils._market_cache Sample.cached)) /\
  is_Some (ODict.get "DOGE-USD"
             (MarketUtils._market_cache
                (MarketUtils.get_markets MarketUtils.exact_float (fun _ => Sample.late)
                   Sample.venue_down Sample.cached None).1.2)).
Proof.
  assert (H : is_Some (ODict.get "DOGE-USD" (MarketUtils._market_cache Sample.cached)))
    by (exists Sample.doge; vm_compute; reflexivity).
  split; [exact H|].
  exact (proj2 (proj2 (proj2 (X9_cache_never_forgets MarketUtils.exact_float))
                  (fun _ => Sample.late) Sample.venue_down Sample.cached None "DOGE-USD") H).
Defined.

(** XRP is not listed; the lookup fetches and finds nothing. *)
Lemma X10_unlisted_market_is_fetched_each_time_witness :
  ~ fresh_entry Sample.soon Sample.cached "XRP-USD" /\
  MarketUtils.get_market_object Sample.soon Sample.venue Sample.cached "XRP-USD"
  = (ODict.get "XRP-USD" (MarketUtils._market_cache Sample.cached),
     MarketUtils._fetch_and_cache_all_markets Sample.venue Sample.cached, 1%nat) /\
  ~ fresh_entry Sample.late
      (MarketUtils._fetch_and_cache_all_markets Sample.venue Sample.cached) "XRP-USD".
Proof.
  assert (Hl : forall data, MarketUtils.markets_response Sample.venue = Some data ->
                 forall x, In x data -> MarketUtils.name x <> "XRP-USD"%string).
  { intros data [= <-] x [<-|[<-|[<-|[<-|[]]]]]; vm_compute; discriminate. }
  assert (Hf : ~ fresh_entry Sample.soon Sample.cached "XRP-USD").
  { intros (mk & ts & H & _). vm_compute in H. discriminate. }
  assert (Hle : (Sample.soon <= Sample.late)%Q) by (vm_compute; discriminate).
  pose proof (X10_unlisted_market_is_fetched_each_time Sample.soon Sample.venue Sample.cached
                "XRP-USD" Hl Hf) as (A & _ & _ & B).
  split; [exact Hf|]. split; [exact A|exact (B Sample.late Hle)].
Defined.

Section EmptyCache.
Import MarketUtils TradingCLI.
Variable py_float : PyVal.t -> option Q.

(** X11. Markets before any lookup.  [get_markets] never fills an empty
    cache: with no market cached it returns the empty list without asking
    the venue, whatever the venue lists, and [show_markets] prints an empty
    table.  The cache is filled by [get_market_object] only, which on an
    empty cache always asks the venue. *)
Theorem X11_markets_of_an_empty_cache now a st top_n :
  _market_cache st = [] ->
  get_markets py_float now a st top_n = ([], st, 0%nat) /\
  show_markets py_float now a st top_n = ([], true, st) /\
  forall t k,
    get_market_object t a st k
    = (ODict.get k (_market_cache (_fetch_and_cache_all_markets a st)),
       _fetch_and_cache_all_markets a st, 1%nat).
Proof.
  intros He.
  assert (Hg : get_markets py_float now a st top_n = ([], st, 0%nat)).
  { unfold get_markets. rewrite He. cbn. rewrite He. reflexivity. }
  split; [exact Hg|]. split.
  - unfold show_markets, markets_to_display. rewrite Hg. cbn.
    destruct top_n as [k|]; [|reflexivity].
    unfold slice_to. destruct (0 <=? k); cbn; rewrite take_nil; reflexivity.
  - intros t k. unfold get_market_object. rewrite He. reflexivity.
Qed.

End EmptyCache.

(** The table of markets before any lookup. *)
Lemma X11_markets_of_an_empty_cache_witness :
  MarketUtils._market_cache MarketUtils.init = [] /\
  MarketUtils.get_markets MarketUtils.exact_float (fun _ => Sample.soon) Sample.venue
    MarketUtils.init (Some 10)
  = ([], MarketUtils.init, 0%nat) /\
  TradingCLI.show_markets MarketUtils.exact_float (fun _ => Sample.soon) Sample.venue
    MarketUtils.init (Some 10)
  = ([], true, MarketUtils.init).
Proof.
  assert (H : MarketUtils._market_cache MarketUtils.init = []) by reflexivity.
  pose proof (X11_markets_of_an_empty_cache MarketUtils.exact_float (fun _ => Sample.soon)
                Sample.venue MarketUtils.init (Some 10) H) as (A & B & _).
  split; [exact H|]. split; [exact A|exact B].
Defined.

(* ===================================================================== *)
(** ** Further facts about the strategy                                  *)
(* ===================================================================== *)

Section QuoteFacts.
Import BestOrder.
Variable place_order : order -> placement.

Lemma handler_not_quote market e ef :
  failure_of (handler market e ef) <> Some QuoteUnavailable.
Proof. destruct (handler_kind market e ef) as [_ [H|[H|H]]]; rewrite H; discriminate. Qed.

Lemma place_log_no_quote tc market side amount price lg :
  (forall msg, In msg lg -> failure_of msg <> Some QuoteUnavailable) ->
  forall msg,
    In msg (log (place place_order tc market side amount price lg).2) ->
    failure_of msg <> Some QuoteUnavailable.
Proof.
  intros Hlg msg. unfold place.
  destruct (sizes tc amount price) as [[mn qty]|e]; [|apply Hlg].
  destruct (Decimal.ltb qty mn).
  - cbn. rewrite in_app_iff. intros [H|[<-|[]]]; [apply Hlg, H|discriminate].
  - destruct (place_order _) as [id|em]; cbn; rewrite in_app_iff;
      (intros [H|H]; [apply Hlg, H|]).
    + destruct H as [<-|[<-|[]]]; discriminate.
    + destruct H as [<-|[]]; discriminate.
Qed.

(** With a quote whose two prices are truthy, no record of the run is of
    the kind QuoteUnavailable. *)
Lemma priced_no_quote_failure now api mu prov market side amount qt :
  Provider.get_best_bid_ask prov market = Some qt -> priced qt ->
  forall msg,
    In msg (log (eff (execute place_order now api mu prov market side amount))) ->
    failure_of msg <> Some QuoteUnavailable.
Proof.
  intros Hq [Hb Ha] msg. rewrite execute_unfold.
  set (mc := (MarketUtils.get_market_object now api mu market).1.1).
  assert (Hbody : forall m, In m (log (body place_order mc prov market side amount).2) ->
                            failure_of m <> Some QuoteUnavailable).
  { intros m. unfold body.
    destruct mc as [c|]; [|cbn; intros [<-|[]]; discriminate].
    destruct (MarketUtils.trading_config c) as [tc|]; [|cbn; intros [<-|[]]; discriminate].
    rewrite Hq. unfold with_price. rewrite Hb, Ha.
    destruct (is_buy side).
    - destruct (PyVal.to_decimal _) as [price|e]; [|intros []].
      apply place_log_no_quote. intros x [<-|[]]. discriminate.
    - destruct (is_sell side); [|cbn; intros [<-|[]]; discriminate].
      destruct (PyVal.to_decimal _) as [price|e]; [|intros []].
      apply place_log_no_quote. intros x [<-|[]]. discriminate. }
  destruct (body place_order mc prov market side amount) as [[v|e] ef]; cbn in *.
  - apply Hbody.
  - rewrite in_app_iff. intros [H|[<-|[]]]; [apply Hbody, H|apply handler_not_quote].
Qed.

(** X12. A run fails for want of a quote only when there is none.  On a
    provider reached by any run from the start, a run of [execute] whose
    failure is of the kind QuoteUnavailable found no quote for the market,
    and its only error record is the one that says that real-time data
    are not available for it: a quote that is there is never turned down
    for a missing price. *)
Theorem X12_quote_failure_means_no_quote evs prov now api mu market side amount :
  Provider.run evs Provider.init = Some prov ->
  failure_kind (execute place_order now api mu prov market side amount)
  = Some QuoteUnavailable ->
  Provider.get_best_bid_ask prov market = None /\
  errors (execute place_order now api mu prov market side amount)
  = [RealtimeDataNotAvailable market].
Proof.
  intros Hr Hk.
  destruct (Provider.get_best_bid_ask prov market) as [qt|] eqn:Hq.
  - exfalso.
    assert (Hp : priced qt).
    { refine (run_priced _ _ _ Hr _ _ _ Hq).
      intros mk q; cbn; rewrite lookup_empty; discriminate. }
    pose proof (outcome_cases place_order now api mu prov market side amount) as Ho.
    cbn zeta in Ho.
    destruct (returned _) as [id|].
    + destruct Ho as (_ & Hn & _). congruence.
    + destruct Ho as (msg & k & He & Hl & Hf & Hk').
      assert (Hin : In msg (log (eff (execute place_order now api mu prov market side amount)))).
      { destruct (log _) as [|x l] using rev_ind; [discriminate|].
        rewrite last_snoc in Hl. injection Hl as ->. apply in_app_iff. right. left. reflexivity. }
      apply (priced_no_quote_failure _ _ _ _ _ _ _ _ Hq Hp _ Hin). congruence.
  - split; [reflexivity|]. revert Hk. unfold errors, failure_kind.
    rewrite execute_unfold.
    destruct (config_of now api mu market) as [tc|] eqn:Hc.
    + rewrite (body_config _ _ _ _ _ _ _ _ _ Hc), Hq. reflexivity.
    + rewrite (body_no_config _ _ _ _ _ _ _ _ Hc). cbn. discriminate.
Qed.
End QuoteFacts.

(** SOL is in the metadata and has no stream. *)
Lemma X12_quote_failure_means_no_quote_witness :
  Provider.run Sample.first_messages Provider.init = Some Sample.streaming /\
  BestOrder.failure_kind
    (BestOrder.execute Sample.accept Sample.soon Sample.venue Sample.cached Sample.streaming
       "SOL-USD" "buy" (Sample.dec 1000 0))
  = Some BestOrder.QuoteUnavailable /\
  Provider.get_best_bid_ask Sample.streaming "SOL-USD" = None /\
  errors (BestOrder.execute Sample.accept Sample.soon Sample.venue Sample.cached
            Sample.streaming "SOL-USD" "buy" (Sample.dec 1000 0))
  = [BestOrder.RealtimeDataNotAvailable "SOL-USD"].
Proof.
  assert (Hr : Provider.run Sample.first_messages Provider.init = Some Sample.streaming)
    by (vm_compute; reflexivity).
  assert (Hk : BestOrder.failure_kind
                 (BestOrder.execute Sample.accept Sample.soon Sample.venue Sample.cached
                    Sample.streaming "SOL-USD" "buy" (Sample.dec 1000 0))
               = Some BestOrder.QuoteUnavailable) by (vm_compute; reflexivity).
  split; [exact Hr|]. split; [exact Hk|].
  exact (X12_quote_failure_means_no_quote Sample.accept Sample.first_messages Sample.streaming
           Sample.soon Sample.venue Sample.cached "SOL-USD" "buy" (Sample.dec 1000 0) Hr Hk).
Defined.

Section QuantityFacts.
Import BestOrder.

(** Rounding to nearest does not cross zero. *)
Lemma nearest_nonpos x e q : nearest_at x e q -> (x <= 0)%Q -> (Decimal.to_Q q <= 0)%Q.
Proof.
  intros (He & Hle & _) Hx. unfold Decimal.to_Q in *. rewrite He in *.
  pose proof (ten_pow_pos e) as Ht. set (t := Qpower 10 e) in *.
  set (n := Decimal.signed q) in *.
  assert (H1 : (inject_Z n * t - x <= (1#2) * t)%Q).
  { eapply Qle_trans; [apply Qle_Qabs|exact Hle]. }
  assert (H2 : (inject_Z n * t <= (1#2) * t)%Q).
  { apply Qle_trans with (inject_Z n * t - x)%Q; [|exact H1].
    rewrite <- (Qplus_0_r (inject_Z n * t)) at 1. unfold Qminus.
    apply Qplus_le_r. change 0%Q with (- 0)%Q. apply Qopp_le_compat. exact Hx. }
  apply Qmult_le_r in H2; [|exact Ht].
  assert (Hn : n <= 0) by (unfold Qle, inject_Z in H2; simpl in H2; lia).
  rewrite <- (Qmult_0_l t). apply Qmult_le_r; [exact Ht|].
  unfold Qle, inject_Z; simpl. lia.
Qed.

Lemma quotient_nonpos a b : (a <= 0)%Q -> (0 < b)%Q -> (a / b <= 0)%Q.
Proof.
  intros Ha Hb. apply Qle_shift_div_r; [exact Hb|]. rewrite Qmult_0_l. exact Ha.
Qed.

Section WithClient.
Variable place_order : order -> placement.

(** X13. No order is sent for a notional that is zero or negative: when the
    minimum size of the market is positive and the reference price is
    positive, the quantity comes out zero or negative and the run ends
    with nothing sent. *)
Theorem X13_no_order_for_a_nonpositive_amount now api mu prov market side amount tc qt mn :
  config_of now api mu market = Some tc ->
  Provider.get_best_bid_ask prov market = Some qt ->
  PyVal.to_decimal (MarketUtils.min_order_size tc) = Decimal.Ok mn ->
  (0 < Decimal.to_Q mn)%Q ->
  (forall price, reference_price side qt = Some price -> (0 < Decimal.to_Q price)%Q) ->
  (Decimal.to_Q amount <= 0)%Q ->
  let r := execute place_order now api mu prov market side amount in
  sent (eff r) = [] /\ returned r = None.
Proof.
  intros Hc Hq Hmn Hpos Hprice Ham. cbn zeta.
  assert (Hs : sent (eff (execute place_order now api mu prov market side amount)) = []).
  { pose proof (sent_cases place_order now api mu prov market side amount tc qt Hc Hq) as S.
    cbn zeta in S.
    destruct (reference_price side qt) as [price|] eqn:Hp; [|exact S].
    destruct (sizes tc amount price) as [[mn' qty]|e] eqn:Hsz; [|exact S].
    destruct (sizes_inv _ _ _ _ _ Hsz) as (step & ratio & H1 & H2 & H3 & H4).
    assert (mn' = mn) by congruence. subst mn'.
    assert (Hratio : (Decimal.to_Q ratio <= 0)%Q).
    { destruct (div_rounds _ _ _ H3) as (_ & Hn & _).
      apply (nearest_nonpos _ _ _ Hn). apply quotient_nonpos; [exact Ham|].
      apply Hprice. reflexivity. }
    assert (Hqty : (Decimal.to_Q qty <= 0)%Q).
    { apply (nearest_nonpos _ _ _ (quantize_nearest _ _ _ H4)), Hratio. }
    assert (Hlt : Decimal.ltb qty mn = true).
    { apply ltb_spec. eapply Qle_lt_trans; [exact Hqty|exact Hpos]. }
    rewrite Hlt in S. exact S. }
  split; [exact Hs|].
  pose proof (outcome_cases place_order now api mu prov market side amount) as Ho.
  cbn zeta in Ho. destruct (returned _) as [id|]; [|reflexivity].
  destruct Ho as (_ & _ & o & Ho & _). rewrite Hs in Ho. discriminate.
Qed.

(** X14. What every order carries, whatever the size step: the only order
    of the run, post-only, with a quantity that has the exponent of the
    size step (as many decimals as the step is written with), that is the
    rounding half-even, at this exponent, of the 28-digit quotient of the
    notional by the price, and that is not below the minimum size. *)
Theorem X14_quantity_has_the_exponent_of_the_step now api mu prov market side amount tc o :
  config_of now api mu market = Some tc ->
  In o (sent (eff (execute place_order now api mu prov market side amount))) ->
  exists step mn ratio,
    PyVal.to_decimal (MarketUtils.min_order_size_change tc) = Decimal.Ok step /\
    PyVal.to_decimal (MarketUtils.min_order_size tc) = Decimal.Ok mn /\
    rounded_to_prec (Decimal.to_Q amount / Decimal.to_Q (price o)) ratio /\
    Decimal.exp (amount_of_synthetic o) = Decimal.exp step /\
    nearest_at (Decimal.to_Q ratio) (Decimal.exp step) (amount_of_synthetic o) /\
    (Decimal.to_Q mn <= Decimal.to_Q (amount_of_synthetic o))%Q.
Proof.
  intros Hc Ho.
  destruct (Provider.get_best_bid_ask prov market) as [qt|] eqn:Hq.
  2:{ exfalso. revert Ho. rewrite execute_unfold, (body_config _ _ _ _ _ _ _ _ _ Hc), Hq.
      intros []. }
  pose proof (sent_cases place_order now api mu prov market side amount tc qt Hc Hq) as S.
  cbn zeta in S.
  destruct (reference_price side qt) as [p|]; [|rewrite S in Ho; destruct Ho].
  destruct (sizes tc amount p) as [[mn qty]|e] eqn:Hsz; [|rewrite S in Ho; destruct Ho].
  destruct (Decimal.ltb qty mn) eqn:Hlt; [rewrite S in Ho; destruct Ho|].
  rewrite S in Ho. destruct Ho as [<-|[]]. cbn [price amount_of_synthetic].
  destruct (sizes_inv _ _ _ _ _ Hsz) as (step & ratio & H1 & H2 & H3 & H4).
  exists step, mn, ratio. split; [exact H2|]. split; [exact H1|].
  split; [apply (div_rounds _ _ _ H3)|].
  pose proof (quantize_nearest _ _ _ H4) as Hn.
  split; [apply Hn|]. split; [exact Hn|].
  apply Qnot_lt_le. intros L. apply ltb_spec in L. congruence.
Qed.
End WithClient.
End QuantityFacts.

(** A buy of BTC for nothing, and for less than nothing. *)
Lemma X13_no_order_for_a_nonpositive_amount_witness :
  config_of Sample.soon Sample.venue Sample.cached "BTC-USD"
    = Some (MarketUtils.TradingConfig (Sample.num 1 0) (Sample.num 1 (-2))) /\
  Provider.get_best_bid_ask Sample.streaming "BTC-USD" = Some (Sample.book "100" "101") /\
  (Decimal.to_Q (Decimal.Dec true 5 0) <= 0)%Q /\
  BestOrder.sent (BestOrder.eff
    (BestOrder.execute Sample.accept Sample.soon Sample.venue Sample.cached Sample.streaming
       "BTC-USD" "buy" (Decimal.Dec true 5 0))) = [] /\
  BestOrder.returned
    (BestOrder.execute Sample.accept Sample.soon Sample.venue Sample.cached Sample.streaming
       "BTC-USD" "buy" (Decimal.Dec true 5 0)) = None.
Proof.
  assert (Hc : config_of Sample.soon Sample.venue Sample.cached "BTC-USD"
               = Some (MarketUtils.TradingConfig (Sample.num 1 0) (Sample.num 1 (-2))))
    by (vm_compute; reflexivity).
  assert (Hq : Provider.get_best_bid_ask Sample.streaming "BTC-USD"
               = Some (Sample.book "100" "101")) by (vm_compute; reflexivity).
  assert (Hm : PyVal.to_decimal
                 (MarketUtils.min_order_size
                    (MarketUtils.TradingConfig (Sample.num 1 0) (Sample.num 1 (-2))))
               = Decimal.Ok (Sample.dec 1 0)) by (vm_compute; reflexivity).
  assert (Hp : (0 < Decimal.to_Q (Sample.dec 1 0))%Q) by (vm_compute; reflexivity).
  assert (Hpr : forall price, reference_price "buy" (Sample.book "100" "101") = Some price ->
                  (0 < Decimal.to_Q price)%Q).
  { intros price H. vm_compute in H. injection H as <-. vm_compute; reflexivity. }
  assert (Ha : (Decimal.to_Q (Decimal.Dec true 5 0) <= 0)%Q) by (vm_compute; discriminate).
  split; [exact Hc|]. split; [exact Hq|]. split; [exact Ha|].
  exact (X13_no_order_for_a_nonpositive_amount Sample.accept Sample.soon Sample.venue
           Sample.cached Sample.streaming "BTC-USD" "buy" (Decimal.Dec true 5 0)
           _ _ _ Hc Hq Hm Hp Hpr Ha).
Defined.

(** A size step of 10: the quantity 3333 has the exponent of the step, and
    is the quotient 3333.33... rounded to units. *)
Lemma X14_quantity_has_the_exponent_of_the_step_witness :
  let o := BestOrder.Order "DOGE-USD" (Sample.dec 3333 0) (Sample.dec 3 (-1)) BestOrder.BUY true in
  config_of Sample.soon Sample.venue Sample.cached "DOGE-USD"
    = Some (MarketUtils.TradingConfig (Sample.num 10 0) (Sample.num 10 0)) /\
  BestOrder.sent (BestOrder.eff
    (BestOrder.execute Sample.accept Sample.soon Sample.venue Sample.cached Sample.streaming
       "DOGE-USD" "buy" (Sample.dec 1000 0))) = [o] /\
  exists ratio,
    rounded_to_prec (Decimal.to_Q (Sample.dec 1000 0) / Decimal.to_Q (Sample.dec 3 (-1))) ratio /\
    Decimal.exp (Sample.dec 3333 0) = Decimal.exp (Sample.dec 10 0) /\
    nearest_at (Decimal.to_Q ratio) (Decimal.exp (Sample.dec 10 0)) (Sample.dec 3333 0) /\
    (Decimal.to_Q (Sample.dec 10 0) <= Decimal.to_Q (Sample.dec 3333 0))%Q.
Proof.
  intros o.
  assert (Hc : config_of Sample.soon Sample.venue Sample.cached "DOGE-USD"
               = Some (MarketUtils.TradingConfig (Sample.num 10 0) (Sample.num 10 0)))
    by (vm_compute; reflexivity).
  assert (Hs : BestOrder.sent (BestOrder.eff
                 (BestOrder.execute Sample.accept Sample.soon Sample.venue Sample.cached
                    Sample.streaming "DOGE-USD" "buy" (Sample.dec 1000 0))) = [o])
    by (vm_compute; reflexivity).
  assert (Hin : In o (BestOrder.sent (BestOrder.eff
                 (BestOrder.execute Sample.accept Sample.soon Sample.venue Sample.cached
                    Sample.streaming "DOGE-USD" "buy" (Sample.dec 1000 0)))))
    by (rewrite Hs; left; reflexivity).
  split; [exact Hc|]. split; [exact Hs|].
  destruct (X14_quantity_has_the_exponent_of_the_step Sample.accept Sample.soon Sample.venue
              Sample.cached Sample.streaming "DOGE-USD" "buy" (Sample.dec 1000 0) _ o Hc Hin)
    as (step & mn & ratio & Hst & Hmn & R & E & Nr & Le).
  assert (Es : step = Sample.dec 10 0) by (vm_compute in Hst; injection Hst as <-; reflexivity).
  assert (Em : mn = Sample.dec 10 0) by (vm_compute in Hmn; injection Hmn as <-; reflexivity).
  subst step mn. exists ratio. split; [exact R|]. split; [exact E|]. split; [exact Nr|exact Le].
Defined.

Section NumberFacts.
Import BestOrder.
Variable place_order : order -> placement.

Lemma sizes_zero_price tc amount price :
  Decimal.coeff price = 0%N -> exists e, sizes tc amount price = Decimal.Raise e.
Proof.
  intros H0. unfold sizes.
  destruct (PyVal.to_decimal (MarketUtils.min_order_size tc)); [|eauto].
  destruct (PyVal.to_decimal (MarketUtils.min_order_size_change tc)); [|eauto].
  unfold Decimal.div. rewrite H0. cbn [Z.of_N]. change (0 =? 0) with true. cbv iota.
  destruct (Z.of_N (Decimal.coeff amount) =? 0); eauto.
Qed.

(** X15. Numbers that cannot be used.  With metadata and a quote at hand,
    a valid side and a truthy price: when the text of the price is no
    number (and denotes no infinity and no NaN), the constructor of
    [Decimal] raises inside the [try]; and when the price is a number, the
    texts of the two sizes denote no infinity and no NaN, and reading the
    sizes, the division or the quantization raises, so does the [try].
    In both cases the handler catches the exception: nothing is sent,
    nothing is returned and the only error record is the
    unexpected-error one with the text of the decimal exception.  A price
    of zero always ends so, with an unclassified failure. *)
Theorem X15_unusable_numbers now api mu prov market side amount tc qt :
  config_of now api mu market = Some tc ->
  Provider.get_best_bid_ask prov market = Some qt ->
  is_buy side = true \/ is_sell side = true ->
  PyVal.truthy (price_field side qt) = true ->
  let r := execute place_order now api mu prov market side amount in
  (forall e,
     PyVal.special (price_field side qt) = false ->
     PyVal.to_decimal (price_field side qt) = Decimal.Raise e ->
     sent (eff r) = [] /\ returned r = None /\
     errors r = [UnexpectedError (str_exn (DecimalException e))] /\
     failure_kind r = Some UnclassifiedExecutionFailure) /\
  (forall e price,
     PyVal.to_decimal (price_field side qt) = Decimal.Ok price ->
     PyVal.special (MarketUtils.min_order_size tc) = false ->
     PyVal.special (MarketUtils.min_order_size_change tc) = false ->
     sizes tc amount price = Decimal.Raise e ->
     sent (eff r) = [] /\ returned r = None /\
     errors r = [UnexpectedError (str_exn (DecimalException e))] /\
     failure_kind r = Some UnclassifiedExecutionFailure) /\
  (forall price,
     PyVal.to_decimal (price_field side qt) = Decimal.Ok price ->
     Decimal.coeff price = 0%N ->
     sent (eff r) = [] /\ returned r = None /\
     failure_kind r = Some UnclassifiedExecutionFailure).
Proof.
  intros Hc Hq Hside Htruthy. cbn zeta.
  assert (Hsell : is_buy side = false -> is_sell side = true)
    by (intros E; destruct Hside; congruence).
  assert (Hmain : forall e,
     PyVal.to_decimal (price_field side qt) = Decimal.Raise e \/
     (exists price, PyVal.to_decimal (price_field side qt) = Decimal.Ok price /\
                    sizes tc amount price = Decimal.Raise e) ->
     sent (eff (execute place_order now api mu prov market side amount)) = [] /\
     returned (execute place_order now api mu prov market side amount) = None /\
     errors (execute place_order now api mu prov market side amount)
     = [UnexpectedError (str_exn (DecimalException e))] /\
     failure_kind (execute place_order now api mu prov market side amount)
     = Some UnclassifiedExecutionFailure).
  { intros e He. unfold errors, failure_kind. rewrite execute_unfold.
    rewrite (body_config _ _ _ _ _ _ _ _ _ Hc), Hq.
    unfold with_price. unfold price_field in *.
    destruct (is_buy side) eqn:Eb; [|rewrite (Hsell eq_refl)]; rewrite Htruthy.
    - destruct He as [He|(price & He & Hs)]; rewrite He.
      + rewrite handler_decimal. cbn. auto.
      + unfold place. rewrite Hs. rewrite handler_decimal. cbn. auto.
    - destruct He as [He|(price & He & Hs)]; rewrite He.
      + rewrite handler_decimal. cbn. auto.
      + unfold place. rewrite Hs. rewrite handler_decimal. cbn. auto. }
  split; [|split].
  - intros e _ He. apply Hmain. left. exact He.
  - intros e price Hp _ _ Hs. apply Hmain. right. exists price. auto.
  - intros price Hp H0. destruct (sizes_zero_price tc amount price H0) as [e He].
    destruct (Hmain e) as (A & B & _ & D); [right; eauto|]. auto.
Qed.

(** X16. The age of a quote plays no part.  A run reads the bid and the ask
    price of the quote and nothing else of the provider: with the same two
    prices, whatever the timestamps and the quantities of the quotes and
    whatever else the providers hold, the runs are the same. *)
Theorem X16_only_the_prices_are_read now api mu prov prov' market side amount :
  option_map (fun qt => (Provider.bid_price qt, Provider.ask_price qt))
             (Provider.get_best_bid_ask prov market)
  = option_map (fun qt => (Provider.bid_price qt, Provider.ask_price qt))
               (Provider.get_best_bid_ask prov' market) ->
  execute place_order now api mu prov market side amount
  = execute place_order now api mu prov' market side amount.
Proof.
  intros H. rewrite !execute_unfold.
  assert (Hbody : body place_order (MarketUtils.get_market_object now api mu market).1.1
                       prov market side amount
                  = body place_order (MarketUtils.get_market_object now api mu market).1.1
                         prov' market side amount).
  { unfold body. destruct (_.1.1) as [mc|]; [|reflexivity].
    destruct (MarketUtils.trading_config mc) as [tc|]; [|reflexivity].
    destruct (Provider.get_best_bid_ask prov market) as [qt|],
             (Provider.get_best_bid_ask prov' market) as [qt'|]; cbn in H;
      try discriminate; [|reflexivity].
    injection H as Hb Ha. unfold with_price. rewrite Hb, Ha. reflexivity. }
  rewrite Hbody. reflexivity.
Qed.

End NumberFacts.

(** A bid that is no number, and an ask of zero. *)
Lemma X15_unusable_numbers_witness :
  let qt := Provider.Quote (PyVal.PyStr "abc") (PyVal.PyStr "2") (PyVal.PyStr "0")
              (PyVal.PyStr "3") (Sample.num 1700000000000 0) in
  let buy := BestOrder.execute Sample.accept Sample.soon Sample.venue Sample.cached
               Sample.garbled "BTC-USD" "buy" (Sample.dec 1000 0) in
  let sell := BestOrder.execute Sample.accept Sample.soon Sample.venue Sample.cached
                Sample.garbled "BTC-USD" "sell" (Sample.dec 1000 0) in
  Provider.get_best_bid_ask Sample.garbled "BTC-USD" = Some qt /\
  PyVal.special (PyVal.PyStr "abc") = false /\
  PyVal.to_decimal (PyVal.PyStr "abc") = Decimal.Raise Decimal.ConversionSyntax /\
  (BestOrder.sent (BestOrder.eff buy) = [] /\ BestOrder.returned buy = None /\
   errors buy = [BestOrder.UnexpectedError
                   (BestOrder.str_exn (BestOrder.DecimalException Decimal.ConversionSyntax))] /\
   BestOrder.failure_kind buy = Some BestOrder.UnclassifiedExecutionFailure) /\
  (BestOrder.sent (BestOrder.eff sell) = [] /\ BestOrder.returned sell = None /\
   BestOrder.failure_kind sell = Some BestOrder.UnclassifiedExecutionFailure).
Proof.
  intros qt buy sell.
  assert (Hc : config_of Sample.soon Sample.venue Sample.cached "BTC-USD"
               = Some (MarketUtils.TradingConfig (Sample.num 1 0) (Sample.num 1 (-2))))
    by (vm_compute; reflexivity).
  assert (Hq : Provider.get_best_bid_ask Sample.garbled "BTC-USD" = Some qt)
    by (vm_compute; reflexivity).
  assert (Hs : PyVal.special (PyVal.PyStr "abc") = false) by (vm_compute; reflexivity).
  assert (Hd : PyVal.to_decimal (PyVal.PyStr "abc") = Decimal.Raise Decimal.ConversionSyntax)
    by (vm_compute; reflexivity).
  split; [exact Hq|]. split; [exact Hs|]. split; [exact Hd|]. split.
  - exact (proj1 (X15_unusable_numbers Sample.accept Sample.soon Sample.venue Sample.cached
                    Sample.garbled "BTC-USD" "buy" (Sample.dec 1000 0) _ qt Hc Hq
                    (or_introl eq_refl) eq_refl)
             Decimal.ConversionSyntax Hs Hd).
  - exact (proj2 (proj2 (X15_unusable_numbers Sample.accept Sample.soon Sample.venue
                    Sample.cached Sample.garbled "BTC-USD" "sell" (Sample.dec 1000 0) _ qt Hc Hq
                    (or_intror eq_refl) eq_refl))
             (Sample.dec 0 0) eq_refl eq_refl).
Defined.

(** The BTC connection has dropped and the quote is the old one: the run
    is the same as before. *)
Lemma X16_only_the_prices_are_read_witness :
  Provider.tasks Sample.reconnecting <> Provider.tasks Sample.streaming /\
  BestOrder.execute Sample.accept Sample.soon Sample.venue Sample.cached Sample.streaming
    "BTC-USD" "buy" (Sample.dec 1000 0)
  = BestOrder.execute Sample.accept Sample.soon Sample.venue Sample.cached Sample.reconnecting
      "BTC-USD" "buy" (Sample.dec 1000 0).
Proof.
  split; [vm_compute; discriminate|].
  apply (X16_only_the_prices_are_read Sample.accept Sample.soon Sample.venue Sample.cached
           Sample.streaming Sample.reconnecting "BTC-USD" "buy" (Sample.dec 1000 0)).
  vm_compute; reflexivity.
Defined.

Section SideFacts.
Import BestOrder.
Variable place_order : order -> placement.

Lemma buy_or_sell side : is_buy side = true -> is_sell side = true -> False.
Proof.
  unfold is_buy, is_sell. cbn zeta. rewrite !orb_true_iff, !String.eqb_eq.
  intros [-> | ->] [H|H]; discriminate.
Qed.

(** Telling a log again leaves its error records as they are. *)
Lemma retold_errors side l :
  filter (fun msg => is_error msg = true) (map (retold side) l)
  = filter (fun msg => is_error msg = true) l.
Proof.
  induction l as [|m r IH]; [reflexivity|].
  destruct m; cbn [map retold]; rewrite !filter_cons; cbn [is_error]; rewrite IH; reflexivity.
Qed.

(** The run depends on the side only through the two tests, but for the
    side that the record of the price taken names. *)
Lemma execute_side now api mu prov market side side' amount :
  is_buy side = is_buy side' -> is_sell side = is_sell side' ->
  is_buy side || is_sell side = true ->
  told_with side (execute place_order now api mu prov market side amount)
                 (execute place_order now api mu prov market side' amount).
Proof.
  intros Hb Hs Hv. unfold told_with. rewrite !execute_unfold.
  set (mu' := (MarketUtils.get_market_object now api mu market).1.2).
  set (n := (MarketUtils.get_market_object now api mu market).2).
  unfold body. destruct (_.1.1) as [mc|]; [|cbn; auto].
  destruct (MarketUtils.trading_config mc) as [tc|]; [|cbn; auto].
  destruct (Provider.get_best_bid_ask prov market) as [qt|]; [|cbn; auto].
  assert (Hplace : forall price lg lg',
            lg = map (retold side) lg' ->
            let r := match place place_order tc market side amount price lg with
                     | (Return v, ef) => Outcome v ef mu' n
                     | (Raised e, ef) =>
                         Outcome None (Effects (log ef ++ [handler market e ef]) (sent ef)) mu' n
                     end in
            let r' := match place place_order tc market side' amount price lg' with
                      | (Return v, ef) => Outcome v ef mu' n
                      | (Raised e, ef) =>
                          Outcome None (Effects (log ef ++ [handler market e ef]) (sent ef)) mu' n
                      end in
            returned r = returned r' /\ sent (eff r) = sent (eff r') /\
            cache r = cache r' /\ fetches r = fetches r' /\
            log (eff r) = map (retold side) (log (eff r'))).
  { intros price lg lg' ->. unfold place. rewrite <- Hb.
    destruct (sizes tc amount price) as [[mn qty]|e].
    - destruct (Decimal.ltb qty mn).
      + cbn. rewrite map_app. auto.
      + destruct (place_order _) as [id|msg]; cbn; rewrite ?map_app; cbn.
        * auto.
        * do 4 (split; [reflexivity|]). f_equal.
          unfold handler, quantity_in_locals. cbn.
          destruct (PyStr.contains _ _); [reflexivity|].
          destruct (PyStr.contains _ _); reflexivity.
    - cbn. rewrite map_app, !handler_decimal. cbn. auto. }
  unfold with_price. rewrite <- Hb, <- Hs.
  destruct (is_buy side).
  - destruct (PyVal.truthy _); [|cbn; auto].
    destruct (PyVal.to_decimal _) as [price|e]; [apply Hplace; reflexivity|].
    cbn. rewrite !handler_decimal. cbn. auto.
  - destruct (is_sell side); [|discriminate].
    destruct (PyVal.truthy _); [|cbn; auto].
    destruct (PyVal.to_decimal _) as [price|e]; [apply Hplace; reflexivity|].
    cbn. rewrite !handler_decimal. cbn. auto.
Qed.

(** X17. The two names of a side are one, in any casing.  A run of
    [execute] with a side that is read as a buy returns the value, sends
    the orders, leaves the cache and makes the fetches of the run with
    "buy", and hands the same error records to the logger; its log is that
    of the run with "buy", but that the record of the price taken (line
    44) names the side as it was typed.  The same holds of a side that is
    read as a sell and of "sell".  No side is read both as a buy and as a
    sell. *)
Theorem X17_side_aliases now api mu prov market side amount :
  let r := execute place_order now api mu prov market side amount in
  (is_buy side = true ->
   told_with side r (execute place_order now api mu prov market "buy" amount) /\
   errors r = errors (execute place_order now api mu prov market "buy" amount)) /\
  (is_sell side = true ->
   told_with side r (execute place_order now api mu prov market "sell" amount) /\
   errors r = errors (execute place_order now api mu prov market "sell" amount)) /\
  ~ (is_buy side = true /\ is_sell side = true).
Proof.
  assert (He : forall side',
            told_with side (execute place_order now api mu prov market side amount)
                           (execute place_order now api mu prov market side' amount) ->
            errors (execute place_order now api mu prov market side amount)
            = errors (execute place_order now api mu prov market side' amount)).
  { intros side' (_ & _ & _ & _ & Hl). unfold errors. rewrite Hl. apply retold_errors. }
  cbn zeta. split; [|split].
  - intros Hb.
    assert (Hs : is_sell side = false).
    { destruct (is_sell side) eqn:E; [|reflexivity]. destruct (buy_or_sell side Hb E). }
    assert (T : told_with side (execute place_order now api mu prov market side amount)
                               (execute place_order now api mu prov market "buy" amount))
      by (apply execute_side; rewrite ?Hb, ?Hs; reflexivity).
    split; [exact T|exact (He _ T)].
  - intros Hs.
    assert (Hb : is_buy side = false).
    { destruct (is_buy side) eqn:E; [|reflexivity]. destruct (buy_or_sell side E Hs). }
    assert (T : told_with side (execute place_order now api mu prov market side amount)
                               (execute place_order now api mu prov market "sell" amount))
      by (apply execute_side; rewrite ?Hb, ?Hs; reflexivity).
    split; [exact T|exact (He _ T)].
  - intros [Hb Hs]. exact (buy_or_sell side Hb Hs).
Qed.

End SideFacts.

(** "Bb" is a buy: the run is that of "buy", but for the side that the
    debug record of the price names. *)
Lemma X17_side_aliases_witness :
  let r := BestOrder.execute Sample.accept Sample.soon Sample.venue Sample.cached
             Sample.streaming "BTC-USD" "Bb" (Sample.dec 1000 0) in
  let r' := BestOrder.execute Sample.accept Sample.soon Sample.venue Sample.cached
              Sample.streaming "BTC-USD" "buy" (Sample.dec 1000 0) in
  BestOrder.is_buy "Bb" = true /\
  (told_with "Bb" r r' /\ errors r = errors r') /\
  In (BestOrder.UsingBid (Sample.dec 100 0) "BTC-USD" "Bb") (BestOrder.log (BestOrder.eff r)) /\
  In (BestOrder.UsingBid (Sample.dec 100 0) "BTC-USD" "buy") (BestOrder.log (BestOrder.eff r')).
Proof.
  intros r r'.
  assert (H : BestOrder.is_buy "Bb" = true) by (vm_compute; reflexivity).
  split; [exact H|]. split.
  - exact (proj1 (X17_side_aliases Sample.accept Sample.soon Sample.venue Sample.cached
                    Sample.streaming "BTC-USD" "Bb" (Sample.dec 1000 0)) H).
  - split; vm_compute; auto.
Defined.

Section StringFacts.

Lemma contains_cons needle c hay :
  PyStr.contains needle hay = true -> PyStr.contains needle (String c hay) = true.
Proof. intros H. cbn [PyStr.contains]. rewrite H. apply orb_true_r. Qed.

Lemma contains_append needle pre hay :
  PyStr.contains needle hay = true -> PyStr.contains needle (pre ++ hay) = true.
Proof.
  intros H. induction pre as [|c r IH]; [exact H|].
  change (String c r ++ hay)%string with (String c (r ++ hay)%string).
  apply contains_cons, IH.
Qed.

End StringFacts.

Section FilterFacts.
Import BestOrder.
Variable place_order : order -> placement.

(** A run that has sent an order which the venue rejected: what it logs. *)
Lemma rejected_log now api mu prov market side amount o em :
  sent (eff (execute place_order now api mu prov market side amount)) = [o] ->
  place_order o = Rejected em ->
  returned (execute place_order now api mu prov market side amount) = None /\
  errors (execute place_order now api mu prov market side amount)
  = [handler market (ClientException em) (Effects [] [o])].
Proof.
  intros Hs Hrej. revert Hs. unfold errors. rewrite execute_unfold.
  destruct (config_of now api mu market) as [tc|] eqn:Hc.
  2:{ rewrite (body_no_config _ _ _ _ _ _ _ _ Hc). discriminate. }
  rewrite (body_config _ _ _ _ _ _ _ _ _ Hc).
  destruct (Provider.get_best_bid_ask prov market) as [qt|]; [|discriminate].
  pose proof (with_price_cases place_order tc market side amount qt) as W.
  destruct (reference_price side qt) as [price|].
  2:{ destruct W as [W1 W2].
      destruct (with_price place_order tc market side amount qt) as [[v|e] ef]; cbn in *;
        rewrite W1; discriminate. }
  rewrite W.
  pose proof (place_cases place_order tc market side amount price
                [if is_buy side then UsingBid price market side else UsingAsk price market side]) as P.
  destruct (sizes tc amount price) as [[mn qty]|e]; [|rewrite P; discriminate].
  destruct (Decimal.ltb qty mn); [rewrite P; discriminate|].
  cbn zeta in P.
  destruct (place_order (Order market qty price (side_of side) true)) as [id|msg] eqn:Epl;
    rewrite P; cbn [sent eff returned log].
  - intros [= <-]. congruence.
  - intros [= <-]. rewrite Epl in Hrej. injection Hrej as ->. split; [reflexivity|].
    set (h := handler _ _ _).
    assert (Hh : is_error h = true) by apply handler_kind.
    assert (Heq : h = handler market (ClientException em)
                        (Effects [] [Order market qty price (side_of side) true]))
      by reflexivity.
    destruct (is_buy side); cbn; rewrite Hh; cbn; rewrite Heq; reflexivity.
Qed.

(** X18. The filter on the strategy's logger hides venue rejections.  The
    record of line 94 is dropped exactly when the text of the exception
    holds both "Error response from POST" and "api.extended.exchange".  So
    when the venue rejects an order with such a text, and the text is
    neither that of a short balance nor that of a wrong precision, the run
    returns nothing and its only error record is one that the filter
    drops. *)
Theorem X18_filter_hides_venue_rejections :
  (forall em,
     APIMessageFilter.filter (unexpected_error_text em) = false <->
     PyStr.contains "Error response from POST" em = true /\
     PyStr.contains "api.extended.exchange" em = true) /\
  (forall now api mu prov market side amount o em,
     sent (eff (execute place_order now api mu prov market side amount)) = [o] ->
     place_order o = Rejected em ->
     PyStr.contains "Error response from POST" em = true ->
     PyStr.contains "api.extended.exchange" em = true ->
     PyStr.contains "New order cost exceeds available balance" em = false ->
     PyStr.contains "Invalid quantity precision" em = false ->
     returned (execute place_order now api mu prov market side amount) = None /\
     errors (execute place_order now api mu prov market side amount) = [UnexpectedError em] /\
     APIMessageFilter.filter (unexpected_error_text em) = false).
Proof.
  assert (Hiff : forall em,
     APIMessageFilter.filter (unexpected_error_text em) = false <->
     PyStr.contains "Error response from POST" em = true /\
     PyStr.contains "api.extended.exchange" em = true).
  { intros em. unfold APIMessageFilter.filter, unexpected_error_text.
    rewrite negb_false_iff, andb_true_iff.
    assert (H1 : PyStr.contains "Error response from POST"
                   ("[BestOrderStrategy] An unexpected error occurred: " ++ em)
                 = PyStr.contains "Error response from POST" em).
    { cbn. reflexivity. }
    assert (H2 : PyStr.contains "api.extended.exchange"
                   ("[BestOrderStrategy] An unexpected error occurred: " ++ em)
                 = PyStr.contains "api.extended.exchange" em).
    { cbn. reflexivity. }
    rewrite H1, H2. reflexivity. }
  split; [exact Hiff|].
  intros now api mu prov market side amount o em Hs Hrej HA HB Hbal Hprec.
  destruct (rejected_log _ _ _ _ _ _ _ _ _ Hs Hrej) as [Hr He].
  split; [exact Hr|]. split; [|apply Hiff; auto].
  rewrite He. unfold handler. cbn [str_exn]. rewrite Hbal, Hprec. reflexivity.
Qed.

End FilterFacts.

(** The venue turns the order down because the market is not active: the
    record of the failure is one that the filter drops. *)
Lemma X18_filter_hides_venue_rejections_witness :
  let o := BestOrder.Order "BTC-USD" (Sample.dec 1000 (-2)) (Sample.dec 100 0) BestOrder.BUY true in
  let em := "Error response from POST https://api.extended.exchange/api/v1/user/order: code 1121 - Market is not active"%string in
  let r := BestOrder.execute Sample.venue_says_no Sample.soon Sample.venue Sample.cached
             Sample.streaming "BTC-USD" "buy" (Sample.dec 1000 0) in
  BestOrder.sent (BestOrder.eff r) = [o] /\
  Sample.venue_says_no o = BestOrder.Rejected em /\
  BestOrder.returned r = None /\
  errors r = [BestOrder.UnexpectedError em] /\
  APIMessageFilter.filter (BestOrder.unexpected_error_text em) = false.
Proof.
  intros o em r.
  assert (Hs : BestOrder.sent (BestOrder.eff r) = [o]) by (vm_compute; reflexivity).
  assert (Hp : Sample.venue_says_no o = BestOrder.Rejected em) by reflexivity.
  split; [exact Hs|]. split; [exact Hp|].
  apply (proj2 (X18_filter_hides_venue_rejections Sample.venue_says_no) Sample.soon Sample.venue
           Sample.cached Sample.streaming "BTC-USD" "buy" (Sample.dec 1000 0) o em Hs Hp);
    vm_compute; reflexivity.
Defined.

(* ===================================================================== *)
(** ** The command line                                                  *)
(* ===================================================================== *)

Section Names.
Import TradingCLI.

Lemma upper_app a b : PyStr.upper (a ++ b) = (PyStr.upper a ++ PyStr.upper b)%string.
Proof.
  induction a as [|c r IH]; [reflexivity|].
  change (String c r ++ b)%string with (String c (r ++ b)%string).
  cbn [PyStr.upper]. rewrite IH. reflexivity.
Qed.

Lemma upper_lower_ascii c : PyStr.upper_ascii (PyStr.lower_ascii c) = PyStr.upper_ascii c.
Proof. destruct c as [[] [] [] [] [] [] [] []]; vm_compute; reflexivity. Qed.

Lemma upper_lower s : PyStr.upper (PyStr.lower s) = PyStr.upper s.
Proof.
  induction s as [|c r IH]; [reflexivity|]. cbn. rewrite IH, upper_lower_ascii. reflexivity.
Qed.

Lemma ends_with_append suffix a : PyStr.ends_with suffix (a ++ suffix) = true.
Proof.
  induction a as [|c r IH].
  - change ("" ++ suffix)%string with suffix.
    destruct suffix; cbn [PyStr.ends_with]; rewrite String.eqb_refl; reflexivity.
  - change (String c r ++ suffix)%string with (String c (r ++ suffix)%string).
    cbn [PyStr.ends_with]. rewrite IH. apply orb_true_r.
Qed.

(** A name that ends with "-USD" has a dash. *)
Lemma ends_with_dash u : PyStr.ends_with "-USD" u = true -> PyStr.contains "-" u = true.
Proof.
  induction u as [|c r IH]; [cbn; discriminate|].
  cbn [PyStr.ends_with]. intros H. apply orb_true_iff in H. destruct H as [H|H].
  - apply String.eqb_eq in H. rewrite <- H. reflexivity.
  - apply contains_cons, IH, H.
Qed.

Lemma normalized_by_dash market :
  normalized_market_name market =
  if PyStr.contains "-" (PyStr.upper market) then PyStr.upper market
  else (PyStr.upper market ++ "-USD")%string.
Proof.
  unfold normalized_market_name. cbn zeta.
  destruct (PyStr.contains "-" (PyStr.upper market)) eqn:Ed.
  - rewrite andb_false_r. reflexivity.
  - destruct (PyStr.ends_with "-USD" (PyStr.upper market)) eqn:Ee; [|reflexivity].
    apply ends_with_dash in Ee. congruence.
Qed.

(** X19. The name under which the CLI knows a market.  It is the name in
    capitals when that has a dash, and the name in capitals followed by
    "-USD" when it has none (the test for the ending "-USD" never decides).
    It is in capitals and has a dash, normalizing it again changes nothing,
    and the casing of what was typed plays no part.  The provider, which
    puts its keys in capitals, therefore files the market under this very
    name, the one under which the metadata are looked up. *)
Theorem X19_normalized_market_name market :
  let name := normalized_market_name market in
  (PyStr.contains "-" (PyStr.upper market) = true -> name = PyStr.upper market) /\
  (PyStr.contains "-" (PyStr.upper market) = false ->
   name = (PyStr.upper market ++ "-USD")%string) /\
  PyStr.upper name = name /\
  PyStr.contains "-" name = true /\
  normalized_market_name name = name /\
  normalized_market_name (PyStr.upper market) = name /\
  normalized_market_name (PyStr.lower market) = name /\
  (forall s, Provider.get_best_bid_ask s name = Provider._latest_market_data s !! name) /\
  (forall s, Provider.is_active (Provider.start_streams [name] s) name = true).
Proof.
  cbn zeta. set (name := normalized_market_name market).
  assert (Hn : name = if PyStr.contains "-" (PyStr.upper market) then PyStr.upper market
                      else (PyStr.upper market ++ "-USD")%string)
    by apply normalized_by_dash.
  assert (Hup : PyStr.upper name = name).
  { rewrite Hn. destruct (PyStr.contains _ _); [apply upper_idem|].
    rewrite upper_app, upper_idem. reflexivity. }
  assert (Hdash : PyStr.contains "-" name = true).
  { rewrite Hn. destruct (PyStr.contains _ _) eqn:E; [exact E|].
    apply contains_append. reflexivity. }
  split; [intros E; rewrite Hn, E; reflexivity|].
  split; [intros E; rewrite Hn, E; reflexivity|].
  split; [exact Hup|]. split; [exact Hdash|].
  split; [rewrite normalized_by_dash, Hup, Hdash; reflexivity|].
  split; [rewrite normalized_by_dash, upper_idem; symmetry; exact Hn|].
  split; [rewrite normalized_by_dash, upper_lower; symmetry; exact Hn|].
  split.
  - intros s. unfold Provider.get_best_bid_ask. rewrite Hup. reflexivity.
  - intros s. unfold Provider.is_active. rewrite start_streams_active.
    cbn [map]. rewrite Hup. rewrite bool_decide_eq_true_2 by left. reflexivity.
Qed.

End Names.

Section Dispatch.
Import TradingCLI.
Variable py_float : string -> option Decimal.t.

Lemma int_digits_nonneg s : forall acc,
  PyStr.all_digits s = true -> 0 <= acc -> 0 <= PyStr.int_digits s acc.
Proof.
  induction s as [|c r IH]; intros acc; cbn [PyStr.all_digits PyStr.int_digits]; [auto|].
  intros H Hacc. apply andb_true_iff in H. destruct H as [Hc Hr].
  apply IH; [exact Hr|].
  unfold PyStr.is_digit in Hc. cbn zeta in Hc. apply andb_true_iff in Hc.
  destruct Hc as [H1 H2]. apply Nat.leb_le in H1, H2. lia.
Qed.

Lemma lower_ascii_cases c :
  c = PyStr.lower_ascii c \/ c = PyStr.upper_ascii (PyStr.lower_ascii c).
Proof. destruct c as [[] [] [] [] [] [] [] []]; vm_compute; auto. Qed.

(** The command that cancels all orders, in any casing. *)
Lemma close_all_dispatch command :
  PyStr.lower command = "close all"%string -> process_command py_float command = HandleCloseAllOrders.
Proof.
  intros H.
  do 9 (destruct command as [|? command]; [discriminate|]).
  destruct command; [|discriminate].
  cbn [PyStr.lower] in H.
  injection H as H1 H2 H3 H4 H5 H6 H7 H8 H9.
  destruct (lower_ascii_cases a) as [E1|E1]; rewrite H1 in E1;
  destruct (lower_ascii_cases a0) as [E2|E2]; rewrite H2 in E2;
  destruct (lower_ascii_cases a1) as [E3|E3]; rewrite H3 in E3;
  destruct (lower_ascii_cases a2) as [E4|E4]; rewrite H4 in E4;
  destruct (lower_ascii_cases a3) as [E5|E5]; rewrite H5 in E5;
  destruct (lower_ascii_cases a4) as [E6|E6]; rewrite H6 in E6;
  destruct (lower_ascii_cases a5) as [E7|E7]; rewrite H7 in E7;
  destruct (lower_ascii_cases a6) as [E8|E8]; rewrite H8 in E8;
  destruct (lower_ascii_cases a7) as [E9|E9]; rewrite H9 in E9;
  subst; vm_compute; reflexivity.
Qed.

(** What can be read off the call that a command leads to. *)
Lemma dispatch_inv command :
  match process_command py_float command with
  | ShowMarkets (Some n) => 0 <= n
  | ExecuteBestOrder market side amount_usd =>
      (side = "BB"%string \/ side = "BA"%string) /\
      exists p1 p2, PyStr.split (PyStr.strip command) = [market; p1; p2] /\
                    PyStr.upper p1 = side /\ py_float p2 = Some amount_usd
  | HandleCloseAllOrders => PyStr.lower command = "close all"%string
  | HandleLoad ms | HandleUnload ms =>
      exists p0, PyStr.split (PyStr.strip command) = p0 :: ms
  | _ => True
  end.
Proof.
  unfold process_command. cbn zeta.
  destruct (PyStr.split (PyStr.strip command)) as [|p0 rest]; [exact I|].
  destruct (String.eqb (PyStr.lower p0) "exit"); [exact I|].
  destruct (String.eqb (PyStr.lower p0) "help"); [exact I|].
  destruct (String.eqb (PyStr.lower p0) "load"); [eauto|].
  destruct (String.eqb (PyStr.lower p0) "unload"); [eauto|].
  destruct (String.eqb (PyStr.lower p0) "load?"); [exact I|].
  destruct (String.eqb (PyStr.lower p0) "markets").
  { destruct rest as [|p1 [|? ?]]; try exact I.
    destruct (PyStr.isdigit p1) eqn:Ed; [|exact I].
    unfold PyStr.isdigit in Ed. apply andb_true_iff in Ed.
    apply int_digits_nonneg; [apply Ed|lia]. }
  destruct (String.eqb (PyStr.lower p0) "position"); [destruct rest; exact I|].
  destruct (String.eqb (PyStr.lower command) "close all") eqn:Ec;
    [apply String.eqb_eq, Ec|].
  destruct rest as [|p1 [|p2 [|? ?]]]; try exact I.
  destruct (String.eqb (PyStr.upper p1) "BB" || String.eqb (PyStr.upper p1) "BA") eqn:Es;
    [|exact I].
  destruct (py_float p2) as [amount|] eqn:Ef; [|exact I].
  split.
  - apply orb_true_iff in Es. destruct Es as [E|E]; apply String.eqb_eq in E; auto.
  - exists p1, p2. auto.
Qed.

End Dispatch.

Section CliOrders.
Import BestOrder.
Variable place_order : order -> placement.

(** What an order that was sent carries. *)
Lemma sent_fields now api mu prov market side amount o :
  In o (sent (eff (execute place_order now api mu prov market side amount))) ->
  market_name o = market /\ BestOrder.side o = side_of side /\ post_only o = true /\
  (is_buy side = true \/ is_sell side = true).
Proof.
  rewrite execute_unfold.
  destruct (config_of now api mu market) as [tc|] eqn:Hc.
  2:{ rewrite (body_no_config _ _ _ _ _ _ _ _ Hc). intros []. }
  rewrite (body_config _ _ _ _ _ _ _ _ _ Hc).
  destruct (Provider.get_best_bid_ask prov market) as [qt|]; [|intros []].
  pose proof (with_price_cases place_order tc market side amount qt) as W.
  destruct (reference_price side qt) as [price|] eqn:Hp.
  2:{ destruct W as [W1 _].
      destruct (with_price place_order tc market side amount qt) as [[v|e] ef]; cbn in *;
        rewrite W1; intros []. }
  rewrite W.
  assert (Hside : is_buy side = true \/ is_sell side = true).
  { destruct (reference_price_side _ _ _ Hp) as [[H _]|(_ & H & _)]; auto. }
  pose proof (place_cases place_order tc market side amount price
                [if is_buy side then UsingBid price market side else UsingAsk price market side]) as P.
  destruct (sizes tc amount price) as [[mn qty]|e]; [|rewrite P; intros []].
  destruct (Decimal.ltb qty mn); [rewrite P; intros []|].
  cbn zeta in P.
  destruct (place_order (Order market qty price (side_of side) true)) as [id|msg];
    rewrite P; cbn [sent eff]; intros [<-|[]]; cbn; auto.
Qed.

(** With a side that is one of the aliases, no record says that the side
    is invalid. *)
Lemma valid_side_log now api mu prov market side amount msg :
  is_buy side = true \/ is_sell side = true ->
  In msg (log (eff (execute place_order now api mu prov market side amount))) ->
  failure_of msg <> Some InvalidSide.
Proof.
  intros Hside. rewrite execute_unfold.
  set (mc := (MarketUtils.get_market_object now api mu market).1.1).
  assert (Hplace : forall tc price lg m,
            (forall x, In x lg -> failure_of x <> Some InvalidSide) ->
            In m (log (place place_order tc market side amount price lg).2) ->
            failure_of m <> Some InvalidSide).
  { intros tc price lg m Hlg. unfold place.
    destruct (sizes tc amount price) as [[mn qty]|e]; [|apply Hlg].
    destruct (Decimal.ltb qty mn).
    - cbn. rewrite in_app_iff. intros [H|[<-|[]]]; [apply Hlg, H|discriminate].
    - destruct (place_order _) as [id|em]; cbn; rewrite in_app_iff;
        (intros [H|H]; [apply Hlg, H|]).
      + destruct H as [<-|[<-|[]]]; discriminate.
      + destruct H as [<-|[]]; discriminate. }
  assert (Hbody : forall m, In m (log (body place_order mc prov market side amount).2) ->
                            failure_of m <> Some InvalidSide).
  { intros m. unfold body.
    destruct mc as [c|]; [|cbn; intros [<-|[]]; discriminate].
    destruct (MarketUtils.trading_config c) as [tc|]; [|cbn; intros [<-|[]]; discriminate].
    destruct (Provider.get_best_bid_ask prov market) as [qt|];
      [|cbn; intros [<-|[]]; discriminate].
    unfold with_price.
    destruct (is_buy side) eqn:Eb.
    - destruct (PyVal.truthy _); [|cbn; intros [<-|[]]; discriminate].
      destruct (PyVal.to_decimal _) as [price|e]; [|intros []].
      apply Hplace. intros x [<-|[]]. discriminate.
    - destruct (is_sell side) eqn:Es; [|destruct Hside; discriminate].
      destruct (PyVal.truthy _); [|cbn; intros [<-|[]]; discriminate].
      destruct (PyVal.to_decimal _) as [price|e]; [|intros []].
      apply Hplace. intros x [<-|[]]. discriminate. }
  destruct (body place_order mc prov market side amount) as [[v|e] ef]; cbn in *.
  - apply Hbody.
  - rewrite in_app_iff. intros [H|[<-|[]]]; [apply Hbody, H|].
    destruct (handler_kind market e ef) as [_ [H|[H|H]]]; rewrite H; discriminate.
Qed.

Section WithFloat.
Variable py_float : string -> option Decimal.t.
Import TradingCLI.

(** X20. An order typed at the prompt.  A command leads to the strategy only
    when it has three words of which the second is BB or BA in some
    casing; the strategy then gets the normalized market name and the side
    in capitals.  So such a run never fails for an invalid side, and an
    order that it sends is for the normalized market name, post-only, a
    buy for BB and a sell for BA. *)
Theorem X20_orders_from_the_prompt command market side amount_usd now api mu prov :
  process_command py_float command = ExecuteBestOrder market side amount_usd ->
  let r := execute_best_order place_order now api mu prov market side amount_usd in
  (side = "BB"%string \/ side = "BA"%string) /\
  failure_kind r <> Some InvalidSide /\
  forall o, In o (sent (eff r)) ->
    market_name o = normalized_market_name market /\
    post_only o = true /\
    BestOrder.side o = (if String.eqb side "BB" then BUY else SELL).
Proof.
  intros Hc. cbn zeta. pose proof (dispatch_inv py_float command) as Hi. rewrite Hc in Hi.
  destruct Hi as [Hside _]. split; [exact Hside|].
  assert (Hvalid : is_buy side = true \/ is_sell side = true).
  { destruct Hside as [-> | ->]; [left|right]; reflexivity. }
  unfold execute_best_order. split.
  - pose proof (outcome_cases place_order now api mu prov (normalized_market_name market)
                  side amount_usd) as Ho.
    cbn zeta in Ho. destruct (returned _) as [id|].
    + destruct Ho as (_ & -> & _). discriminate.
    + destruct Ho as (msg & k & He & Hl & Hf & ->).
      assert (Hin : In msg (log (eff (execute place_order now api mu prov
                                        (normalized_market_name market) side amount_usd)))).
      { destruct (log _) as [|x l] using rev_ind; [discriminate|].
        rewrite last_snoc in Hl. injection Hl as ->. apply in_app_iff. right. left. reflexivity. }
      pose proof (valid_side_log _ _ _ _ _ _ _ _ Hvalid Hin) as Hn. congruence.
  - intros o Ho. destruct (sent_fields _ _ _ _ _ _ _ _ Ho) as (A & B & C & _).
    split; [exact A|]. split; [exact C|]. rewrite B. unfold side_of.
    destruct Hside as [-> | ->]; reflexivity.
Qed.

(** X21. What a command leads to.  The number given to "markets" is never
    negative.  "close all" is obeyed when the line, put in lower case, is
    exactly these two words with one blank, and not otherwise: a blank
    before or after, or two blanks between, make it an unknown command.
    And "unload" with anything but the single word ALL leaves the provider
    as it is. *)
Theorem X21_what_a_command_leads_to :
  (forall command n, process_command py_float command = ShowMarkets (Some n) -> 0 <= n) /\
  (forall command,
     process_command py_float command = HandleCloseAllOrders <->
     PyStr.lower command = "close all"%string) /\
  process_command py_float " close all" = UnknownCommand /\
  process_command py_float "close  all" = UnknownCommand /\
  process_command py_float "Close All " = UnknownCommand /\
  (forall env items markets_to_unload prov,
     unload_all markets_to_unload = false ->
     handle_unload_command env items markets_to_unload prov = Some prov) /\
  (forall markets_to_unload,
     unload_all markets_to_unload = true <->
     exists m, markets_to_unload = [m] /\ PyStr.upper m = "ALL"%string).
Proof.
  split; [|split; [|split; [|split; [|split; [|split]]]]].
  - intros command n H. pose proof (dispatch_inv py_float command) as Hi.
    rewrite H in Hi. exact Hi.
  - intros command. split.
    + intros H. pose proof (dispatch_inv py_float command) as Hi. rewrite H in Hi. exact Hi.
    + apply close_all_dispatch.
  - vm_compute. reflexivity.
  - vm_compute. reflexivity.
  - vm_compute. reflexivity.
  - intros env items ms prov H. unfold handle_unload_command. rewrite H. reflexivity.
  - intros ms. unfold unload_all. destruct ms as [|m [|? ?]].
    + split; [discriminate|intros (m & E & _); discriminate].
    + rewrite String.eqb_eq. split; [eauto|intros (m' & [= ->] & E); exact E].
    + split; [discriminate|intros (m' & E & _); discriminate].
Qed.

End WithFloat.
End CliOrders.

(** "btc bb 1000" at the prompt: a post-only buy of BTC-USD. *)
Lemma X20_orders_from_the_prompt_witness :
  let o := BestOrder.Order "BTC-USD" (Sample.dec 1000 (-2)) (Sample.dec 100 0) BestOrder.BUY true in
  let r := TradingCLI.execute_best_order Sample.accept Sample.soon Sample.venue Sample.cached
             Sample.streaming "btc" "BB" (Sample.dec 10000 (-1)) in
  TradingCLI.process_command Sample.whole_float "btc bb 1000"
  = TradingCLI.ExecuteBestOrder "btc" "BB" (Sample.dec 10000 (-1)) /\
  BestOrder.sent (BestOrder.eff r) = [o] /\
  BestOrder.failure_kind r <> Some BestOrder.InvalidSide /\
  BestOrder.market_name o = TradingCLI.normalized_market_name "btc" /\
  BestOrder.post_only o = true /\
  BestOrder.side o = BestOrder.BUY.
Proof.
  intros o r.
  assert (Hc : TradingCLI.process_command Sample.whole_float "btc bb 1000"
               = TradingCLI.ExecuteBestOrder "btc" "BB" (Sample.dec 10000 (-1)))
    by (vm_compute; reflexivity).
  assert (Hs : BestOrder.sent (BestOrder.eff r) = [o]) by (vm_compute; reflexivity).
  assert (Hin : In o (BestOrder.sent (BestOrder.eff r))) by (rewrite Hs; left; reflexivity).
  destruct (X20_orders_from_the_prompt Sample.accept Sample.whole_float "btc bb 1000" "btc" "BB"
              (Sample.dec 10000 (-1)) Sample.soon Sample.venue Sample.cached Sample.streaming Hc)
    as (_ & A & B).
  split; [exact Hc|]. split; [exact Hs|]. split; [exact A|]. exact (B o Hin).
Defined.

Section LoadFacts.
Import MarketUtils TradingCLI.

Lemma grown_keeps st st' k :
  grown st st' -> is_Some (ODict.get k (_market_cache st)) ->
  is_Some (ODict.get k (_market_cache st')).
Proof. intros [[l Hl] _]. rewrite !get_in_keys, Hl, in_app_iff. auto. Qed.

Lemma get_market_object_grown now a st k : grown st (get_market_object now a st k).1.2.
Proof.
  destruct (get_market_object_state now a st k) as [-> | ->];
    [apply grown_refl|apply fetch_shape].
Qed.

Lemma get_market_object_coherent now a st k :
  coherent st -> coherent (get_market_object now a st k).1.2.
Proof.
  intros H. destruct (get_market_object_state now a st k) as [-> | ->];
    [exact H|apply fetch_shape, H].
Qed.

Lemma normalized_upper raw :
  PyStr.upper (normalized_market_name raw) = normalized_market_name raw.
Proof.
  rewrite normalized_by_dash. destruct (PyStr.contains _ _); [apply upper_idem|].
  rewrite upper_app, upper_idem. reflexivity.
Qed.

Lemma validate_facts world markets : forall i mu,
  let '(validated, mu') := validate world i markets mu in
  grown mu mu' /\ (coherent mu -> coherent mu') /\
  validated `sublist_of` map normalized_market_name markets /\
  forall name, In name validated -> is_Some (ODict.get name (_market_cache mu')).
Proof.
  induction markets as [|raw r IH]; intros i mu; cbn [validate map].
  - split; [apply grown_refl|]. split; [auto|]. split; [constructor|intros ? []].
  - destruct (world i) as [now a].
    pose proof (get_market_object_grown now a mu (normalized_market_name raw)) as G1.
    pose proof (get_market_object_coherent now a mu (normalized_market_name raw)) as C1.
    pose proof (get_market_object_result now a mu (normalized_market_name raw)) as R1.
    destruct (get_market_object now a mu (normalized_market_name raw)) as [[info mu1] n].
    cbn [fst snd] in G1, C1, R1.
    specialize (IH (S i) mu1). destruct (validate world (S i) r mu1) as [validated mu2].
    destruct IH as (G2 & C2 & S2 & K2).
    assert (G : grown mu mu2) by (eapply grown_trans; eassumption).
    destruct info as [mk|].
    + destruct (String.eqb (name mk) (normalized_market_name raw)).
      * split; [exact G|]. split; [auto|]. split; [apply sublist_skip, S2|].
        intros nm [<-|Hin]; [|apply K2, Hin].
        apply (grown_keeps mu1 mu2 _ G2). rewrite <- R1. eauto.
      * split; [exact G|]. split; [auto|]. split; [apply sublist_cons, S2|exact K2].
    + split; [exact G|]. split; [auto|]. split; [apply sublist_cons, S2|exact K2].
Qed.

(** X22. What "load" starts.  [start_streams] is called only with names
    that the lookup has found: each is the normalized form of a name that
    was typed, in the order of typing, is in capitals (so that the provider
    files it under this very name), and is in the metadata cache when the
    call is made.  Names that are not found are left out and do not keep
    the others from being started; without any name found, or with no name
    typed, nothing is started.  The cache only grows on the way. *)
Theorem X22_load_starts_what_it_found world busy markets_to_load mu :
  let '(mu', started) := handle_load_command world busy markets_to_load mu in
  grown mu mu' /\ (coherent mu -> coherent mu') /\
  (markets_to_load = [] -> started = None /\ mu' = mu) /\
  (busy = true -> started = None) /\
  forall validated, started = Some validated ->
    validated <> [] /\
    validated `sublist_of` map normalized_market_name markets_to_load /\
    (forall name, In name validated ->
       PyStr.upper name = name /\
       is_Some (ODict.get name (_market_cache mu')) /\
       forall s, Provider.is_active (Provider.start_streams validated s) name = true).
Proof.
  unfold handle_load_command.
  destruct markets_to_load as [|raw r].
  { split; [apply grown_refl|]. split; [auto|]. split; [auto|].
    split; [auto|]. discriminate. }
  pose proof (validate_facts world (raw :: r) 0%nat mu) as V.
  destruct (validate world 0 (raw :: r) mu) as [validated mu'].
  destruct V as (G & C & S & K).
  destruct validated as [|v vs].
  { split; [exact G|]. split; [exact C|]. split; [discriminate|]. split; [auto|discriminate]. }
  destruct busy.
  { split; [exact G|]. split; [exact C|]. split; [discriminate|]. split; [auto|discriminate]. }
  split; [exact G|]. split; [exact C|]. split; [discriminate|]. split; [discriminate|].
  intros ? [= <-]. split; [discriminate|]. split; [exact S|].
  intros nm Hin.
  assert (Hup : PyStr.upper nm = nm).
  { assert (Hm : nm ∈ map normalized_market_name (raw :: r)).
    { eapply elem_of_sublist; [|exact S]. apply list_elem_of_In, Hin. }
    apply list_elem_of_In, in_map_iff in Hm. destruct Hm as (x & <- & _).
    apply normalized_upper. }
  split; [exact Hup|]. split; [apply K, Hin|].
  intros s. unfold Provider.is_active. rewrite start_streams_active.
  rewrite bool_decide_eq_true_2; [reflexivity|].
  apply list_elem_of_In, in_map_iff. exists nm. split; [exact Hup|exact Hin].
Qed.

End LoadFacts.

(** "load btc xrp eth-usd" on an empty cache: XRP is not listed and is
    left out, the two others are started. *)
Lemma X22_load_starts_what_it_found_witness :
  TradingCLI.handle_load_command Sample.world false ["btc"; "xrp"; "eth-usd"] MarketUtils.init
  = (Sample.cached, Some ["BTC-USD"; "ETH-USD"]%string) /\
  ["BTC-USD"; "ETH-USD"]%string
    `sublist_of` map TradingCLI.normalized_market_name ["btc"; "xrp"; "eth-usd"] /\
  is_Some (ODict.get "ETH-USD" (MarketUtils._market_cache Sample.cached)) /\
  forall s, Provider.is_active (Provider.start_streams ["BTC-USD"; "ETH-USD"] s) "ETH-USD" = true.
Proof.
  assert (Hl : TradingCLI.handle_load_command Sample.world false ["btc"; "xrp"; "eth-usd"]
                 MarketUtils.init
               = (Sample.cached, Some ["BTC-USD"; "ETH-USD"]%string))
    by (vm_compute; reflexivity).
  pose proof (X22_load_starts_what_it_found Sample.world false ["btc"; "xrp"; "eth-usd"]
                MarketUtils.init) as T.
  rewrite Hl in T. destruct T as (_ & _ & _ & _ & T).
  destruct (T _ eq_refl) as (_ & S & N).
  split; [exact Hl|]. split; [exact S|].
  destruct (N "ETH-USD"%string (or_intror (or_introl eq_refl))) as (_ & C & A).
  split; [exact C|exact A].
Defined.

Section TableFacts.
Import MarketUtils TradingCLI.
Variable py_float : PyVal.t -> option Q.
Hypothesis float_of_none : py_float PyVal.PyNone = None.






(* ---------- sorting and filtering ---------- *)


Lemma sorted_below x l :
  StronglySorted desc (x :: l) -> Forall (fun z => (snd z <= snd x)%Q) l.
Proof. intros H. inversion H; subst. assumption. Qed.











End TableFacts.


Section PositionFacts.
Import TradingCLI.
Variable account_get_positions : option (list string) -> option (list AccountUtils.position).

(** [str] of a decimal: plain where the exponent is not above zero and
    the number not too small, scientific otherwise. *)
Example decimal_texts :
  map Decimal.to_str
    [Sample.dec 1000 (-1); Sample.dec 100 0; Sample.dec 0 (-2); Decimal.Dec true 12345 (-2);
     Sample.dec 5 (-6); Sample.dec 5 (-7); Sample.dec 123 2; Sample.dec 1 16]
  = ["100.0"; "100"; "0.00"; "-123.45"; "0.000005"; "5E-7"; "1.23E+4"; "1E+16"]%string.
Proof. vm_compute; reflexivity. Qed.

(** A text without the first letter of a sentence does not hold the
    sentence, and may be skipped in the search for it. *)
Lemma contains_skip c needle b t :
  PyStr.contains (String c EmptyString) b = false ->
  PyStr.contains (String c needle) (b ++ t) = PyStr.contains (String c needle) t.
Proof.
  induction b as [|x r IH]; [reflexivity|]. intros H.
  simpl in H |- *.
  destruct (Ascii.eqb c x); [destruct r; discriminate|].
  exact (IH H).
Qed.

Lemma contains_none c needle b :
  PyStr.contains (String c EmptyString) b = false ->
  PyStr.contains (String c (String "i" needle)) b = false.
Proof.
  induction b as [|x r IH]; [reflexivity|]. intros H.
  simpl in H |- *.
  destruct (Ascii.eqb c x); [destruct r; discriminate|].
  exact (IH H).
Qed.

(** The line with a bid and an ask that have no capital L in them does not
    hold the sentence that sends [show_position] to the metadata. *)
Lemma live_text_plain bid ask :
  PyStr.contains "L" (PyVal.str bid) = false ->
  PyStr.contains "L" (PyVal.str ask) = false ->
  PyStr.contains "Live data found, but no bid/ask price." (text (LiveBidAsk bid ask)) = false.
Proof.
  intros Hb Ha. unfold text.
  generalize dependent (PyVal.str bid). generalize dependent (PyVal.str ask).
  intros a Ha b Hb.
  simpl.
  change (PyStr.contains "Live data found, but no bid/ask price."
            (b ++ ", Ask: " ++ a)%string = false).
  rewrite (contains_skip _ _ _ _ Hb). simpl.
  change (PyStr.contains "Live data found, but no bid/ask price." a = false).
  exact (contains_none _ _ _ Ha).
Qed.

(** X24. The price line of a position.  On a provider reached by any run
    from the start, a market with a quote is shown with its live bid and
    ask, and the metadata are not consulted, unless the line so made holds
    the sentence "Live data found, but no bid/ask price." (a feed may send
    any text as a price): then the last price of the metadata is shown if
    there is one, and the live line if not.  A line whose bid and ask have
    no capital L in them, as no number has, does not hold the sentence.
    The three other texts for live data are never shown.  A market
    without a quote is shown with the last price that the metadata lookup
    gives, or as not available.  And when the account cannot be read, the
    answer is the one for an account without positions. *)
Theorem X24_price_line_of_a_position evs prov now api mu market :
  Provider.run evs Provider.init = Some prov ->
  let looked_up := MarketUtils.get_market_object now api mu market in
  let from_rest fallback :=
    (match rest_price looked_up.1.1 with Some v => LastRest v | None => fallback end,
     looked_up.1.2, looked_up.2) in
  match Provider.get_best_bid_ask prov market with
  | Some qt =>
      let live := LiveBidAsk (Provider.bid_price qt) (Provider.ask_price qt) in
      price_line now api mu prov market
      = (if PyStr.contains "Live data found, but no bid/ask price." (text live)
         then from_rest live else (live, mu, 0%nat)) /\
      (PyStr.contains "L" (PyVal.str (Provider.bid_price qt)) = false ->
       PyStr.contains "L" (PyVal.str (Provider.ask_price qt)) = false ->
       price_line now api mu prov market = (live, mu, 0%nat))
  | None => price_line now api mu prov market = from_rest RestNotAvailable
  end /\
  ((forall market_names, account_get_positions market_names = None) ->
   forall world m st, show_position account_get_positions world m st = (None, st)) /\
  (forall world st,
     show_position account_get_positions world (Some ""%string) st
     = show_position account_get_positions world None st).
Proof.
  intros Hr looked_up from_rest.
  assert (Hrest : forall fallback,
            (let '(market_obj, mu', n) := MarketUtils.get_market_object now api mu market in
             (match
                match market_obj with
                | Some mk =>
                    match MarketUtils.market_stats mk with
                    | Some s =>
                        match MarketUtils.last_price s with
                        | PyVal.PyNone => None
                        | v => Some v
                        end
                    | None => None
                    end
                | None => None
                end
              with Some v => LastRest v | None => fallback end, mu', n))
            = from_rest fallback).
  { intros fallback. subst from_rest looked_up. cbv beta.
    destruct (MarketUtils.get_market_object now api mu market) as [[mo mu'] n].
    cbn [fst snd]. unfold rest_price.
    destruct mo as [mk|]; [|reflexivity].
    destruct (MarketUtils.market_stats mk) as [s|]; [|reflexivity].
    destruct (MarketUtils.last_price s); reflexivity. }
  split; [|split].
  - unfold price_line.
    destruct (Provider.get_best_bid_ask prov market) as [qt|] eqn:Hq.
    + assert (Hp : priced qt).
      { refine (run_priced _ _ _ Hr _ _ _ Hq).
        intros mk q; cbn; rewrite lookup_empty; discriminate. }
      destruct Hp as [Hb Ha]. rewrite Hb, Ha. cbn [andb]. cbv zeta.
      split.
      * rewrite <- Hrest. reflexivity.
      * intros Lb La. rewrite (live_text_plain _ _ Lb La). reflexivity.
    + exact (Hrest RestNotAvailable).
  - intros H world m st. unfold show_position, AccountUtils.get_positions.
    destruct m as [x|]; [destruct (PyStr.truthy x)|]; rewrite H; reflexivity.
  - intros world st. reflexivity.
Qed.

End PositionFacts.

(** The BTC position is shown with the live bid and ask; with a feed
    that sends the sentence as a bid, with the last price of the
    metadata. *)
Lemma X24_price_line_of_a_position_witness :
  Provider.run Sample.first_messages Provider.init = Some Sample.streaming /\
  Provider.get_best_bid_ask Sample.streaming "BTC-USD" = Some (Sample.book "100" "101") /\
  TradingCLI.price_line Sample.soon Sample.venue Sample.cached Sample.streaming "BTC-USD"
  = (TradingCLI.LiveBidAsk (PyVal.PyStr "100") (PyVal.PyStr "101"), Sample.cached, 0%nat) /\
  TradingCLI.price_line Sample.soon Sample.venue Sample.cached Sample.parrot "BTC-USD"
  = (TradingCLI.LastRest (Sample.num 100 0), Sample.cached, 0%nat) /\
  TradingCLI.show_position Sample.no_account
    (fun _ => (Sample.soon, Sample.venue, Sample.streaming)) None Sample.cached
  = (None, Sample.cached).
Proof.
  assert (Hr : Provider.run Sample.first_messages Provider.init = Some Sample.streaming)
    by (vm_compute; reflexivity).
  assert (Hq : Provider.get_best_bid_ask Sample.streaming "BTC-USD"
               = Some (Sample.book "100" "101")) by (vm_compute; reflexivity).
  pose proof (X24_price_line_of_a_position Sample.no_account Sample.first_messages
                Sample.streaming Sample.soon Sample.venue Sample.cached "BTC-USD" Hr)
    as (A & B & _).
  rewrite Hq in A. destruct A as [_ A].
  split; [exact Hr|]. split; [exact Hq|].
  split; [exact (A ltac:(vm_compute; reflexivity) ltac:(vm_compute; reflexivity))|].
  split; [vm_compute; reflexivity|].
  apply B. intros market_names. reflexivity.
Defined.
